(** * paper_watcher: a shallow embedding of [paper_watcher.py]

    The development follows the layout of the Python module: the string
    primitives of the interpreter that the program relies on, the
    [PaperInfo] data class, [URLParser] with its regular expressions,
    the HTTP clients, [PDFDownloader], [StateManager] and
    [MarkdownProcessor].  Definitions come first, the properties after
    them.

    Scope of the model.
    - A character is a code point below 256 ([ascii]); on that range
      [\d] is [0-9], [\s] and [str.strip] use the interpreter's
      whitespace table, and [re.IGNORECASE] only identifies [A-Z] with
      [a-z] for the letters that occur in the patterns.
    - The outside world (HTTP transport, clock, file system) is explicit
      state: a script of the outcomes of the coming requests, a logical
      clock, the files of the watched directory as they are stored, the
      persisted state document, and a trace of the requests, sleeps and
      file writes performed.
    - A file is read and written in text mode, as the program opens it:
      reading turns CR LF and CR into LF, writing turns LF into
      [os.linesep].
    - An answer of the citation-graph service that parses is a JSON
      object; each of its keys can be absent, hold [null], or hold a
      value of the documented type.  An element of the arXiv feed can
      be absent, or present without text.
    - What [os] does with a path is a parameter of the model: the
      functions of [os.path], [os.linesep], and whether a file can be
      created at a path. *)

From Stdlib Require Import ZArith Ascii String DecimalString Lia.
From stdpp Require Import gmap strings list.

Open Scope string_scope.

(** ** Interpreter primitives on [str] *)

Module Py.

(** [bool(s)] for a string: empty strings are falsy. *)
Definition truthy (s : string) : bool :=
  match s with EmptyString => false | String _ _ => true end.

(** [bool(o)] for an [Optional[str]]. *)
Definition truthy_opt (o : option string) : bool :=
  match o with Some s => truthy s | None => false end.

(** [o is not None]. *)
Definition present {A} (o : option A) : bool :=
  match o with Some _ => true | None => false end.

(** [c in chars]. *)
Fixpoint char_in (chars : string) (c : ascii) : bool :=
  match chars with
  | EmptyString => false
  | String d rest => Ascii.eqb c d || char_in rest c
  end.

(** [str.isspace] on one character: TAB..CR, FS..US, SPACE, NEL, NBSP. *)
Definition isspace (c : ascii) : bool :=
  let n := N_of_ascii c in
  ((9 <=? n) && (n <=? 13) || (28 <=? n) && (n <=? 31) || (n =? 32)
   || (n =? 133) || (n =? 160))%N.

(** [str.isdecimal] on one character. *)
Definition isdigit (c : ascii) : bool :=
  let n := N_of_ascii c in ((48 <=? n) && (n <=? 57))%N.

Fixpoint lstrip_by (p : ascii -> bool) (s : string) : string :=
  match s with
  | EmptyString => EmptyString
  | String c rest => if p c then lstrip_by p rest else s
  end.

Fixpoint rstrip_by (p : ascii -> bool) (s : string) : string :=
  match s with
  | EmptyString => EmptyString
  | String c rest =>
      match rstrip_by p rest with
      | EmptyString => if p c then EmptyString else String c EmptyString
      | r => String c r
      end
  end.

(** [s.rstrip(chars)] and [s.strip()]. *)
Definition rstrip (chars : string) (s : string) : string :=
  rstrip_by (char_in chars) s.

Definition strip (s : string) : string :=
  rstrip_by isspace (lstrip_by isspace s).

(** [s.split(sep)] for a one-character separator: never empty. *)
Fixpoint split (sep : ascii) (s : string) : list string :=
  match s with
  | EmptyString => [EmptyString]
  | String c rest =>
      if Ascii.eqb c sep then EmptyString :: split sep rest
      else match split sep rest with
           | l :: ls => String c l :: ls
           | [] => [String c EmptyString]
           end
  end.

(** [sep.join(parts)]. *)
Fixpoint join (sep : string) (parts : list string) : string :=
  match parts with
  | [] => EmptyString
  | [p] => p
  | p :: ps => p +:+ sep +:+ join sep ps
  end.

(** [s.split()]: the maximal runs of non-whitespace characters.  The
    accumulator [cur] is the run being read. *)
Fixpoint words_from (cur : string) (s : string) : list string :=
  match s with
  | EmptyString => if truthy cur then [cur] else []
  | String c rest =>
      if isspace c
      then (if truthy cur then cur :: words_from EmptyString rest
            else words_from EmptyString rest)
      else words_from (cur +:+ String c EmptyString) rest
  end.

Definition words (s : string) : list string := words_from EmptyString s.

(** [s[:n]]. *)
Fixpoint take (n : nat) (s : string) : string :=
  match n, s with
  | S k, String c rest => String c (take k rest)
  | _, _ => EmptyString
  end.

(** [s[n:]]. *)
Fixpoint drop (n : nat) (s : string) : string :=
  match n, s with
  | S k, String _ rest => drop k rest
  | _, _ => s
  end.

(** [re.sub('[chars]', '', s)]: delete every character of a class. *)
Fixpoint remove_chars (p : ascii -> bool) (s : string) : string :=
  match s with
  | EmptyString => EmptyString
  | String c rest =>
      if p c then remove_chars p rest else String c (remove_chars p rest)
  end.

(** [s.replace(a, b)] for one-character [a] and [b]. *)
Fixpoint replace_char (a b : ascii) (s : string) : string :=
  match s with
  | EmptyString => EmptyString
  | String c rest =>
      String (if Ascii.eqb c a then b else c) (replace_char a b rest)
  end.

(** The line feed, as a character and as a string. *)
Definition LF : ascii := "010"%char.
Definition NL : string := String LF EmptyString.

(** [c in s] for a one-character needle. *)
Definition contains (c : ascii) (s : string) : bool := char_in s c.

(** [s.startswith(p)]. *)
Fixpoint startswith (p s : string) : bool :=
  match p, s with
  | EmptyString, _ => true
  | String a p', String b s' => Ascii.eqb a b && startswith p' s'
  | String _ _, EmptyString => false
  end.

(** [str(n)] for an [int]. *)
Definition str_of_int (n : Z) : string :=
  NilZero.string_of_int (Z.to_int n).

(** [c.lower()] on the letters A-Z, the identity elsewhere. *)
Definition lower (c : ascii) : ascii :=
  let n := N_of_ascii c in
  if ((65 <=? n) && (n <=? 90))%N then ascii_of_N (n + 32) else c.

(** [s.lower()] and [s.lstrip()]. *)
Fixpoint lower_str (s : string) : string :=
  match s with
  | EmptyString => EmptyString
  | String c rest => String (lower c) (lower_str rest)
  end.

Definition lstrip (s : string) : string := lstrip_by isspace s.

(** The carriage return, and the line end CR LF. *)
Definition CR : ascii := "013"%char.
Definition CRLF : string := String CR NL.

(** What reading a file in text mode does to its line ends (universal
    newlines, the default of [open]): CR LF and a CR on its own become
    LF. *)
Fixpoint universal_newlines (s : string) : string :=
  match s with
  | EmptyString => EmptyString
  | String c rest =>
      if Ascii.eqb c CR
      then String LF
                  match rest with
                  | String d rest' =>
                      if Ascii.eqb d LF then universal_newlines rest'
                      else universal_newlines rest
                  | EmptyString => EmptyString
                  end
      else String c (universal_newlines rest)
  end.

(** What writing a file in text mode does: every LF becomes
    [linesep]; a CR is written as it is. *)
Fixpoint translate_newlines (linesep : string) (s : string) : string :=
  match s with
  | EmptyString => EmptyString
  | String c rest =>
      (if Ascii.eqb c LF then linesep else String c EmptyString)
        +:+ translate_newlines linesep rest
  end.

(** [requests] sends a request only for a URL that, leading whitespace
    and case apart, starts with [http://] or [https://]; for any other
    value [requests.get] raises ([MissingSchema], [InvalidSchema])
    before anything is sent. *)
Definition has_http_scheme (url : string) : bool :=
  let u := lower_str (lstrip url) in
  startswith "http://" u || startswith "https://" u.

End Py.

(** ** The [PaperInfo] data class

    The class declares [title: str] and [authors: List[str]], which
    Python does not enforce: the resolvers store there what the answer
    of the service holds, and that can be [None].  [Str] is what a
    title and a name are: [string] for a [PaperInfo] as declared,
    [option string] for one as a resolver hands it back. *)

Record PaperInfoOf (Str : Type) := mkPaperInfo {
  title : Str;
  authors : list Str;
  venue : string;
  year : string;
  arxiv_id : option string;
  doi : option string;
  pdf_url : option string;
  citations : option Z
}.

Arguments mkPaperInfo {Str} _ _ _ _ _ _ _ _.
Arguments title {Str} _.
Arguments authors {Str} _.
Arguments venue {Str} _.
Arguments year {Str} _.
Arguments arxiv_id {Str} _.
Arguments doi {Str} _.
Arguments pdf_url {Str} _.
Arguments citations {Str} _.

Definition PaperInfo : Type := PaperInfoOf string.

(** [paper_info.citations = c]. *)
Definition set_citations (p : PaperInfo) (c : option Z) : PaperInfo :=
  mkPaperInfo (title p) (authors p) (venue p) (year p)
              (arxiv_id p) (doi p) (pdf_url p) c.

(** [PaperInfo.format_authors], with its default [max_authors = 3]. *)
Definition format_authors_upto (max_authors : nat) (p : PaperInfo) : string :=
  if (length (authors p) <=? max_authors)%nat
  then Py.join ", " (authors p)
  else Py.join ", " (firstn max_authors (authors p)) +:+ " et al.".

Definition format_authors (p : PaperInfo) : string := format_authors_upto 3 p.

(** The three stages of [PaperInfo.to_markdown]: the basic information,
    the list [links], and [citation_str]. *)
Definition basic_info (p : PaperInfo) : string :=
  "**" +:+ title p +:+ "**. " +:+ format_authors p +:+ ". "
       +:+ venue p +:+ ", " +:+ year p.

Definition pdf_link (local_pdf_path : option string) : list string :=
  match local_pdf_path with
  | Some path => if Py.truthy path then ["[PDF](" +:+ path +:+ ")"] else []
  | None => []
  end.

Definition arxiv_link (p : PaperInfo) : list string :=
  match arxiv_id p with
  | Some a =>
      if Py.truthy a then ["[arXiv](https://arxiv.org/abs/" +:+ a +:+ ")"]
      else []
  | None => []
  end.

Definition doi_link (p : PaperInfo) : list string :=
  match doi p with
  | Some d =>
      if Py.truthy d then ["[DOI](https://doi.org/" +:+ d +:+ ")"] else []
  | None => []
  end.

Definition links (p : PaperInfo) (local_pdf_path : option string)
  : list string :=
  pdf_link local_pdf_path ++ arxiv_link p ++ doi_link p.

Definition citation_str (p : PaperInfo) : string :=
  match citations p with
  | Some n => "Citations: " +:+ Py.str_of_int n
  | None => "Citations: N/A"
  end.

Definition paren (s : string) : string := "(" +:+ s +:+ ")".

Definition to_markdown (p : PaperInfo) (local_pdf_path : option string)
  : string :=
  let result := basic_info p in
  let ls := links p local_pdf_path in
  let result :=
    match ls with
    | [] => result
    | _ => result +:+ " " +:+ Py.join " " (map paren ls)
    end in
  result +:+ " (" +:+ citation_str p +:+ ")".

(** ** The fragment of [re] used by the program

    Backtracking matching in continuation-passing style, as the
    interpreter's engine performs it: alternatives are tried left to
    right, repetitions and options are greedy and give characters back
    on failure.  Repetition is only needed on character classes. *)

Module Re.

Inductive regex : Type :=
| Eps
| Chr (p : ascii -> bool)
| Seq (r1 r2 : regex)
| Alt (r1 r2 : regex)
| Rep (p : ascii -> bool) (lo : nat) (hi : option nat)
| Opt (r : regex)
| Group (r : regex).

(** [p{lo,hi}] followed by the continuation [k]; [hi = None] is an
    open upper bound. *)
Fixpoint rep {A} (p : ascii -> bool) (lo : nat) (hi : option nat)
         (s : string) (k : string -> option A) : option A :=
  let stop := match lo with O => k s | S _ => None end in
  match s with
  | String c rest =>
      if p c && match hi with Some O => false | _ => true end
      then match rep p (pred lo) (option_map pred hi) rest k with
           | Some x => Some x
           | None => stop
           end
      else stop
  | EmptyString => stop
  end.

(** [exec r s g k]: match [r] at the start of [s]; [g] is the text of
    group 1 so far; [k] receives the unread rest and the group. *)
Fixpoint exec {A} (r : regex) (s : string) (g : option string)
         (k : string -> option string -> option A) : option A :=
  match r with
  | Eps => k s g
  | Chr p =>
      match s with
      | String c rest => if p c then k rest g else None
      | EmptyString => None
      end
  | Seq r1 r2 => exec r1 s g (fun s1 g1 => exec r2 s1 g1 k)
  | Alt r1 r2 =>
      match exec r1 s g k with
      | Some x => Some x
      | None => exec r2 s g k
      end
  | Rep p lo hi => rep p lo hi s (fun rest => k rest g)
  | Opt r1 =>
      match exec r1 s g k with
      | Some x => Some x
      | None => k s g
      end
  | Group r1 =>
      exec r1 s g
           (fun rest _ =>
              k rest (Some (Py.take (String.length s - String.length rest) s)))
  end.

(** A match object: [group(0)] and [group(1)]. *)
Record rmatch := mkMatch { group0 : string; group1 : option string }.

(** [re.match(r, s)]. *)
Definition match_at (r : regex) (s : string) : option rmatch :=
  exec r s None
       (fun rest g =>
          Some (mkMatch (Py.take (String.length s - String.length rest) s) g)).

(** [re.search(r, s)]: the match at the leftmost position that has one. *)
Fixpoint search (r : regex) (s : string) : option rmatch :=
  match match_at r s with
  | Some m => Some m
  | None =>
      match s with
      | String _ rest => search r rest
      | EmptyString => None
      end
  end.

(** [re.findall(r, s)] for a pattern without groups whose matches are
    never empty, as [url_pattern] is: the successive non-overlapping
    matches, left to right.  [skip] counts the characters of the last
    match that are still to be passed over.  (After an empty match the
    interpreter has a rule of its own, which is not modelled.) *)
Fixpoint findall_from (r : regex) (skip : nat) (s : string) : list string :=
  match skip with
  | S n =>
      match s with
      | String _ rest => findall_from r n rest
      | EmptyString => []
      end
  | O =>
      match match_at r s with
      | Some m =>
          group0 m ::
            match s with
            | String _ rest =>
                findall_from r (pred (String.length (group0 m))) rest
            | EmptyString => []
            end
      | None =>
          match s with
          | String _ rest => findall_from r 0 rest
          | EmptyString => []
          end
      end
  end.

Definition findall (r : regex) (s : string) : list string :=
  findall_from r 0 s.

(** Pattern builders. *)
Fixpoint cat (rs : list regex) : regex :=
  match rs with
  | [] => Eps
  | [r] => r
  | r :: rest => Seq r (cat rest)
  end.

(** A literal, and a literal under [re.IGNORECASE]. *)
Fixpoint lit (s : string) : regex :=
  match s with
  | EmptyString => Eps
  | String c rest => Seq (Chr (Ascii.eqb c)) (lit rest)
  end.

Fixpoint lit_i (s : string) : regex :=
  match s with
  | EmptyString => Eps
  | String c rest =>
      Seq (Chr (fun x => Ascii.eqb (Py.lower c) (Py.lower x))) (lit_i rest)
  end.

Definition plus (p : ascii -> bool) : regex := Rep p 1 None.
Definition star (p : ascii -> bool) : regex := Rep p 0 None.
Definition exactly (n : nat) (p : ascii -> bool) : regex := Rep p n (Some n).
Definition at_least (n : nat) (p : ascii -> bool) : regex := Rep p n None.
Definition between (lo hi : nat) (p : ascii -> bool) : regex :=
  Rep p lo (Some hi).

(** [[^\s...]]: anything but whitespace and the listed characters. *)
Definition not_space_nor (chars : string) (c : ascii) : bool :=
  negb (Py.isspace c || Py.char_in chars c).

(** [[a-z-]] under [re.IGNORECASE]. *)
Definition az_dash_i (c : ascii) : bool :=
  let n := N_of_ascii (Py.lower c) in
  ((97 <=? n) && (n <=? 122))%N || Ascii.eqb c "-".

End Re.

(** ** [URLParser] *)

Module URLParser.
Import Re.

(** [\d{4}\.\d{4,5}(?:v\d+)?] *)
Definition new_style_id : regex :=
  cat [exactly 4 Py.isdigit; lit_i "."; between 4 5 Py.isdigit;
       Opt (Seq (lit_i "v") (plus Py.isdigit))].

(** [[a-z-]+/\d{7}] *)
Definition old_style_id : regex :=
  cat [plus az_dash_i; lit_i "/"; exactly 7 Py.isdigit].

Definition ARXIV_PATTERNS : list regex :=
  [ Seq (lit_i "arxiv.org/abs/") (Group new_style_id);
    Seq (lit_i "arxiv.org/pdf/") (Group new_style_id);
    Seq (lit_i "arxiv.org/abs/") (Group old_style_id);
    Seq (lit_i "arxiv.org/pdf/") (Group old_style_id) ].

(** [10\.\d{4,}/[^\s\)]+] *)
Definition doi_body : regex :=
  cat [lit_i "10."; at_least 4 Py.isdigit; lit_i "/";
       plus (not_space_nor ")")].

Definition DOI_PATTERNS : list regex :=
  [ Seq (lit_i "doi.org/") (Group doi_body);
    cat [lit_i "doi:"; star Py.isspace; Group doi_body] ].

(** The quote characters of the two classes of [url_pattern]. *)
Definition url_stop_chars : string :=
  ")]<>" +:+ String "034"%char (String "039"%char EmptyString).

(** [url_pattern]: [https?://C+|doi:\s*10\.\d{4,}/C+], where the class
    [C] excludes whitespace, the brackets [)]<>] and both quote
    characters. *)
Definition url_pattern : regex :=
  Alt (cat [lit "http"; Opt (lit "s"); lit "://";
            plus (not_space_nor url_stop_chars)])
      (cat [lit "doi:"; star Py.isspace; lit "10.";
            at_least 4 Py.isdigit; lit "/";
            plus (not_space_nor url_stop_chars)]).

(** [arxiv_id.split('v')[0] if 'v' in arxiv_id else arxiv_id] *)
Definition strip_version (arxiv_id : string) : string :=
  if Py.contains "v" arxiv_id
  then hd EmptyString (Py.split "v" arxiv_id)
  else arxiv_id.

(** The loop [for pattern in patterns: match = re.search(...)]: group 1
    of the first pattern that matches.  Group 1 takes part in every
    match of the patterns above. *)
Fixpoint first_group (patterns : list regex) (url : string)
  : option string :=
  match patterns with
  | [] => None
  | p :: rest =>
      match search p url with
      | Some m => group1 m
      | None => first_group rest url
      end
  end.

Definition extract_arxiv_id (url : string) : option string :=
  option_map strip_version (first_group ARXIV_PATTERNS url).

Definition extract_doi (url : string) : option string :=
  option_map (Py.rstrip ".") (first_group DOI_PATTERNS url).

Definition find_urls_in_text (text : string) : list string :=
  map (Py.rstrip ".,;:") (findall url_pattern text).

End URLParser.


(** ** The outside world

    What the HTTP transport hands back for one [requests.get]. *)

(** What a key of a JSON object holds: [null], or a value of the type
    that the service documents for the key. *)
Inductive Json (A : Type) : Type :=
| JNull
| JValue (a : A).

Arguments JNull {A}.
Arguments JValue {A} a.

(** [d.get(key)] for a key that is absent ([None]) or present: [None]
    in Python unless the key holds a value. *)
Definition json_get {A} (v : option (Json A)) : option A :=
  match v with
  | Some (JValue a) => Some a
  | _ => None
  end.

(** The JSON object of the citation-graph service, restricted to the
    keys that the program reads; [None] is an absent key.  An author is
    [null] or an object, of which the key [name] is read.
    [s2_paperId] stands for the keys that the program does not read. *)
Record ScholarPaper := mkScholarPaper {
  s2_paperId : option string;
  s2_title : option (Json string);
  s2_authors : option (Json (list (Json (option (Json string)))));
  s2_venue : option (Json string);
  s2_publicationVenue : option (Json (option (Json string)));
  s2_year : option (Json Z);
  s2_citationCount : option (Json Z)
}.

(** The [atom:entry] element of the arXiv feed.  An element that the
    program looks for is absent ([None]) or present, and then its
    [text] is a string or [None] ([Some None], an empty element):
    [atom:title], the [atom:name] of every [atom:author], and
    [atom:published]; of every [atom:category] the attribute [term]. *)
Record ArxivEntry := mkArxivEntry {
  ae_title : option (option string);
  ae_authors : list (option (option string));
  ae_published : option (option string);
  ae_categories : list (option string)
}.

(** The body of an answer.  [BrokenBody] is the body of a streamed
    answer that breaks off while it is read ([iter_content] raises);
    for a request that is not streamed the transport raises instead,
    which is [Fault]. *)
Inductive Body : Type :=
| JsonBody (d : ScholarPaper)
| AtomBody (entry : option ArxivEntry)
| OtherBody
| BrokenBody.

(** [Fault]: [requests.get] raises (time-out, connection error). *)
Inductive Outcome : Type :=
| Fault
| Response (status_code : Z) (body : Body).

(** [WriteFile path]: the file at [path] was opened for writing by
    [PDFDownloader.download]. *)
Inductive Event : Type :=
| Get (url : string) (params : list (string * string))
| Sleep (seconds : Z)
| WriteFile (path : string).

(** One entry of [state["processed_urls"]]; [processed_at] holds the
    reading of the clock instead of its ISO rendering, [info] is the
    dict literal passed by the caller. *)
Record ProcessedEntry := mkEntry {
  processed_at : Z;
  info : list (string * string)
}.

Record State := mkState {
  processed_urls : gmap string ProcessedEntry;
  file_hashes : gmap string string
}.

Record World := mkWorld {
  responses : list Outcome;     (* outcomes of the coming requests *)
  clock : Z;                    (* seconds *)
  trace : list Event;           (* requests, sleeps and writes so far *)
  files : gmap string string;   (* the files of the watched directory, as stored *)
  st : State;                   (* [StateManager.state] *)
  disk : option State           (* the document in [state_file] *)
}.

(** The notes as the program reads them:
    [open(path, 'r', encoding='utf-8').read()] returns the stored text
    with its line ends translated. *)
Definition notes (w : World) : gmap string string :=
  Py.universal_newlines <$> files w.

(** The exceptions that the program can meet outside a handler of its
    own. *)
Inductive exn : Type :=
| IndexError
| FileNotFoundError
| TypeError
| AttributeError.

(** What the program reaches of the platform: the functions of
    [os.path] that it calls, [os.linesep], the answer of the file
    system to [os.makedirs(os.path.dirname(path), exist_ok=True)]
    followed by [open(path, 'wb')] ([can_write path] when neither
    raises), and whether [requests] can prepare a request for a URL
    that has the scheme ([valid_url]: it parses, with a host).  The
    modules are ambient in the program; here the functions that depend
    on them take the record as an implicit argument. *)
Record OsPath := mkOsPath {
  path_join : string -> string -> string;
  path_dirname : string -> string;
  path_relpath : string -> string -> string;
  linesep : string;
  can_write : string -> bool;
  valid_url : string -> bool
}.

Existing Class OsPath.

(** State passing with exceptions. *)
Definition M (A : Type) : Type := World -> (exn + A) * World.

Definition pure {A} (a : A) : M A := fun w => (inr a, w).

Definition bind {A B} (m : M A) (f : A -> M B) : M B :=
  fun w =>
    match m w with
    | (inl e, w') => (inl e, w')
    | (inr a, w') => f a w'
    end.

Notation "'let*' x := m 'in' k" := (bind m (fun x => k))
  (at level 10, x binder, m at level 100, k at level 200).

Notation "m >> k" := (bind m (fun _ => k))
  (at level 100, k at level 200, right associativity).

Definition raise {A} (e : exn) : M A := fun w => (inl e, w).

Definition emit (e : Event) (w : World) : World :=
  mkWorld (responses w) (clock w) (trace w ++ [e]) (files w) (st w) (disk w).

(** [time.sleep(seconds)]. *)
Definition sleep (seconds : Z) : M unit :=
  fun w =>
    (inr tt,
     mkWorld (responses w) (clock w + seconds) (trace w ++ [Sleep seconds])
             (files w) (st w) (disk w)).

(** [requests.get(url, params=params, ...)]: the next outcome of the
    script; a script that has run out behaves as an unreachable network. *)
Definition http_get (url : string) (params : list (string * string))
  : M Outcome :=
  fun w =>
    let w' := emit (Get url params) w in
    match responses w with
    | [] => (inr Fault, w')
    | o :: rest =>
        (inr o,
         mkWorld rest (clock w') (trace w') (files w') (st w') (disk w'))
    end.

(** [response.raise_for_status()] raises for these codes. *)
Definition is_http_error (status_code : Z) : bool :=
  ((400 <=? status_code) && (status_code <? 600))%Z.

(** ** [SemanticScholarAPI] *)

Module SemanticScholarAPI.

Definition BASE_URL : string :=
  "https://api.semanticscholar.org/graph/v1/paper".

(** The body of [for attempt in range(max_retries)], over the list of
    the attempts that remain. *)
Fixpoint attempts_loop (max_retries : nat) (url : string)
         (params : list (string * string)) (attempts : list nat)
  : M (option ScholarPaper) :=
  match attempts with
  | [] => pure None
  | attempt :: later =>
      let on_exception :=
        (if (Z.of_nat attempt <? Z.of_nat max_retries - 1)%Z
         then sleep 2 else pure tt) >>
        attempts_loop max_retries url params later in
      let* o := http_get url params in
      match o with
      | Fault => on_exception
      | Response status_code body =>
          if (status_code =? 200)%Z then
            match body with
            | JsonBody d => pure (Some d)
            | _ => on_exception       (* [response.json()] raises *)
            end
          else if (status_code =? 429)%Z then
            sleep ((Z.of_nat attempt + 1) * 3) >>
            attempts_loop max_retries url params later
          else pure None
      end
  end.

Definition _request_with_retry (url : string)
           (params : list (string * string)) (max_retries : nat)
  : M (option ScholarPaper) :=
  attempts_loop max_retries url params (seq 0 max_retries).

(** [bool(data)] for the JSON object: it has some key. *)
Definition has_keys (d : ScholarPaper) : bool :=
  Py.present (s2_paperId d) || Py.present (s2_title d)
  || Py.present (s2_authors d) || Py.present (s2_venue d)
  || Py.present (s2_publicationVenue d) || Py.present (s2_year d)
  || Py.present (s2_citationCount d).

Definition get_citations (arxiv_id doi : option string) : M (option Z) :=
  let paper_id :=
    if Py.truthy_opt arxiv_id then Some ("arXiv:" +:+ default EmptyString arxiv_id)
    else if Py.truthy_opt doi then doi
    else None in
  match paper_id with
  | None => pure None
  | Some pid =>
      let* data := _request_with_retry (BASE_URL +:+ "/" +:+ pid)
                                 [("fields", "citationCount")] 3 in
      match data with
      | Some d =>
          pure (if has_keys d then json_get (s2_citationCount d) else None)
      | None => pure None
      end
  end.

(** [a.get('name', 'Unknown')] for one author object: the default
    stands in for an absent key only, a [null] name is [None]. *)
Definition author_name (name : option (Json string)) : option string :=
  match name with
  | None => Some "Unknown"
  | Some JNull => None
  | Some (JValue n) => Some n
  end.

(** [[a.get('name', 'Unknown') for a in authors]]: an author that is
    [null] has no [get]. *)
Fixpoint author_names (authors : list (Json (option (Json string))))
  : exn + list (option string) :=
  match authors with
  | [] => inr []
  | JNull :: _ => inl AttributeError
  | JValue name :: rest =>
      match author_names rest with
      | inl e => inl e
      | inr names => inr (author_name name :: names)
      end
  end.

(** The body of [get_full_paper_info] after the request.  Iterating
    over [data.get('authors', [])] raises [TypeError] when the key
    holds [null]; [data.get('title', 'Unknown')] is [None] then, and
    [str(data.get('year', 'Unknown'))] is the text [None]. *)
Definition paper_of_json (arxiv_id : string) (d : ScholarPaper)
  : exn + PaperInfoOf (option string) :=
  let authors :=
    match s2_authors d with
    | None => inr []
    | Some JNull => inl TypeError
    | Some (JValue l) => author_names l
    end in
  let venue := default EmptyString (json_get (s2_venue d)) in
  let venue :=
    match json_get (s2_publicationVenue d) with
    | Some name =>
        match json_get name with
        | Some n => if Py.truthy n then n else venue
        | None => venue
        end
    | None => venue
    end in
  let venue := if Py.truthy venue then venue else "arXiv" in
  match authors with
  | inl e => inl e
  | inr authors =>
      inr (mkPaperInfo
             (match s2_title d with
              | None => Some "Unknown"
              | Some JNull => None
              | Some (JValue t) => Some t
              end)
             authors
             venue
             (match s2_year d with
              | None => "Unknown"
              | Some JNull => "None"
              | Some (JValue y) => Py.str_of_int y
              end)
             (Some arxiv_id)
             None
             (Some ("https://arxiv.org/pdf/" +:+ arxiv_id +:+ ".pdf"))
             (json_get (s2_citationCount d)))
  end.

Definition get_full_paper_info (arxiv_id : string)
  : M (option (PaperInfoOf (option string))) :=
  let* data := _request_with_retry
           (BASE_URL +:+ "/arXiv:" +:+ arxiv_id)
           [("fields",
             "title,authors,year,venue,citationCount,externalIds,publicationVenue")]
           3 in
  match data with
  | Some d =>
      if has_keys d then
        match paper_of_json arxiv_id d with
        | inl e => raise e
        | inr p => pure (Some p)
        end
      else pure None
  | None => pure None
  end.

End SemanticScholarAPI.

(** ** [ArxivAPI] *)

Module ArxivAPI.

Definition BASE_URL : string := "https://export.arxiv.org/api/query".

(** The [PaperInfo] built from the feed's entry; [None] where the
    construction raises, inside the [try]: [title.text.strip()] on a
    title element without text, [published.text[:4]] on a date element
    without text.  An author without a name element is passed over; the
    [text] of a name element is stored as it is, [None] included. *)
Definition paper_of_entry (arxiv_id : string) (e : ArxivEntry)
  : option (PaperInfoOf (option string)) :=
  let title_text :=
    match ae_title e with
    | None => Some "Unknown"
    | Some None => None
    | Some (Some t) => Some (Py.replace_char Py.LF " " (Py.strip t))
    end in
  let authors := omap id (ae_authors e) in
  let year :=
    match ae_published e with
    | None => Some "Unknown"
    | Some None => None
    | Some (Some text) => Some (Py.take 4 text)
    end in
  let primary_category :=
    match ae_categories e with
    | [] => "arXiv"
    | Some term :: _ => term
    | None :: _ => "None"
    end in
  match title_text, year with
  | Some t, Some y =>
      Some (mkPaperInfo (Some t) authors ("arXiv:" +:+ primary_category)
                        y (Some arxiv_id) None
                        (Some ("https://arxiv.org/pdf/" +:+ arxiv_id +:+ ".pdf"))
                        None)
  | _, _ => None
  end.

Definition _fallback_semantic_scholar (arxiv_id : string)
  : M (option (PaperInfoOf (option string))) :=
  SemanticScholarAPI.get_full_paper_info arxiv_id.

(** [get_paper_info].  The fallback runs inside the handler of
    [HTTPError], so what it raises is not caught here. *)
Definition get_paper_info (arxiv_id : string)
  : M (option (PaperInfoOf (option string))) :=
  let* o := http_get BASE_URL [("id_list", arxiv_id)] in
  match o with
  | Fault => pure None
  | Response status_code body =>
      if is_http_error status_code then
        if (status_code =? 403)%Z
        then _fallback_semantic_scholar arxiv_id
        else pure None
      else
        match body with
        | AtomBody (Some e) => pure (paper_of_entry arxiv_id e)
        | AtomBody None => pure None
        | _ => pure None               (* [ET.fromstring] raises *)
        end
  end.

End ArxivAPI.

(** ** [PDFDownloader] *)

Module PDFDownloader.

(** [requests.get] sends a request only for a URL that it can prepare;
    for any other it raises at once. *)
Definition sendable {os : OsPath} (url : string) : bool :=
  Py.has_http_scheme url && valid_url os url.

(** [download]: every exception of the body is caught and turned into
    [False].  [requests.get] raises at once, without a request, for a
    missing URL and for one that it cannot prepare; after an answer that is
    no error, [os.makedirs] raises for a path without a directory part
    and, as [open] does, where the file system refuses; a body that
    breaks off while it is streamed leaves the opened file incomplete.
    (A write to the opened file that fails has the effect of a body
    that breaks off.) *)
Definition download {os : OsPath} (url : option string) (save_path : string)
  : M bool :=
  match url with
  | None => pure false
  | Some u =>
      if sendable u then
        let* o := http_get u [] in
        match o with
        | Fault => pure false
        | Response status_code body =>
            if is_http_error status_code then pure false
            else if Py.truthy (path_dirname os save_path)
                    && can_write os save_path
            then fun w =>
                   (inr (match body with BrokenBody => false | _ => true end),
                    emit (WriteFile save_path) w)
            else pure false
        end
      else pure false
  end.

(** The characters that [generate_filename] deletes from the title:
    angle brackets, colon, slash, bar, question mark, star, the double
    quote and the backslash. *)
Definition unsafe_chars : string :=
  "<>:/|?*" +:+ String "034"%char (String "092"%char EmptyString).

(** [generate_filename]; [authors[0].split()[-1]] raises [IndexError]
    when the first author's name has no word. *)
Definition generate_filename (paper_info : PaperInfo) : M string :=
  let title := Py.remove_chars (Py.char_in unsafe_chars) (title paper_info) in
  let title := Py.take 80 title in
  match authors paper_info with
  | [] =>
      pure ("Unknown_" +:+ year paper_info +:+ "_" +:+ title +:+ ".pdf")
  | first :: _ =>
      match last (Py.words first) with
      | Some first_author =>
          pure (first_author +:+ "_" +:+ year paper_info +:+ "_"
                             +:+ title +:+ ".pdf")
      | None => raise IndexError
      end
  end.

End PDFDownloader.

(** ** [StateManager] *)

Module StateManager.

(** The state of a missing or unreadable state file. *)
Definition empty_state : State := mkState ∅ ∅.

(** [state["processed_urls"][url] = {"processed_at": now, "info": info}] *)
Definition record_url (now : Z) (url : string) (paper_info : list (string * string))
           (s : State) : State :=
  mkState (<[url := mkEntry now paper_info]> (processed_urls s))
          (file_hashes s).

Definition save_state : M unit :=
  fun w =>
    (inr tt,
     mkWorld (responses w) (clock w) (trace w) (files w) (st w)
             (Some (st w))).

Definition is_url_processed (url : string) : M bool :=
  fun w => (inr (Py.present (processed_urls (st w) !! url)), w).

Definition mark_url_processed (url : string)
           (paper_info : list (string * string)) : M unit :=
  (fun w =>
     (inr tt,
      mkWorld (responses w) (clock w) (trace w) (files w)
              (record_url (clock w) url paper_info (st w)) (disk w))) >>
  save_state.

(** [_load_state]: the document of the state file, or the empty state
    when the file is missing or cannot be parsed ([disk = None]). *)
Definition _load_state : M State :=
  fun w =>
    (inr (match disk w with Some s => s | None => empty_state end), w).

(** [__init__]: [self.state = self._load_state()]. *)
Definition init : M unit :=
  let* s := _load_state in
  fun w =>
    (inr tt, mkWorld (responses w) (clock w) (trace w) (files w) s (disk w)).

Section FileHash.

(** [hashlib.md5(text.encode()).hexdigest()], as a function of the text. *)
Variable md5_hexdigest : string -> string.

(** The digest of the text that reading the file in text mode gives. *)
Definition get_file_hash (filepath : string) : M string :=
  fun w =>
    match notes w !! filepath with
    | Some content => (inr (md5_hexdigest content), w)
    | None => (inl FileNotFoundError, w)
    end.

(** [current_hash != old_hash], where [old_hash] is [None] for a path
    without a recorded hash. *)
Definition has_file_changed (filepath : string) : M bool :=
  let* current_hash := get_file_hash filepath in
  fun w =>
    (inr (match file_hashes (st w) !! filepath with
          | Some old_hash => negb (String.eqb current_hash old_hash)
          | None => true
          end), w).

Definition update_file_hash (filepath : string) : M unit :=
  let* h := get_file_hash filepath in
  (fun w =>
     (inr tt,
      mkWorld (responses w) (clock w) (trace w) (files w)
              (mkState (processed_urls (st w))
                       (<[filepath := h]> (file_hashes (st w))))
              (disk w))) >>
  save_state.

End FileHash.

End StateManager.

(** ** [MarkdownProcessor] *)

(** One element of the list returned by [process_file]. *)
Definition Result : Type := string * PaperInfo * option string.

Module MarkdownProcessor.

(** [with open(filepath, 'r', encoding='utf-8') as f: content = f.read()]:
    the text of the file, its line ends translated ([notes]). *)
Definition read_file (filepath : string) : M string :=
  fun w =>
    match notes w !! filepath with
    | Some content => (inr content, w)
    | None => (inl FileNotFoundError, w)
    end.

(** [with open(filepath, 'w', encoding='utf-8') as f: f.write(content)]:
    the file then holds the text with [os.linesep] for every LF. *)
Definition write_file {os : OsPath} (filepath content : string) : M unit :=
  fun w =>
    (inr tt,
     mkWorld (responses w) (clock w) (trace w)
             (<[filepath := Py.translate_newlines (linesep os) content]>
                (files w))
             (st w) (disk w)).

(** The two lines of [_process_arxiv] that print
    [paper_info.title[:60]] and [paper_info.format_authors()]: the
    slice raises [TypeError] on a title that is [None], and [join] on a
    name that is [None] among those it is given, the first three.
    Past these lines the title and the names that the program reads
    are strings.  A name after the third is read by no function
    ([format_authors] joins three names when there are more, and
    [generate_filename] reads the first); where it is [None] the
    record keeps the text [None] for it. *)
Definition print_title_and_authors (p : PaperInfoOf (option string))
  : M PaperInfo :=
  match title p with
  | None => raise TypeError
  | Some t =>
      if forallb Py.present (firstn 3 (authors p))
      then pure (mkPaperInfo t (map (default "None") (authors p))
                             (venue p) (year p) (arxiv_id p) (doi p)
                             (pdf_url p) (citations p))
      else raise TypeError
  end.

Definition _process_arxiv (arxiv_id : string) : M (option PaperInfo) :=
  let* paper_info := SemanticScholarAPI.get_full_paper_info arxiv_id in
  let* paper_info :=
    match paper_info with
    | Some p => pure (Some p)
    | None => ArxivAPI.get_paper_info arxiv_id
    end in
  match paper_info with
  | None => pure None
  | Some p =>
      let* p := print_title_and_authors p in
      match citations p with
      | None =>
          sleep 1 >>
          let* c := SemanticScholarAPI.get_citations (Some arxiv_id) None in
          match c with
          | Some n => pure (Some (set_citations p (Some n)))
          | None => pure (Some p)
          end
      | Some _ => pure (Some p)
      end
  end.

Section Processor.

Variable os_path : OsPath.
Variable pdf_dir : string.

(** The body of [for url in urls] in [process_file]; [results] is the
    list built so far. *)
Definition process_url (filepath : string) (results : list Result)
           (url : string) : M (list Result) :=
  let* processed := StateManager.is_url_processed url in
  if processed then pure results
  else
    let arxiv_id := URLParser.extract_arxiv_id url in
    if Py.truthy_opt arxiv_id then
      let arxiv_id := default EmptyString arxiv_id in
      let* paper_info := _process_arxiv arxiv_id in
      match paper_info with
      | Some p =>
          let* pdf_filename := PDFDownloader.generate_filename p in
          let pdf_path := path_join os_path pdf_dir pdf_filename in
          let* ok := PDFDownloader.download (pdf_url p) pdf_path in
          let relative_pdf_path :=
            if ok
            then Some (path_relpath os_path pdf_path
                                    (path_dirname os_path filepath))
            else None in
          StateManager.mark_url_processed
            url [("title", title p); ("arxiv_id", arxiv_id)] >>
          sleep 2 >>
          pure (results ++ [(url, p, relative_pdf_path)])%list
      | None => pure results
      end
    else
      let doi := URLParser.extract_doi url in
      if Py.truthy_opt doi then
        StateManager.mark_url_processed
          url [("doi", default EmptyString doi)] >>
        pure results
      else pure results.

Fixpoint process_urls (filepath : string) (results : list Result)
         (urls : list string) : M (list Result) :=
  match urls with
  | [] => pure results
  | url :: rest =>
      let* results := process_url filepath results url in
      process_urls filepath results rest
  end.

Definition process_file (filepath : string) : M (list Result) :=
  let* content := read_file filepath in
  process_urls filepath [] (URLParser.find_urls_in_text content).

End Processor.

(** The inner loop [for line in lines] of
    [update_file_with_formatted_refs]. *)
Fixpoint append_refs (url formatted : string) (lines : list string)
  : list string :=
  match lines with
  | [] => []
  | line :: rest =>
      (if String.eqb (Py.strip line) url
       then [line; EmptyString; formatted]
       else [line])%list ++ append_refs url formatted rest
  end.

(** One round of the outer loop [for url, paper_info, pdf_path in results]. *)
Definition rewrite_once (content : string) (r : Result) : string :=
  let '(url, paper_info, pdf_path) := r in
  let formatted := to_markdown paper_info pdf_path in
  Py.join Py.NL (append_refs url formatted (Py.split Py.LF content)).

(** The text written back for the text read. *)
Definition rewrite_content (content : string) (results : list Result)
  : string :=
  fold_left rewrite_once results content.

Definition update_file_with_formatted_refs {os : OsPath} (filepath : string)
           (results : list Result) : M unit :=
  let* content := read_file filepath in
  write_file filepath (rewrite_content content results).

End MarkdownProcessor.

(** ** [PaperWatcherHandler] *)

(** [try: body except Exception: handler]; what [body] did to the world
    before it raised stays done. *)
Definition try_except {A} (body : M A) (handler : exn -> M A) : M A :=
  fun w =>
    match body w with
    | (inl e, w') => handler e w'
    | (inr a, w') => (inr a, w')
    end.

Module PaperWatcherHandler.

Section Handler.

Variable os_path : OsPath.
Variable pdf_dir : string.
Variable md5_hexdigest : string -> string.

(** The body of [for filepath in list(self.pending_files)] in
    [process_pending]; the set is [self.pending_files]. *)
Definition process_pending_file (pending : gset string) (filepath : string)
  : M (gset string) :=
  fun w =>
    match notes w !! filepath with
    | None => (inr (pending ∖ {[filepath]}), w)
    | Some _ =>
        (try_except
           (let* results :=
              MarkdownProcessor.process_file os_path pdf_dir filepath in
            match results with
            | [] => pure tt
            | _ =>
                MarkdownProcessor.update_file_with_formatted_refs
                  filepath results
            end >>
            StateManager.update_file_hash md5_hexdigest filepath)
           (fun _ => pure tt) >>
         pure (pending ∖ {[filepath]})) w
    end.

(** The loop over the snapshot [list(self.pending_files)], in the order
    in which the snapshot lists the paths. *)
Fixpoint process_pending_over (snapshot : list string) (pending : gset string)
  : M (gset string) :=
  match snapshot with
  | [] => pure pending
  | filepath :: rest =>
      let* pending := process_pending_file pending filepath in
      process_pending_over rest pending
  end.

Definition process_pending (pending : gset string) : M (gset string) :=
  process_pending_over (elements pending) pending.

End Handler.

End PaperWatcherHandler.

(** * Auxiliary definitions

    The vocabulary of the statements below, and the sample inputs on
    which they are evaluated. *)

Module Citation.

(** The format in the words of the specification: the basic
    information, then one parenthesized fragment per datum that
    exists, in the order PDF, arXiv, DOI, then the citation count. *)
Definition fragment (label prefix : string) (datum : option string)
  : string :=
  match datum with
  | Some d => " ([" +:+ label +:+ "](" +:+ prefix +:+ d +:+ "))"
  | None => EmptyString
  end.

Definition count_fragment (n : option Z) : string :=
  match n with
  | Some k => " (Citations: " +:+ Py.str_of_int k +:+ ")"
  | None => " (Citations: N/A)"
  end.

Definition spec_format (p : PaperInfo) (pdf arxiv doi : option string)
  : string :=
  basic_info p
    +:+ fragment "PDF" EmptyString pdf
    +:+ fragment "arXiv" "https://arxiv.org/abs/" arxiv
    +:+ fragment "DOI" "https://doi.org/" doi
    +:+ count_fragment (citations p).

(** A datum that is there and is not the empty string. *)
Definition nonempty (o : option string) : option string :=
  match o with
  | Some s => if Py.truthy s then Some s else None
  | None => None
  end.

Definition sample : PaperInfo :=
  mkPaperInfo "T" ["A. Author"] "V" "2020" (Some EmptyString) None None None.

End Citation.

Module Samples.

(** A fresh start: nothing recorded, no state file, the network down. *)
Definition w0 : World :=
  mkWorld [] 100 [] ∅ StateManager.empty_state None.

Definition doi_url : string := "https://doi.org/10.1000/xyz123".
Definition doi_info : list (string * string) := [("doi", "10.1000/xyz123")].

(** [doi_url] recorded at time 100, then two seconds pass. *)
Definition w_marked : World :=
  snd (sleep 2 (snd (StateManager.mark_url_processed doi_url doi_info w0))).

End Samples.

Module Retry.

Definition url : string :=
  "https://api.semanticscholar.org/graph/v1/paper/arXiv:2301.00001".
Definition params : list (string * string) := [("fields", "citationCount")].

(** The number of requests in a trace. *)
Definition is_get (e : Event) : bool :=
  match e with Get _ _ => true | _ => false end.

Definition attempts (t : list Event) : nat :=
  length (List.filter is_get t).

(** The transport fails for the next [n] requests. *)
Definition transport_down (n : nat) (w : World) : Prop :=
  Forall (fun o => o = Fault) (firstn n (responses w)).

(** The answer of the service to a request that succeeds. *)
Definition answer : ScholarPaper :=
  mkScholarPaper (Some "p1") (Some (JValue "Foo")) None None None
                 (Some (JValue 2023%Z)) (Some (JValue 5%Z)).

(** The call against a network that is down. *)
Definition down_run : (exn + option ScholarPaper) * World :=
  SemanticScholarAPI._request_with_retry url params 3 Samples.w0.

End Retry.

Module Rewrite.

Definition url_of (r : Result) : string := fst (fst r).

Definition citation_of (r : Result) : string :=
  to_markdown (snd (fst r)) (snd r).

Definition single_line (s : string) : Prop := Py.contains Py.LF s = false.

(** The line, trimmed, is the URL of the triple. *)
Definition matches (line : string) (r : Result) : bool :=
  String.eqb (Py.strip line) (url_of r).

(** What one line of the note becomes, in the words of the
    specification: a line that matches a triple is followed by a blank
    line and that triple's citation; any other line is kept. *)
Definition expand (results : list Result) (line : string) : list string :=
  match List.find (matches line) results with
  | Some r => [line; EmptyString; citation_of r]
  | None => [line]
  end.

Definition matching_lines (results : list Result) (lines : list string)
  : nat :=
  length (List.filter (fun line => existsb (matches line) results) lines).

(** The outer loop on the lines instead of the text. *)
Definition refs_lines (results : list Result) (lines : list string)
  : list string :=
  fold_left
    (fun ls r => MarkdownProcessor.append_refs (url_of r) (citation_of r) ls)
    results lines.

Definition sample_url : string := "https://arxiv.org/abs/2301.00001".



Definition one_line_title : PaperInfo :=
  mkPaperInfo "Foo" ["Jane Doe"] "arXiv" "2023"
              (Some "2301.00001") None None (Some 5%Z).




(** A triple out of turn: it comes after [r] and meets a line that [r]
    matches or inserts. *)
Definition out_of_turn (r r' : Result) : Prop :=
  url_of r' = url_of r \/ url_of r' = EmptyString
  \/ url_of r' = Py.strip (citation_of r).

Definition one_line_result : Result := (sample_url, one_line_title, None).

(** Lists with a triple out of turn: the same URL twice, an empty URL,
    and a URL that is the citation of the triple before. *)
Definition repeated_results : list Result :=
  [one_line_result; one_line_result].

Definition empty_url_results : list Result :=
  [one_line_result; (EmptyString, one_line_title, None)].

Definition citation_url_results : list Result :=
  [one_line_result; (citation_of one_line_result, one_line_title, None)].

End Rewrite.

Module Newlines.

(** [os.linesep] is LF or CR LF. *)
Definition native (os : OsPath) : Prop :=
  linesep os = Py.NL \/ linesep os = Py.CRLF.

Definition no_cr (s : string) : Prop := Py.contains Py.CR s = false.


(** A note with the line ends of another platform. *)
Definition crlf_note : string :=
  "# Reading list" +:+ Py.CRLF +:+ "done" +:+ Py.CRLF.

Definition w_crlf : World :=
  mkWorld [] 0 [] {["notes.md" := crlf_note]} StateManager.empty_state None.

End Newlines.

Module Lang.

Fixpoint all_chars (p : ascii -> bool) (s : string) : bool :=
  match s with
  | EmptyString => true
  | String c rest => p c && all_chars p rest
  end.

(** The strings that a pattern denotes. *)
Fixpoint lang (r : Re.regex) (m : string) : Prop :=
  match r with
  | Re.Eps => m = EmptyString
  | Re.Chr p => exists c, m = String c EmptyString /\ p c = true
  | Re.Seq r1 r2 => exists a b, m = a +:+ b /\ lang r1 a /\ lang r2 b
  | Re.Alt r1 r2 => lang r1 m \/ lang r2 m
  | Re.Rep p lo hi =>
      all_chars p m = true /\ lo <= String.length m
      /\ match hi with Some h => String.length m <= h | None => True end
  | Re.Opt r1 => m = EmptyString \/ lang r1 m
  | Re.Group r1 => lang r1 m
  end.

(** The strings that a capturing group of the pattern can hold. *)
Fixpoint captured (r : Re.regex) (m : string) : Prop :=
  match r with
  | Re.Seq r1 r2 | Re.Alt r1 r2 => captured r1 m \/ captured r2 m
  | Re.Opt r1 => captured r1 m
  | Re.Group r1 => lang r1 m \/ captured r1 m
  | _ => False
  end.


Fixpoint last_char (s : string) : option ascii :=
  match s with
  | EmptyString => None
  | String c EmptyString => Some c
  | String _ rest => last_char rest
  end.

(** No character of [chars] ends the string. *)
Definition no_trailing (chars : string) (s : string) : Prop :=
  match last_char s with
  | Some c => Py.char_in chars c = false
  | None => True
  end.

Definition url_prefixed (u : string) : Prop :=
  Py.startswith "http://" u = true \/ Py.startswith "https://" u = true
  \/ Py.startswith "doi:" u = true.

(** Some match of the pattern starts the text. *)
Definition starts_match (r : Re.regex) (s : string) : Prop :=
  exists m rest, s = m +:+ rest /\ lang r m.

(** The text without its leading run of characters of [p], and the
    length of the run. *)
Fixpoint skip_run (p : ascii -> bool) (s : string) : string :=
  match s with
  | EmptyString => EmptyString
  | String c rest => if p c then skip_run p rest else s
  end.

Fixpoint run_length (p : ascii -> bool) (s : string) : nat :=
  match s with
  | EmptyString => 0
  | String c rest => if p c then S (run_length p rest) else 0
  end.

(** The text ends, or goes on with a character outside [p]. *)
Definition run_ends (p : ascii -> bool) (rest : string) : Prop :=
  match rest with
  | EmptyString => True
  | String c _ => p c = false
  end.

(** The text ends, or goes on with a character that the class of
    [url_pattern] excludes. *)
Definition url_ends (rest : string) : Prop :=
  run_ends (Re.not_space_nor URLParser.url_stop_chars) rest.

(** Every way through the pattern ends in an open repetition of the
    class [p]. *)
Fixpoint ends_in_run (p : ascii -> bool) (r : Re.regex) : Prop :=
  match r with
  | Re.Rep q _ None => q = p
  | Re.Seq _ r2 => ends_in_run p r2
  | Re.Alt r1 r2 => ends_in_run p r1 /\ ends_in_run p r2
  | Re.Group r1 => ends_in_run p r1
  | _ => False
  end.

(** [leftmost_urls text found]: [found] lists the links of the text
    from left to right.  Each is a match of [url_pattern] that runs up
    to the end of the text or to a character that the class excludes;
    it starts at the first place after the link before it (after the
    start of the text, for the first) where a match starts; and no
    match starts after the last. *)
Inductive leftmost_urls : string -> list string -> Prop :=
| leftmost_none (s : string) :
    (forall a b, s = a +:+ b -> ~ starts_match URLParser.url_pattern b) ->
    leftmost_urls s []
| leftmost_next (gap m rest : string) (ms : list string) :
    (forall a b, gap = a +:+ b -> b <> EmptyString ->
                 ~ starts_match URLParser.url_pattern (b +:+ m +:+ rest)) ->
    lang URLParser.url_pattern m ->
    url_ends rest ->
    leftmost_urls rest ms ->
    leftmost_urls (gap +:+ m +:+ rest) (m :: ms).

(** [u] is [m] without its trailing run of characters of [chars]. *)
Definition stripped (chars : string) (u m : string) : Prop :=
  exists tail,
    m = u +:+ tail /\ all_chars (Py.char_in chars) tail = true
    /\ no_trailing chars u.

(** A text with two links, one of them twice. *)
Definition sample_text : string :=
  "See https://arxiv.org/abs/2301.00001v2, (doi: 10.1000/xyz123.) and https://arxiv.org/abs/2301.00001v2".

End Lang.

Module Store.

(** The in-memory state, the state file and the files are the same. *)
Definition same_store (w w' : World) : Prop :=
  st w' = st w /\ disk w' = disk w /\ files w' = files w.

Definition keeps_store {A} (m : M A) : Prop :=
  forall w, same_store w (snd (m w)).

End Store.

Module Pipeline.

(** A stand-in for [os] on relative POSIX paths, with a file system
    that takes every file. *)
Definition posix : OsPath :=
  mkOsPath (fun a b => a +:+ "/" +:+ b) (fun _ => ".") (fun p _ => p)
           Py.NL (fun _ => true) (fun _ => true).


(** The citation-graph service answers 404 and the arXiv feed is
    unreachable: no source has the paper. *)
Definition w_unresolved : World :=
  mkWorld [Response 404 OtherBody; Fault] 0 [] ∅ StateManager.empty_state None.

(** The worlds after the request to the service and after the request
    to the feed. *)
Definition w_unresolved1 : World :=
  snd (SemanticScholarAPI.get_full_paper_info "2301.00001" w_unresolved).

Definition w_unresolved2 : World :=
  snd (ArxivAPI.get_paper_info "2301.00001" w_unresolved1).


Definition foo_paper : PaperInfo :=
  mkPaperInfo "Foo" [] "arXiv" "2023" (Some "2301.00001") None
              (Some "https://arxiv.org/pdf/2301.00001.pdf") (Some 5%Z).



End Pipeline.

Module Budget.

(** The number of requests sent so far. *)
Definition requests (w : World) : nat := Retry.attempts (trace w).

(** The total time slept so far. *)
Fixpoint slept (t : list Event) : Z :=
  match t with
  | [] => 0
  | Sleep n :: rest => n + slept rest
  | _ :: rest => slept rest
  end.

Definition never_raises {A} (m : M A) : Prop :=
  forall w, exists a, fst (m w) = inr a.

(** [m] sends at most [n] requests. *)
Definition requests_at_most {A} (n : nat) (m : M A) : Prop :=
  forall w,
    requests w <= requests (snd (m w))
    /\ requests (snd (m w)) <= requests w + n.

(** An outcome after which [_request_with_retry] tries again after two
    seconds: a transport fault, or status 200 with a body that is not
    JSON. *)
Definition retried (o : Outcome) : Prop :=
  match o with
  | Fault => True
  | Response status_code (JsonBody _) => False
  | Response status_code _ => status_code = 200%Z
  end.

(** What every paper resolved for [arxiv_id] looks like. *)
Definition resolved_for {Str} (paper_id : string) (p : PaperInfoOf Str)
  : Prop :=
  arxiv_id p = Some paper_id
  /\ pdf_url p = Some ("https://arxiv.org/pdf/" +:+ paper_id +:+ ".pdf")
  /\ doi p = None
  /\ Py.truthy (venue p) = true.

(** The result of one source is a paper resolved for the identifier. *)
Definition yields_resolved {Str} (paper_id : string)
           (m : M (option (PaperInfoOf Str))) : Prop :=
  forall w p, fst (m w) = inr (Some p) -> resolved_for paper_id p.










End Budget.

Module FileName.

(** A character that [generate_filename] lets through in a title. *)
Definition safe (c : ascii) : bool :=
  negb (Py.char_in PDFDownloader.unsafe_chars c).

Definition not_space (c : ascii) : bool := negb (Py.isspace c).

(** The title part of the file name. *)
Definition title_part (p : PaperInfo) : string :=
  Py.take 80 (Py.remove_chars (Py.char_in PDFDownloader.unsafe_chars)
                              (title p)).

Definition named (first_author : string) (p : PaperInfo) : string :=
  first_author +:+ "_" +:+ year p +:+ "_" +:+ title_part p +:+ ".pdf".

End FileName.

Module Ids.

(** A new-style identifier: four digits, a dot, four or five digits. *)
Definition new_style (a b : string) : Prop :=
  Lang.all_chars Py.isdigit a = true /\ String.length a = 4
  /\ Lang.all_chars Py.isdigit b = true
  /\ 4 <= String.length b /\ String.length b <= 5.

(** A version number: one digit or more. *)
Definition version (n : string) : Prop :=
  Lang.all_chars Py.isdigit n = true /\ 1 <= String.length n.

(** The repetition cannot take a character more: the bound is reached,
    or the text ends, or the next character is not in the class. *)
Definition stops (p : ascii -> bool) (hi : option nat) (m rest : string)
  : Prop :=
  hi = Some (String.length m)
  \/ match rest with
     | EmptyString => True
     | String c _ => p c = false
     end.

End Ids.

Module Persist.

(** What [StateManager.__init__] would load is what is in memory. *)
Definition flushed (w : World) : Prop :=
  st w = match disk w with
         | Some s => s
         | None => StateManager.empty_state
         end.

(** A digest for the examples: the text itself. *)
Definition plain_digest (text : string) : string := text.

(** A note with one link, already recorded at time 7. *)
Definition w_seen : World :=
  mkWorld [] 50 []
          {["notes.md" := "see https://doi.org/10.1000/xyz123, and http://example.org/x"]}
          (StateManager.record_url 7 Samples.doi_url Samples.doi_info
                                   StateManager.empty_state)
          (Some (StateManager.record_url 7 Samples.doi_url Samples.doi_info
                                         StateManager.empty_state)).

(** A note with one arXiv link, not seen before; the service knows the
    paper, the PDF host answers 503. *)
Definition w_one_link : World :=
  mkWorld [Response 200 (JsonBody Retry.answer); Response 503 OtherBody]
          0 [] {["notes.md" := Rewrite.sample_url]}
          StateManager.empty_state None.

(** An answer of the service whose first author has a blank name. *)
Definition blank_author_answer : ScholarPaper :=
  mkScholarPaper (Some "p1") (Some (JValue "Foo"))
                 (Some (JValue [JValue (Some (JValue "  "));
                                JValue (Some (JValue "B. Author"))]))
                 None None (Some (JValue 2023%Z)) (Some (JValue 5%Z)).

(** The paper that [_process_arxiv] builds from it. *)
Definition blank_author_paper : PaperInfo :=
  mkPaperInfo "Foo" ["  "; "B. Author"] "arXiv" "2023" (Some "2301.00001")
              None (Some "https://arxiv.org/pdf/2301.00001.pdf") (Some 5%Z).

Definition w_blank_author : World :=
  mkWorld [Response 200 (JsonBody blank_author_answer)]
          0 [] ∅ StateManager.empty_state None.

(** The first author's name holds nothing but whitespace. *)
Definition first_author_blank (p : PaperInfo) : Prop :=
  exists first others,
    authors p = first :: others /\ Lang.all_chars Py.isspace first = true.

(** An entry of the feed. *)
Definition feed_entry : ArxivEntry :=
  mkArxivEntry (Some (Some (" A title" +:+ Py.NL +:+ "  on two lines ")))
               [Some (Some "Jane Doe")] (Some (Some "2023-01-01T00:00:00Z"))
               [Some "cs.CL"].

(** The URL is recorded, or carries neither an arXiv identifier nor a
    DOI. *)
Definition nothing_to_do (w : World) (url : string) : Prop :=
  processed_urls (st w) !! url <> None
  \/ (Py.truthy_opt (URLParser.extract_arxiv_id url) = false
      /\ Py.truthy_opt (URLParser.extract_doi url) = false).

(** A triple of the results, as the loop body adds it: its URL was new
    in [w0] and is recorded in [w'] with the snapshot of its paper. *)
Definition added (w0 w' : World) (r : Result) : Prop :=
  processed_urls (st w0) !! Rewrite.url_of r = None
  /\ exists paper_id t,
      URLParser.extract_arxiv_id (Rewrite.url_of r) = Some paper_id
      /\ Py.truthy paper_id = true
      /\ Budget.resolved_for paper_id (snd (fst r))
      /\ processed_urls (st w') !! Rewrite.url_of r
         = Some (mkEntry t [("title", title (snd (fst r)));
                            ("arxiv_id", paper_id)]).

End Persist.

(** * Properties *)

(** ** Strings *)

(** In the proofs [+:+] unfolds on a string that starts with a known
    character, and comparisons of characters stay folded. *)
#[local] Arguments String.append !s1 s2 : simpl nomatch.
#[local] Arguments Ascii.eqb : simpl never.

Section StringFacts.

Lemma append_assoc (a b c : string) : (a +:+ b) +:+ c = a +:+ (b +:+ c).
Proof. induction a as [|x a IH]; simpl; [reflexivity | now rewrite IH]. Qed.

Lemma append_nil_r (a : string) : a +:+ EmptyString = a.
Proof. induction a as [|x a IH]; simpl; [reflexivity | now rewrite IH]. Qed.

Lemma length_append (a b : string) :
  String.length (a +:+ b) = String.length a + String.length b.
Proof. induction a as [|x a IH]; simpl; [reflexivity | now rewrite IH]. Qed.

Lemma take_append (a b : string) : Py.take (String.length a) (a +:+ b) = a.
Proof. induction a as [|x a IH]; simpl; [now destruct b | now rewrite IH]. Qed.

Lemma take_drop (n : nat) (s : string) : Py.take n s +:+ Py.drop n s = s.
Proof.
  revert s; induction n as [|n IH]; intros [|c s]; simpl; try reflexivity.
  now rewrite IH.
Qed.

Lemma contains_append (c : ascii) (a b : string) :
  Py.contains c (a +:+ b) = Py.contains c a || Py.contains c b.
Proof.
  unfold Py.contains. induction a as [|d a IH]; simpl; [reflexivity |].
  now rewrite IH, orb_assoc.
Qed.

End StringFacts.

(** ** [PaperInfo.to_markdown] *)

Ltac string_normalize :=
  repeat first [rewrite append_assoc | rewrite append_nil_r | progress simpl].

(** C7, as stated, fails: a paper whose arXiv identifier exists but is the
    empty string gets no arXiv fragment. *)
Lemma to_markdown_empty_datum_dropped :
  to_markdown Citation.sample None = "**T**. A. Author. V, 2020 (Citations: N/A)"
  /\ to_markdown Citation.sample None
     <> Citation.spec_format Citation.sample None
                             (arxiv_id Citation.sample) (doi Citation.sample).
Proof. split; [reflexivity | discriminate]. Qed.

(** C7 (amended): the citation string is the basic information followed
    by the fragments (PDF), (arXiv), (DOI), in this order, each present
    exactly when its datum is there and non-empty, followed by
    (Citations: N) when the count is present, zero included, and by
    (Citations: N/A) when it is absent. *)
Theorem to_markdown_format (p : PaperInfo) (local_pdf_path : option string) :
  to_markdown p local_pdf_path
  = Citation.spec_format p (Citation.nonempty local_pdf_path)
                         (Citation.nonempty (arxiv_id p))
                         (Citation.nonempty (doi p))
  /\ Citation.count_fragment (Some 0%Z) = " (Citations: 0)"
  /\ Citation.count_fragment None = " (Citations: N/A)".
Proof.
  split; [| split; reflexivity].
  unfold to_markdown, Citation.spec_format, links, pdf_link, arxiv_link,
    doi_link, citation_str, Citation.count_fragment.
  destruct local_pdf_path as [[|c1 s1]|], (arxiv_id p) as [[|c2 s2]|],
    (doi p) as [[|c3 s3]|], (citations p) as [n|];
    simpl; unfold paren, basic_info; string_normalize; reflexivity.
Qed.

(** ** [StateManager.mark_url_processed] *)

Lemma run_mark_url_processed (url : string) (i : list (string * string))
      (w : World) :
  StateManager.mark_url_processed url i w
  = (inr tt,
     mkWorld (responses w) (clock w) (trace w) (files w)
             (StateManager.record_url (clock w) url i (st w))
             (Some (StateManager.record_url (clock w) url i (st w)))).
Proof. reflexivity. Qed.

(** C1, as stated, fails: the second call for a recorded URL replaces
    the stored time stamp. *)
Lemma mark_url_processed_overwrites :
  fst (StateManager.is_url_processed Samples.doi_url Samples.w_marked)
  = inr true
  /\ processed_at <$> processed_urls (st Samples.w_marked) !! Samples.doi_url
     = Some 100%Z
  /\ processed_at <$>
       processed_urls
         (st (snd (StateManager.mark_url_processed
                     Samples.doi_url Samples.doi_info Samples.w_marked)))
       !! Samples.doi_url
     = Some 102%Z
  /\ st (snd (StateManager.mark_url_processed
                Samples.doi_url Samples.doi_info Samples.w_marked))
     <> st Samples.w_marked.
Proof.
  assert (H100 : processed_at <$>
                 processed_urls (st Samples.w_marked) !! Samples.doi_url
                 = Some 100%Z) by (vm_compute; reflexivity).
  assert (H102 : processed_at <$>
                 processed_urls
                   (st (snd (StateManager.mark_url_processed
                               Samples.doi_url Samples.doi_info
                               Samples.w_marked)))
                 !! Samples.doi_url
                 = Some 102%Z) by (vm_compute; reflexivity).
  split; [vm_compute; reflexivity |].
  split; [exact H100 |].
  split; [exact H102 |].
  intros Heq. rewrite Heq, H100 in H102. discriminate.
Qed.

(** C1 (amended): for a URL that is already recorded, a second call
    returns, keeps the URL processed, keeps one entry per URL (the
    number of entries and every other entry are unchanged), and
    replaces the URL's entry by the time and the snapshot of the second
    call; the state is written to the state file again. *)
Theorem mark_url_processed_last_write_wins
        (url : string) (snapshot : list (string * string)) (w : World) :
  fst (StateManager.is_url_processed url w) = inr true ->
  exists w',
    StateManager.mark_url_processed url snapshot w = (inr tt, w')
    /\ fst (StateManager.is_url_processed url w') = inr true
    /\ processed_urls (st w') !! url = Some (mkEntry (clock w) snapshot)
    /\ size (processed_urls (st w')) = size (processed_urls (st w))
    /\ (forall u, u <> url ->
          processed_urls (st w') !! u = processed_urls (st w) !! u)
    /\ file_hashes (st w') = file_hashes (st w)
    /\ disk w' = Some (st w').
Proof.
  intros Hin. rewrite run_mark_url_processed. eexists; split; [reflexivity|].
  unfold StateManager.is_url_processed in *; simpl in *.
  destruct (processed_urls (st w) !! url) as [e|] eqn:He; [|discriminate].
  repeat split.
  - now rewrite lookup_insert_eq.
  - apply lookup_insert_eq.
  - rewrite map_size_insert, He. reflexivity.
  - intros u Hu. now apply lookup_insert_ne.
Qed.

Lemma mark_url_processed_last_write_wins_witness :
  exists w',
    StateManager.mark_url_processed Samples.doi_url Samples.doi_info
                                    Samples.w_marked = (inr tt, w')
    /\ processed_urls (st w') !! Samples.doi_url
       = Some (mkEntry 102 Samples.doi_info).
Proof.
  destruct (mark_url_processed_last_write_wins
              Samples.doi_url Samples.doi_info Samples.w_marked)
    as (w' & Hrun & _ & Hentry & _).
  - vm_compute; reflexivity.
  - exists w'. split; [exact Hrun | exact Hentry].
Defined.

(** ** [SemanticScholarAPI._request_with_retry] *)

(** C2, as stated, fails: against a transport that stays down the
    request is sent three times, not two. *)
Lemma request_with_retry_three_attempts :
  fst Retry.down_run = inr None
  /\ trace (snd Retry.down_run)
     = [Get Retry.url Retry.params; Sleep 2;
        Get Retry.url Retry.params; Sleep 2;
        Get Retry.url Retry.params]
  /\ ~ (Retry.attempts (trace (snd Retry.down_run)) <= 2)%nat.
Proof.
  split; [reflexivity |]. split; [reflexivity |].
  vm_compute. lia.
Qed.

(** C2 (amended): when the transport fails for every attempt, the
    request is sent three times in total (retried twice), with a flat
    pause of two seconds after the first and after the second failure
    and none after the third, and the call returns no result. *)
Theorem request_with_retry_transport_fault
        (url : string) (params : list (string * string)) (w : World) :
  Retry.transport_down 3 w ->
  exists w',
    SemanticScholarAPI._request_with_retry url params 3 w = (inr None, w')
    /\ trace w'
       = (trace w ++ [Get url params; Sleep 2; Get url params; Sleep 2;
                      Get url params])%list
    /\ Retry.attempts (trace w') = (Retry.attempts (trace w) + 3)%nat
    /\ clock w' = (clock w + 2 + 2)%Z
    /\ responses w' = skipn 3 (responses w)
    /\ st w' = st w.
Proof.
  unfold Retry.transport_down. destruct w as [rs c t n s d]; simpl.
  intros Hdown.
  assert (Hrun :
            SemanticScholarAPI._request_with_retry
              url params 3 (mkWorld rs c t n s d)
            = (inr None,
               mkWorld (skipn 3 rs) (c + 2 + 2)
                       (((((t ++ [Get url params]) ++ [Sleep 2])
                            ++ [Get url params]) ++ [Sleep 2])
                          ++ [Get url params])%list n s d)).
  { destruct rs as [|o1 [|o2 [|o3 rs]]]; simpl in Hdown;
      repeat match goal with
             | H : Forall _ (_ :: _) |- _ => inversion H; subst; clear H
             end;
      reflexivity. }
  eexists; split; [exact Hrun |].
  simpl. repeat split.
  - now rewrite <- !app_assoc.
  - unfold Retry.attempts. rewrite <- !app_assoc, List.filter_app, length_app.
    reflexivity.
Qed.

Lemma request_with_retry_transport_fault_witness :
  exists w',
    SemanticScholarAPI._request_with_retry
      Retry.url Retry.params 3
      (mkWorld [Fault; Fault; Fault; Response 200 (JsonBody Retry.answer)]
               0 [] ∅ StateManager.empty_state None)
    = (inr None, w')
    /\ Retry.attempts (trace w') = 3%nat
    /\ responses w' = [Response 200 (JsonBody Retry.answer)].
Proof.
  destruct (request_with_retry_transport_fault
              Retry.url Retry.params
              (mkWorld [Fault; Fault; Fault;
                        Response 200 (JsonBody Retry.answer)]
                       0 [] ∅ StateManager.empty_state None))
    as (w' & Hrun & _ & Hn & _ & Hrs & _).
  - unfold Retry.transport_down; simpl. repeat constructor.
  - exists w'. repeat split; assumption.
Defined.

(** C5: two rate-limit answers followed by a success: the call returns
    the JSON document of the third answer, after exactly three requests
    and exactly two pauses, of 3 and then 6 seconds. *)
Theorem request_with_retry_rate_limited_twice
        (url : string) (params : list (string * string))
        (b1 b2 : Body) (d : ScholarPaper) (rest : list Outcome)
        (c : Z) (t : list Event) (n : gmap string string)
        (s : State) (dk : option State) :
  SemanticScholarAPI._request_with_retry
    url params 3
    (mkWorld (Response 429 b1 :: Response 429 b2
                :: Response 200 (JsonBody d) :: rest) c t n s dk)
  = (inr (Some d),
     mkWorld rest (c + 3 + 6)
             (t ++ [Get url params; Sleep 3; Get url params; Sleep 6;
                    Get url params])%list n s dk).
Proof.
  unfold SemanticScholarAPI._request_with_retry; simpl.
  unfold bind, http_get, sleep, emit; simpl.
  now rewrite <- !app_assoc.
Qed.

(** ** [MarkdownProcessor.update_file_with_formatted_refs] *)

Section SplitJoin.

Import Rewrite.

Lemma split_not_nil (sep : ascii) (s : string) : Py.split sep s <> [].
Proof.
  destruct s as [|c s]; simpl; [discriminate |].
  destruct (Ascii.eqb c sep); [discriminate |].
  destruct (Py.split sep s); discriminate.
Qed.

Lemma split_single_line (s : string) :
  single_line s -> Py.split Py.LF s = [s].
Proof.
  unfold single_line, Py.contains.
  induction s as [|c s IH]; simpl; [reflexivity |].
  rewrite (Ascii.eqb_sym Py.LF c).
  destruct (Ascii.eqb c Py.LF); simpl; [discriminate |].
  intros H. now rewrite IH.
Qed.

Lemma split_parts_single_line (s : string) :
  Forall single_line (Py.split Py.LF s).
Proof.
  induction s as [|c s IH]; simpl.
  - repeat constructor.
  - destruct (Ascii.eqb c Py.LF) eqn:Hc.
    + constructor; [reflexivity | exact IH].
    + destruct (Py.split Py.LF s) as [|l ls].
      * constructor; [| constructor].
        unfold single_line; simpl. now rewrite (Ascii.eqb_sym Py.LF c), Hc.
      * inversion IH; subst. constructor; [| assumption].
        unfold single_line in *; simpl. now rewrite (Ascii.eqb_sym Py.LF c), Hc.
Qed.

Lemma split_append_single_line (a b : string) :
  single_line a ->
  Py.split Py.LF (a +:+ b)
  = match Py.split Py.LF b with
    | l :: ls => (a +:+ l) :: ls
    | [] => [a]
    end.
Proof.
  unfold single_line, Py.contains.
  induction a as [|c a IH]; simpl.
  - intros _. destruct (Py.split Py.LF b) eqn:Hb; [| reflexivity].
    now destruct (split_not_nil Py.LF b).
  - rewrite (Ascii.eqb_sym Py.LF c).
  destruct (Ascii.eqb c Py.LF); simpl; [discriminate |].
    intros H. rewrite (IH H). now destruct (Py.split Py.LF b).
Qed.

Lemma split_join (ls : list string) :
  ls <> [] -> Forall single_line ls ->
  Py.split Py.LF (Py.join Py.NL ls) = ls.
Proof.
  induction ls as [|l ls IH]; [congruence |]. intros _ Hall.
  inversion Hall as [|? ? Hl Hls]; subst.
  destruct ls as [|l2 ls].
  - simpl. now apply split_single_line.
  - change (Py.join Py.NL (l :: l2 :: ls))
      with (l +:+ String Py.LF (Py.join Py.NL (l2 :: ls))).
    rewrite split_append_single_line by assumption.
    change (Py.split Py.LF (String Py.LF (Py.join Py.NL (l2 :: ls))))
      with (EmptyString :: Py.split Py.LF (Py.join Py.NL (l2 :: ls))).
    rewrite IH by (congruence || assumption).
    now rewrite append_nil_r.
Qed.


End SplitJoin.

Section RewriteFacts.

Import Rewrite.

Lemma append_refs_single_line (url formatted : string) (lines : list string) :
  single_line formatted -> Forall single_line lines ->
  Forall single_line (MarkdownProcessor.append_refs url formatted lines).
Proof.
  intros Hf. induction 1 as [|l ls Hl Hls IH]; simpl; [constructor |].
  destruct (String.eqb (Py.strip l) url); simpl;
    repeat (constructor; try assumption).
Qed.

Lemma append_refs_not_nil (url formatted : string) (lines : list string) :
  lines <> [] -> MarkdownProcessor.append_refs url formatted lines <> [].
Proof.
  destruct lines as [|l ls]; [congruence |]. intros _. simpl.
  destruct (String.eqb (Py.strip l) url); discriminate.
Qed.

(** Splitting the rewritten text gives the lines that the rounds of the
    loop build, as long as no citation brings a line break with it. *)
Lemma split_rewrite_content (results : list Result) (content : string) :
  Forall (fun r => single_line (citation_of r)) results ->
  Py.split Py.LF (MarkdownProcessor.rewrite_content content results)
  = refs_lines results (Py.split Py.LF content).
Proof.
  intros Hall. revert content.
  induction Hall as [|r rs Hr Hrs IH]; intros content; [reflexivity |].
  unfold MarkdownProcessor.rewrite_content, refs_lines in *. simpl.
  rewrite IH. f_equal.
  destruct r as [[url p] pdf]. unfold MarkdownProcessor.rewrite_once.
  apply split_join.
  - apply append_refs_not_nil, split_not_nil.
  - apply append_refs_single_line; [exact Hr | apply split_parts_single_line].
Qed.







Lemma append_refs_length (url formatted : string) (lines : list string) :
  length lines <= length (MarkdownProcessor.append_refs url formatted lines).
Proof.
  induction lines as [|l ls IH]; simpl; [lia |].
  rewrite length_app. destruct (String.eqb (Py.strip l) url); simpl; lia.
Qed.

Lemma append_refs_elem (url formatted x : string) (lines : list string) :
  x ∈ lines -> x ∈ MarkdownProcessor.append_refs url formatted lines.
Proof.
  induction lines as [|l ls IH]; simpl; [easy |].
  intros [-> | Hx]%elem_of_cons; apply elem_of_app.
  - left. destruct (String.eqb (Py.strip _) url); now left.
  - right. now apply IH.
Qed.

Lemma append_refs_hit (url formatted x : string) (lines : list string) :
  x ∈ lines -> Py.strip x = url ->
  length lines + 2
  <= length (MarkdownProcessor.append_refs url formatted lines)
  /\ EmptyString ∈ MarkdownProcessor.append_refs url formatted lines
  /\ formatted ∈ MarkdownProcessor.append_refs url formatted lines.
Proof.
  induction lines as [|l ls IH]; simpl; [easy |].
  intros [-> | Hx]%elem_of_cons Hm.
  - apply String.eqb_eq in Hm. rewrite Hm. simpl.
    pose proof (append_refs_length url formatted ls).
    split; [lia |]. split; [right; left | right; right; left].
  - destruct (IH Hx Hm) as (Hlen & He & Hf).
    rewrite length_app.
    split; [destruct (String.eqb (Py.strip l) url); simpl; lia |].
    split; apply elem_of_app; now right.
Qed.

Lemma refs_lines_app (a b : list Result) (lines : list string) :
  refs_lines (a ++ b) lines = refs_lines b (refs_lines a lines).
Proof. unfold refs_lines. apply fold_left_app. Qed.

Lemma refs_lines_length (results : list Result) :
  forall lines, length lines <= length (refs_lines results lines).
Proof.
  induction results as [|r rs IH]; intros lines; [reflexivity |].
  change (refs_lines (r :: rs) lines)
    with (refs_lines rs (MarkdownProcessor.append_refs
                           (url_of r) (citation_of r) lines)).
  pose proof (append_refs_length (url_of r) (citation_of r) lines).
  specialize (IH (MarkdownProcessor.append_refs
                    (url_of r) (citation_of r) lines)).
  lia.
Qed.

Lemma refs_lines_elem (results : list Result) (x : string) :
  forall lines, x ∈ lines -> x ∈ refs_lines results lines.
Proof.
  induction results as [|r rs IH]; intros lines Hx; [exact Hx |].
  apply (IH (MarkdownProcessor.append_refs (url_of r) (citation_of r) lines)).
  now apply append_refs_elem.
Qed.

Lemma matching_lines_one (results : list Result) (line : string) :
  matching_lines results [line] <= 1.
Proof.
  unfold matching_lines. simpl.
  destruct (existsb (matches line) results); simpl; lia.
Qed.

(** Why the triples have to take their turns: when a triple [r'] comes
    after a triple [r] and has for its URL the URL of [r], the empty
    string or the trimmed citation of [r], the note that consists of a
    line matching [r] grows by four lines or more, not by two. *)
Lemma rewrite_out_of_turn (before between after : list Result)
      (r r' : Result) (line : string) :
  single_line line -> Py.strip line = url_of r -> out_of_turn r r' ->
  Forall (fun x => single_line (citation_of x))
         (before ++ r :: between ++ r' :: after) ->
  length (Py.split Py.LF line)
  + 2 * matching_lines (before ++ r :: between ++ r' :: after)
                       (Py.split Py.LF line)
  < length (Py.split Py.LF
              (MarkdownProcessor.rewrite_content
                 line (before ++ r :: between ++ r' :: after))).
Proof.
  intros Hline Hm Hout Hsl.
  rewrite split_rewrite_content by assumption.
  rewrite (split_single_line line Hline).
  pose proof (matching_lines_one (before ++ r :: between ++ r' :: after) line)
    as Hone.
  rewrite refs_lines_app.
  set (l1 := refs_lines before [line]).
  assert (H1 : line ∈ l1) by (apply refs_lines_elem; now left).
  pose proof (refs_lines_length before [line]) as Hl1. fold l1 in Hl1.
  change (refs_lines (r :: between ++ r' :: after) l1)
    with (refs_lines (between ++ r' :: after)
                     (MarkdownProcessor.append_refs
                        (url_of r) (citation_of r) l1)).
  destruct (append_refs_hit (url_of r) (citation_of r) line l1 H1 Hm)
    as (Hl2 & He & Hc).
  pose proof (append_refs_elem (url_of r) (citation_of r) line l1 H1) as Hx.
  set (l2 := MarkdownProcessor.append_refs (url_of r) (citation_of r) l1) in *.
  rewrite refs_lines_app.
  set (l3 := refs_lines between l2).
  pose proof (refs_lines_length between l2) as Hl3. fold l3 in Hl3.
  assert (Hhit : exists x, x ∈ l3 /\ Py.strip x = url_of r').
  { destruct Hout as [Hu | [Hu | Hu]].
    - exists line. split; [now apply refs_lines_elem | congruence].
    - exists EmptyString. split; [now apply refs_lines_elem |].
      now rewrite Hu.
    - exists (citation_of r). split; [now apply refs_lines_elem | congruence]. }
  destruct Hhit as (x & Hx3 & Hmx).
  change (refs_lines (r' :: after) l3)
    with (refs_lines after (MarkdownProcessor.append_refs
                              (url_of r') (citation_of r') l3)).
  destruct (append_refs_hit (url_of r') (citation_of r') x l3 Hx3 Hmx)
    as (Hl4 & _ & _).
  pose proof (refs_lines_length
                after (MarkdownProcessor.append_refs
                         (url_of r') (citation_of r') l3)) as Hl5.
  simpl in *. lia.
Qed.

End RewriteFacts.

(** ** Line ends *)

Section NewlineFacts.

Import Rewrite Newlines.


Lemma no_cr_cons (c : ascii) (s : string) :
  no_cr (String c s) <-> c <> Py.CR /\ no_cr s.
Proof.
  unfold no_cr, Py.contains. simpl.
  destruct (Ascii.eqb_spec Py.CR c) as [<- | Hne]; simpl.
  - split; [discriminate | now intros [[] _]].
  - split; [intros H; split; congruence | now intros [_ H]].
Qed.



Lemma universal_newlines_id (s : string) :
  no_cr s -> Py.universal_newlines s = s.
Proof.
  induction s as [|c s IH]; [reflexivity |].
  intros [Hc Hs]%no_cr_cons. cbn [Py.universal_newlines].
  apply Ascii.eqb_neq in Hc. rewrite Hc. now rewrite IH.
Qed.

Lemma translate_newlines_lf (s : string) :
  Py.translate_newlines Py.NL s = s.
Proof.
  induction s as [|c s IH]; simpl; [reflexivity |].
  rewrite IH. destruct (Ascii.eqb_spec c Py.LF) as [-> | Hc]; reflexivity.
Qed.

(** A text without CR, written in text mode, is read back as it was
    written. *)
Lemma read_back (os : OsPath) (s : string) :
  native os -> no_cr s ->
  Py.universal_newlines (Py.translate_newlines (linesep os) s) = s.
Proof.
  intros [-> | ->] Hs.
  - rewrite translate_newlines_lf. now apply universal_newlines_id.
  - induction s as [|c s IH]; [reflexivity |].
    apply no_cr_cons in Hs as [Hc Hs]. cbn [Py.translate_newlines].
    destruct (Ascii.eqb_spec c Py.LF) as [-> | Hlf].
    + change (Py.CRLF +:+ Py.translate_newlines Py.CRLF s)
        with (String Py.CR (String Py.LF (Py.translate_newlines Py.CRLF s))).
      cbn [Py.universal_newlines].
      rewrite !Ascii.eqb_refl. now rewrite IH.
    + change (String c EmptyString +:+ Py.translate_newlines Py.CRLF s)
        with (String c (Py.translate_newlines Py.CRLF s)).
      cbn [Py.universal_newlines].
      apply Ascii.eqb_neq in Hc. rewrite Hc. now rewrite IH.
Qed.






End NewlineFacts.




(** It fails as well on a note stored with CR LF line ends, on a
    platform whose line separator is LF: with an empty list of triples
    the file is written back with LF line ends, so no line of it is
    what it was. *)
Lemma rewrite_crlf_note :
  files Newlines.w_crlf !! "notes.md"
  = Some ("# Reading list" +:+ Py.CRLF +:+ "done" +:+ Py.CRLF)
  /\ files (snd (MarkdownProcessor.update_file_with_formatted_refs
                   (os := Pipeline.posix) "notes.md" [] Newlines.w_crlf))
     !! "notes.md"
     = Some ("# Reading list" +:+ Py.NL +:+ "done" +:+ Py.NL)
  /\ files (snd (MarkdownProcessor.update_file_with_formatted_refs
                   (os := Pipeline.posix) "notes.md" [] Newlines.w_crlf))
     <> files Newlines.w_crlf.
Proof.
  assert (Hbefore : files Newlines.w_crlf !! "notes.md"
                    = Some ("# Reading list" +:+ Py.CRLF +:+ "done"
                                             +:+ Py.CRLF))
    by (vm_compute; reflexivity).
  assert (Hafter :
            files (snd (MarkdownProcessor.update_file_with_formatted_refs
                          (os := Pipeline.posix) "notes.md" []
                          Newlines.w_crlf))
            !! "notes.md"
            = Some ("# Reading list" +:+ Py.NL +:+ "done" +:+ Py.NL))
    by (vm_compute; reflexivity).
  split; [exact Hbefore |]. split; [exact Hafter |].
  intros Heq. rewrite Heq, Hbefore in Hafter. discriminate.
Qed.

(** The triples have to take their turns: with the same URL twice, with
    an empty URL after another, and with a URL that is the citation
    inserted for the triple before, the one matching line gets four
    lines, where the specification inserts two. *)
Lemma rewrite_triples_out_of_turn :
  Forall (fun results =>
            flat_map (Rewrite.expand results)
                     (Py.split Py.LF Rewrite.sample_url)
            = [Rewrite.sample_url; EmptyString;
               Rewrite.citation_of Rewrite.one_line_result]
            /\ length (Py.split Py.LF (MarkdownProcessor.rewrite_content
                                         Rewrite.sample_url results))
               = 5)
         [Rewrite.repeated_results; Rewrite.empty_url_results;
          Rewrite.citation_url_results].
Proof. repeat constructor; vm_compute; reflexivity. Qed.



(** ** The matcher and the language of a pattern *)

Section Matcher.

Import Lang.

Lemma rep_sound {A} (p : ascii -> bool) (s : string) :
  forall (lo : nat) (hi : option nat) (k : string -> option A) (x : A),
    Re.rep p lo hi s k = Some x ->
    exists m rest,
      s = m +:+ rest /\ lang (Re.Rep p lo hi) m /\ k rest = Some x.
Proof.
  induction s as [|c s IH]; intros lo hi k x; simpl.
  - destruct lo; [| discriminate]. intros Hk.
    exists EmptyString, EmptyString. repeat split; try assumption; try (simpl; lia);
      destruct hi; simpl; (lia || exact I).
  - assert (Hstop : match lo with 0 => k (String c s) | S _ => None end = Some x ->
                    exists m rest,
                      String c s = m +:+ rest
                      /\ (all_chars p m = true /\ lo <= String.length m
                          /\ match hi with
                             | Some h => String.length m <= h
                             | None => True
                             end)
                      /\ k rest = Some x).
    { destruct lo; [| discriminate]. intros Hk.
      exists EmptyString, (String c s). repeat split; try assumption; try (simpl; lia);
        destruct hi; simpl; (lia || exact I). }
    destruct (p c) eqn:Hp; simpl; [| exact Hstop].
    destruct hi as [[|h]|]; simpl; try exact Hstop.
    + destruct (Re.rep p (pred lo) (Some h) s k) as [y|] eqn:Hrec;
        [| exact Hstop].
      intros [= ->]. apply IH in Hrec as (m & rest & -> & (Hall & Hlo & Hhi) & Hk).
      exists (String c m), rest. simpl. rewrite Hp, Hall.
      repeat split; try assumption; simpl in *; lia.
    + destruct (Re.rep p (pred lo) None s k) as [y|] eqn:Hrec;
        [| exact Hstop].
      intros [= ->]. apply IH in Hrec as (m & rest & -> & (Hall & Hlo & Hhi) & Hk).
      exists (String c m), rest. simpl. rewrite Hp, Hall.
      repeat split; try assumption; simpl in *; lia.
Qed.

Lemma exec_sound (r : Re.regex) :
  forall {A} (s : string) (g : option string)
         (k : string -> option string -> option A) (x : A),
    Re.exec r s g k = Some x ->
    exists m rest g',
      s = m +:+ rest /\ lang r m /\ k rest g' = Some x
      /\ (g' = g \/ exists gm, g' = Some gm /\ captured r gm).
Proof.
  induction r as [|p|r1 IH1 r2 IH2|r1 IH1 r2 IH2|p lo hi|r1 IH1|r1 IH1];
    intros A s g k x; simpl.
  - intros Hk. exists EmptyString, s, g. auto.
  - destruct s as [|c s]; [discriminate |].
    destruct (p c) eqn:Hp; [| discriminate]. intros Hk.
    exists (String c EmptyString), s, g. repeat split; eauto.
  - intros H. apply IH1 in H as (m1 & s1 & g1 & -> & Hm1 & H & Hg1).
    apply IH2 in H as (m2 & rest & g2 & -> & Hm2 & H & Hg2).
    exists (m1 +:+ m2), rest, g2. rewrite append_assoc.
    repeat split; eauto.
    destruct Hg2 as [-> | (gm & -> & Hgm)]; [| eauto].
    destruct Hg1 as [-> | (gm & -> & Hgm)]; eauto.
  - destruct (Re.exec r1 s g k) as [y|] eqn:H1.
    + intros [= ->]. apply IH1 in H1 as (m & rest & g' & -> & Hm & H & Hg).
      exists m, rest, g'. repeat split; auto.
      destruct Hg as [-> | (gm & -> & Hgm)]; eauto.
    + intros H. apply IH2 in H as (m & rest & g' & -> & Hm & H & Hg).
      exists m, rest, g'. repeat split; auto.
      destruct Hg as [-> | (gm & -> & Hgm)]; eauto.
  - intros H. apply rep_sound in H as (m & rest & -> & Hm & H).
    exists m, rest, g. auto.
  - destruct (Re.exec r1 s g k) as [y|] eqn:H1.
    + intros [= ->]. apply IH1 in H1 as (m & rest & g' & -> & Hm & H & Hg).
      exists m, rest, g'. auto.
    + intros H. exists EmptyString, s, g. auto.
  - intros H. apply IH1 in H as (m & rest & g' & -> & Hm & H & Hg).
    eexists m, rest, _. repeat split; eauto.
    right. eexists; split; [reflexivity |]. left.
    now rewrite length_append, Nat.add_sub, take_append.
Qed.

(** A match is a prefix of the text and belongs to the pattern; its
    group 1, when set, was captured by a group of the pattern. *)
Lemma match_at_sound (r : Re.regex) (s : string) (m : Re.rmatch) :
  Re.match_at r s = Some m ->
  exists rest,
    s = Re.group0 m +:+ rest /\ lang r (Re.group0 m)
    /\ forall gm, Re.group1 m = Some gm -> captured r gm.
Proof.
  unfold Re.match_at. intros H.
  apply exec_sound in H as (pre & rest & g' & -> & Hpre & [= <-] & Hg).
  exists rest. simpl.
  rewrite length_append, Nat.add_sub, take_append. repeat split; auto.
  intros gm ->. now destruct Hg as [[=] | (gm' & [= <-] & Hgm)].
Qed.

(** The matcher finds a match wherever the pattern has one: with its
    backtracking it reaches every string of the language. *)
Lemma rep_complete {A} (p : ascii -> bool) (m : string) :
  forall (lo : nat) (hi : option nat) (rest : string) (k : string -> option A),
    all_chars p m = true ->
    lo <= String.length m ->
    match hi with Some h => String.length m <= h | None => True end ->
    k rest <> None ->
    Re.rep p lo hi (m +:+ rest) k <> None.
Proof.
  induction m as [|c m IH]; intros lo hi rest k Hall Hlo Hhi Hk.
  - simpl in Hlo. assert (lo = 0) as -> by lia.
    change (EmptyString +:+ rest) with rest.
    destruct rest as [|d rest]; simpl; [exact Hk |].
    destruct (p d && match hi with Some 0 => false | _ => true end);
      [| exact Hk].
    now destruct (Re.rep p 0 (option_map pred hi) rest k).
  - simpl in Hall, Hlo. apply andb_prop in Hall as [Hc Hall].
    simpl. rewrite Hc.
    destruct hi as [[|h]|]; simpl in *; [lia | |].
    + destruct (Re.rep p (pred lo) (Some h) (m +:+ rest) k) eqn:Hrec;
        [discriminate |].
      exfalso. revert Hrec. apply IH; simpl; auto; lia.
    + destruct (Re.rep p (pred lo) None (m +:+ rest) k) eqn:Hrec;
        [discriminate |].
      exfalso. revert Hrec. apply IH; simpl; auto; lia.
Qed.

Lemma exec_complete (r : Re.regex) :
  forall {A} (m rest : string) (g : option string)
         (k : string -> option string -> option A),
    lang r m ->
    (forall g', k rest g' <> None) ->
    Re.exec r (m +:+ rest) g k <> None.
Proof.
  induction r as [|p|r1 IH1 r2 IH2|r1 IH1 r2 IH2|p lo hi|r1 IH1|r1 IH1];
    intros A m rest g k Hm Hk; simpl in Hm |- *.
  - subst m. apply Hk.
  - destruct Hm as (c & -> & Hc). simpl. rewrite Hc. apply Hk.
  - destruct Hm as (a & b & -> & Ha & Hb). rewrite append_assoc.
    apply IH1; [exact Ha |]. intros g'. now apply IH2.
  - destruct (Re.exec r1 (m +:+ rest) g k) eqn:H1; [discriminate |].
    destruct Hm as [Hm | Hm]; [| now apply IH2].
    exfalso. revert H1. now apply IH1.
  - destruct Hm as (Hall & Hlo & Hhi). apply rep_complete; auto.
  - destruct (Re.exec r1 (m +:+ rest) g k) eqn:H1; [discriminate |].
    destruct Hm as [-> | Hm]; [apply Hk |].
    exfalso. revert H1. now apply IH1.
  - apply IH1; [exact Hm |]. intros g'. apply Hk.
Qed.

Lemma match_at_complete (r : Re.regex) (s : string) :
  starts_match r s -> exists m, Re.match_at r s = Some m.
Proof.
  intros (m & rest & -> & Hm). unfold Re.match_at.
  destruct (Re.exec r (m +:+ rest) None _) as [x|] eqn:Hx; [now exists x |].
  exfalso. revert Hx. now apply exec_complete.
Qed.

Lemma skip_run_ends (p : ascii -> bool) (s : string) : run_ends p (skip_run p s).
Proof.
  induction s as [|c s IH]; simpl; [exact I |].
  destruct (p c) eqn:Hc; [exact IH | exact Hc].
Qed.

Lemma skip_run_suffix (p : ascii -> bool) (s : string) :
  exists run, s = run +:+ skip_run p s /\ all_chars p run = true.
Proof.
  induction s as [|c s (run & Hs & Hrun)]; simpl.
  - now exists EmptyString.
  - destruct (p c) eqn:Hc.
    + exists (String c run). simpl. rewrite Hc, Hrun, <- Hs. auto.
    + now exists EmptyString.
Qed.

(** An open repetition in front of a continuation that takes whatever
    is left reads the whole run of the class. *)
Lemma rep_whole_run {A} (p : ascii -> bool) (s : string) :
  forall (lo : nat) (k : string -> option A),
    (forall s', k s' <> None) ->
    Re.rep p lo None s k
    = if Nat.leb lo (run_length p s) then k (skip_run p s) else None.
Proof.
  induction s as [|c s IH]; intros lo k Hk; simpl.
  - now destruct lo.
  - destruct (p c) eqn:Hc; simpl; [| now destruct lo].
    rewrite IH by exact Hk.
    destruct (Nat.leb (pred lo) (run_length p s)) eqn:Hle.
    + apply Nat.leb_le in Hle.
      destruct (k (skip_run p s)) eqn:Hks; [| now apply Hk in Hks].
      destruct lo as [|lo]; [reflexivity |].
      simpl in Hle. apply Nat.leb_le in Hle. simpl. now rewrite Hle.
    + apply Nat.leb_gt in Hle. destruct lo as [|lo]; simpl in Hle; [lia |].
      apply Nat.leb_gt in Hle. simpl. now rewrite Hle.
Qed.

Lemma exec_run_end (p : ascii -> bool) (r : Re.regex) :
  ends_in_run p r ->
  forall {A} (s : string) (g : option string)
         (k : string -> option string -> option A) (x : A),
    (forall s' g', k s' g' <> None) ->
    Re.exec r s g k = Some x ->
    exists pre rest g', s = pre +:+ rest /\ run_ends p rest /\ k rest g' = Some x.
Proof.
  induction r as [|q|r1 IH1 r2 IH2|r1 IH1 r2 IH2|q lo hi|r1 IH1|r1 IH1];
    simpl; try contradiction.
  - intros Hend A s g k x Hk H.
    apply exec_sound in H as (m1 & s1 & g1 & -> & _ & H & _).
    apply (IH2 Hend) in H as (pre & rest & g' & -> & Hstop & H);
      [| exact Hk].
    exists (m1 +:+ pre), rest, g'. now rewrite append_assoc.
  - intros [Hend1 Hend2] A s g k x Hk.
    destruct (Re.exec r1 s g k) as [y|] eqn:H1.
    + intros [= ->]. now apply (IH1 Hend1) in H1.
    + intros H. now apply (IH2 Hend2) in H.
  - destruct hi as [h|]; [contradiction |]. intros -> A s g k x Hk.
    rewrite rep_whole_run by (intros s'; apply Hk).
    destruct (Nat.leb lo (run_length p s)); [| discriminate]. intros H.
    destruct (skip_run_suffix p s) as (run & Hs & _).
    exists run, (skip_run p s), g.
    split; [exact Hs |]. split; [apply skip_run_ends | exact H].
  - intros Hend A s g k x Hk H.
    apply (IH1 Hend) in H as (pre & rest & g' & -> & Hstop & H);
      [| intros s' g'; apply Hk].
    eexists pre, rest, _. eauto.
Qed.

(** The match of a pattern that ends in an open repetition of a class
    runs up to the end of the text or to a character outside the
    class. *)
Lemma match_at_end (p : ascii -> bool) (r : Re.regex) (s : string)
      (m : Re.rmatch) :
  ends_in_run p r ->
  Re.match_at r s = Some m ->
  exists rest, s = Re.group0 m +:+ rest /\ run_ends p rest.
Proof.
  unfold Re.match_at. intros Hend H.
  apply (exec_run_end p r Hend) in H as (pre & rest & g' & -> & Hstop & [= <-]);
    [| discriminate].
  exists rest. simpl.
  now rewrite length_append, Nat.add_sub, take_append.
Qed.

Lemma search_captured (r : Re.regex) (s : string) (m : Re.rmatch) (gm : string) :
  Re.search r s = Some m -> Re.group1 m = Some gm -> captured r gm.
Proof.
  induction s as [|c s IH]; simpl.
  - destruct (Re.match_at r EmptyString) as [m'|] eqn:Hm; [| discriminate].
    intros [= ->] Hgm. apply match_at_sound in Hm as (_ & _ & _ & Hg). auto.
  - destruct (Re.match_at r (String c s)) as [m'|] eqn:Hm; [| exact IH].
    intros [= ->] Hgm. apply match_at_sound in Hm as (_ & _ & _ & Hg). auto.
Qed.

Lemma first_group_captured (patterns : list Re.regex) (url gm : string) :
  URLParser.first_group patterns url = Some gm ->
  Exists (fun r => captured r gm) patterns.
Proof.
  induction patterns as [|r rs IH]; simpl; [discriminate |].
  destruct (Re.search r url) as [m|] eqn:Hm.
  - intros Hg. left. eapply search_captured; eassumption.
  - intros Hg. right. auto.
Qed.

End Matcher.

Section FindAll.

Import Lang.





Lemma all_matches_in_lang (r : Re.regex) (s : string) :
  forall skip, Forall (lang r) (Re.findall_from r skip s).
Proof.
  induction s as [|c s IH]; intros [|skip]; simpl; try constructor.
  - destruct (Re.match_at r EmptyString) as [m|] eqn:Hm; [| constructor].
    apply match_at_sound in Hm as (rest & _ & Hm & _). now repeat constructor.
  - destruct (Re.match_at r (String c s)) as [m|] eqn:Hm; [| apply IH].
    apply match_at_sound in Hm as (rest & _ & Hm & _). constructor; [exact Hm |].
    apply IH.
  - apply IH.
Qed.

Lemma rstrip_by_prefix (p : ascii -> bool) (s : string) :
  exists tail, s = Py.rstrip_by p s +:+ tail /\ all_chars p tail = true.
Proof.
  induction s as [|c s (tail & Hs & Htail)]; simpl.
  - now exists EmptyString.
  - destruct (Py.rstrip_by p s) as [|d r] eqn:Hr.
    + destruct (p c) eqn:Hp.
      * exists (String c s). simpl in Hs. subst tail. simpl. now rewrite Hp.
      * exists tail. simpl in *. now subst s.
    + exists tail. split; [| assumption]. simpl. f_equal. exact Hs.
Qed.

Lemma rstrip_by_no_trailing (p : ascii -> bool) (s : string) (c : ascii) :
  last_char (Py.rstrip_by p s) = Some c -> p c = false.
Proof.
  induction s as [|d s IH]; simpl; [discriminate |].
  destruct (Py.rstrip_by p s) as [|e r] eqn:Hr.
  - destruct (p d) eqn:Hp; simpl; [discriminate |]. now intros [= <-].
  - simpl. exact IH.
Qed.

Lemma rstrip_by_keep (p : ascii -> bool) (a b : string) (c : ascii) :
  p c = false ->
  Py.rstrip_by p (a +:+ String c b) = a +:+ String c (Py.rstrip_by p b).
Proof.
  intros Hc. induction a as [|d a IH]; simpl.
  - destruct (Py.rstrip_by p b); [now rewrite Hc | reflexivity].
  - rewrite IH. now destruct a.
Qed.

Lemma lang_lit (s m : string) : lang (Re.lit s) m -> m = s.
Proof.
  revert m. induction s as [|c s IH]; simpl; intros m; [auto |].
  intros (a & b & -> & (d & -> & Hd) & Hb).
  apply Ascii.eqb_eq in Hd. subst d. now rewrite (IH _ Hb).
Qed.

(** The two shapes of a match of [url_pattern]. *)
Lemma lang_url_pattern (m : string) :
  lang URLParser.url_pattern m ->
  (exists body, m = "http://" +:+ body \/ m = "https://" +:+ body)
  \/ (exists head body, m = "doi:" +:+ head +:+ String "/" body).
Proof.
  unfold URLParser.url_pattern.
  cbn [lang Re.cat]. intros [H | H].
  - left. destruct H as (a & b & -> & Ha & c & d & -> & Hc & e & body & -> & He & _).
    apply lang_lit in Ha, He. subst a e. exists body.
    destruct Hc as [-> | Hc]; [now left |].
    apply lang_lit in Hc. subst c. now right.
  - right.
    destruct H as (a & b & -> & Ha & ws & c & -> & _ & d & e & -> & Hd
                     & ds & f & -> & _ & sl & body & -> & Hsl & _).
    apply lang_lit in Ha, Hd, Hsl. subst a d sl.
    exists (ws +:+ "10." +:+ ds), body.
    now rewrite !append_assoc.
Qed.

(** [url_pattern] has no empty match, so [Re.findall_from] never meets
    the case that it leaves out. *)
Lemma url_pattern_not_empty : ~ lang URLParser.url_pattern EmptyString.
Proof.
  intros H.
  apply lang_url_pattern in H as [[body [H | H]] | (head & body & H)];
    discriminate.
Qed.

End FindAll.

Section FindUrls.

Import Lang.

Lemma rstrip_url_prefixed (m : string) :
  lang URLParser.url_pattern m -> url_prefixed (Py.rstrip ".,;:" m).
Proof.
  intros H. apply lang_url_pattern in H as [[body [-> | ->]] | (head & body & ->)];
    unfold Py.rstrip, url_prefixed.
  - left. change ("http://" +:+ body) with ("http:/" +:+ String "/" body).
    rewrite rstrip_by_keep by reflexivity. reflexivity.
  - right; left.
    change ("https://" +:+ body) with ("https:/" +:+ String "/" body).
    rewrite rstrip_by_keep by reflexivity. reflexivity.
  - right; right. rewrite <- append_assoc.
    rewrite rstrip_by_keep by reflexivity. reflexivity.
Qed.



End FindUrls.

(** ** [URLParser.extract_arxiv_id] *)

Section StripVersion.

Lemma split_at_separator (sep : ascii) (a b : string) :
  Py.contains sep a = false ->
  Py.split sep (a +:+ String sep b) = a :: Py.split sep b.
Proof.
  unfold Py.contains. induction a as [|c a IH]; simpl.
  - intros _. now rewrite Ascii.eqb_refl.
  - rewrite (Ascii.eqb_sym sep c).
    destruct (Ascii.eqb c sep); simpl; [discriminate |].
    intros H. now rewrite (IH H).
Qed.

Lemma contains_separator (sep : ascii) (a b : string) :
  Py.contains sep (a +:+ String sep b) = true.
Proof.
  unfold Py.contains. induction a as [|c a IH]; simpl.
  - now rewrite Ascii.eqb_refl.
  - rewrite IH. apply orb_true_r.
Qed.

(** On an identifier without [v] the version suffix, and only it, goes. *)
Lemma strip_version_suffix (base version : string) :
  Py.contains "v" base = false ->
  URLParser.strip_version (base +:+ String "v" version) = base
  /\ URLParser.strip_version base = base.
Proof.
  intros H. unfold URLParser.strip_version.
  rewrite contains_separator, split_at_separator, H by assumption.
  now split.
Qed.

End StripVersion.

(** C4 fails on the code: the version is cut off with
    [split('v')[0]], which cuts an old-style identifier at the first
    [v] of its category, and leaves an upper-case [V] suffix, accepted
    by the case-insensitive patterns, in place. *)
Theorem extract_arxiv_id_cuts_at_first_v :
  URLParser.extract_arxiv_id "https://arxiv.org/abs/solv-int/9901001"
  = Some "sol"
  /\ URLParser.extract_arxiv_id "https://arxiv.org/abs/2301.00001V3"
     = Some "2301.00001V3"
  /\ URLParser.extract_arxiv_id "https://arxiv.org/abs/2301.00001v3"
     = Some "2301.00001"
  /\ URLParser.extract_arxiv_id "https://arxiv.org/abs/2301.00001"
     = Some "2301.00001"
  /\ URLParser.extract_arxiv_id "https://arxiv.org/pdf/hep-th/9901001"
     = Some "hep-th/9901001".
Proof. repeat split; vm_compute; reflexivity. Qed.

(** ** [URLParser.extract_doi] *)

Section ExtractDoi.

Import Lang.

Lemma captured_lit_i (s m : string) : ~ captured (Re.lit_i s) m.
Proof. induction s as [|c s IH]; simpl; tauto. Qed.

Lemma lang_doi_body (g : string) :
  lang URLParser.doi_body g ->
  exists d rest,
    g = String d rest /\ Ascii.eqb (Py.lower "1") (Py.lower d) = true.
Proof.
  unfold URLParser.doi_body. cbn [lang Re.cat Re.lit_i].
  intros (a & b & -> & (a1 & a2 & -> & (d & -> & Hd) & _) & _).
  exists d, (a2 +:+ b). split; [reflexivity | exact Hd].
Qed.

Lemma captured_doi_pattern (r : Re.regex) (g : string) :
  r ∈ URLParser.DOI_PATTERNS -> captured r g -> lang URLParser.doi_body g.
Proof.
  assert (Hbody : ~ captured URLParser.doi_body g).
  { unfold URLParser.doi_body. cbn [captured Re.cat Re.at_least Re.plus].
    pose proof (captured_lit_i "10." g). pose proof (captured_lit_i "/" g).
    tauto. }
  unfold URLParser.DOI_PATTERNS. intros Hr.
  apply elem_of_cons in Hr as [-> | Hr].
  - cbn [captured]. pose proof (captured_lit_i "doi.org/" g). tauto.
  - apply elem_of_cons in Hr as [-> | Hr]; [| now apply elem_of_nil in Hr].
    cbn [captured Re.cat Re.star]. pose proof (captured_lit_i "doi:" g). tauto.
Qed.

(** A DOI that [extract_doi] returns is never the empty string. *)
Lemma extract_doi_truthy (url d : string) :
  URLParser.extract_doi url = Some d -> Py.truthy d = true.
Proof.
  unfold URLParser.extract_doi.
  destruct (URLParser.first_group URLParser.DOI_PATTERNS url) as [g|] eqn:Hg;
    [| discriminate].
  intros [= <-]. apply first_group_captured, Exists_exists in Hg as (r & Hr & Hg).
  apply (captured_doi_pattern r g Hr), lang_doi_body in Hg as (c & rest & -> & Hc).
  unfold Py.rstrip.
  change (String c rest) with (EmptyString +:+ String c rest).
  rewrite rstrip_by_keep; [reflexivity |].
  destruct (Ascii.eqb_spec c ".") as [-> | Hne]; [discriminate |].
  simpl. apply orb_false_iff. split; [| reflexivity].
  now apply Ascii.eqb_neq.
Qed.

End ExtractDoi.

(** ** The network functions leave the store alone *)

Section KeepsStore.

Import Store.

Lemma same_store_refl (w : World) : same_store w w.
Proof. now repeat split. Qed.

Lemma same_store_trans (w1 w2 w3 : World) :
  same_store w1 w2 -> same_store w2 w3 -> same_store w1 w3.
Proof. unfold same_store. intros (-> & -> & ->) (-> & -> & ->). auto. Qed.

Lemma keeps_pure {A} (a : A) : keeps_store (pure a).
Proof. intros w. apply same_store_refl. Qed.

Lemma keeps_raise {A} (e : exn) : keeps_store (@raise A e).
Proof. intros w. apply same_store_refl. Qed.

Lemma keeps_sleep (n : Z) : keeps_store (sleep n).
Proof. intros w. now repeat split. Qed.

Lemma keeps_http_get (url : string) (params : list (string * string)) :
  keeps_store (http_get url params).
Proof. intros w. unfold http_get. now destruct (responses w); repeat split. Qed.

Lemma keeps_bind {A B} (m : M A) (f : A -> M B) :
  keeps_store m -> (forall a, keeps_store (f a)) -> keeps_store (bind m f).
Proof.
  intros Hm Hf w. unfold bind. specialize (Hm w).
  destruct (m w) as [[e | a] w1]; simpl in *; [exact Hm |].
  eapply same_store_trans; [exact Hm | apply Hf].
Qed.

Lemma keeps_attempts_loop (max_retries : nat) (url : string)
      (params : list (string * string)) (attempts : list nat) :
  keeps_store (SemanticScholarAPI.attempts_loop max_retries url params attempts).
Proof.
  induction attempts as [|a later IH]; simpl; [apply keeps_pure |].
  apply keeps_bind; [apply keeps_http_get |]. intros o.
  assert (Hexc : keeps_store
                   ((if (Z.of_nat a <? Z.of_nat max_retries - 1)%Z
                     then sleep 2 else pure tt) >>
                    SemanticScholarAPI.attempts_loop max_retries url params later)).
  { apply keeps_bind; [| intros _; exact IH].
    destruct (_ <? _)%Z; [apply keeps_sleep | apply keeps_pure]. }
  destruct o as [| status_code body]; [exact Hexc |].
  destruct (status_code =? 200)%Z.
  - destruct body; [apply keeps_pure | exact Hexc ..].
  - destruct (status_code =? 429)%Z; [| apply keeps_pure].
    apply keeps_bind; [apply keeps_sleep | intros _; exact IH].
Qed.

Lemma keeps_get_full_paper_info (arxiv_id : string) :
  keeps_store (SemanticScholarAPI.get_full_paper_info arxiv_id).
Proof.
  unfold SemanticScholarAPI.get_full_paper_info,
    SemanticScholarAPI._request_with_retry.
  apply keeps_bind; [apply keeps_attempts_loop |].
  intros [d|]; [| apply keeps_pure].
  destruct (SemanticScholarAPI.has_keys d); [| apply keeps_pure].
  destruct (SemanticScholarAPI.paper_of_json arxiv_id d);
    [apply keeps_raise | apply keeps_pure].
Qed.

Lemma keeps_print_title_and_authors (p : PaperInfoOf (option string)) :
  keeps_store (MarkdownProcessor.print_title_and_authors p).
Proof.
  unfold MarkdownProcessor.print_title_and_authors.
  destruct (title p); [| apply keeps_raise].
  destruct (forallb _ _); [apply keeps_pure | apply keeps_raise].
Qed.

Lemma keeps_get_citations (arxiv_id doi : option string) :
  keeps_store (SemanticScholarAPI.get_citations arxiv_id doi).
Proof.
  unfold SemanticScholarAPI.get_citations,
    SemanticScholarAPI._request_with_retry.
  destruct (if Py.truthy_opt arxiv_id then _ else _); [| apply keeps_pure].
  apply keeps_bind; [apply keeps_attempts_loop |]. intros [d|]; apply keeps_pure.
Qed.

Lemma keeps_get_paper_info (arxiv_id : string) :
  keeps_store (ArxivAPI.get_paper_info arxiv_id).
Proof.
  unfold ArxivAPI.get_paper_info, ArxivAPI._fallback_semantic_scholar.
  apply keeps_bind; [apply keeps_http_get |]. intros [| status_code body];
    [apply keeps_pure |].
  destruct (is_http_error status_code).
  - destruct (status_code =? 403)%Z;
      [apply keeps_get_full_paper_info | apply keeps_pure].
  - destruct body as [d | [e|] | |]; apply keeps_pure.
Qed.

Lemma keeps_process_arxiv (arxiv_id : string) :
  keeps_store (MarkdownProcessor._process_arxiv arxiv_id).
Proof.
  unfold MarkdownProcessor._process_arxiv.
  apply keeps_bind; [apply keeps_get_full_paper_info |]. intros p1.
  apply keeps_bind.
  - destruct p1; [apply keeps_pure | apply keeps_get_paper_info].
  - intros [p0|]; [| apply keeps_pure].
    apply keeps_bind; [apply keeps_print_title_and_authors |]. intros p.
    destruct (citations p); [apply keeps_pure |].
    apply keeps_bind; [apply keeps_sleep |]. intros _.
    apply keeps_bind; [apply keeps_get_citations |].
    intros [n|]; apply keeps_pure.
Qed.

Lemma keeps_download (os_path : OsPath) (url : option string)
      (save_path : string) :
  keeps_store (PDFDownloader.download url save_path).
Proof.
  unfold PDFDownloader.download. destruct url as [u|]; [| apply keeps_pure].
  destruct (PDFDownloader.sendable u); [| apply keeps_pure].
  apply keeps_bind; [apply keeps_http_get |]. intros [| status_code body];
    [apply keeps_pure |].
  destruct (is_http_error status_code); [apply keeps_pure |].
  destruct (_ && _); [| apply keeps_pure].
  intros w. now repeat split.
Qed.

Lemma keeps_generate_filename (p : PaperInfo) :
  keeps_store (PDFDownloader.generate_filename p).
Proof.
  unfold PDFDownloader.generate_filename.
  destruct (authors p) as [|first others]; [apply keeps_pure |].
  destruct (last (Py.words first)); [apply keeps_pure | apply keeps_raise].
Qed.

End KeepsStore.

(** ** [MarkdownProcessor.process_file] *)

#[local] Arguments URLParser.extract_arxiv_id : simpl never.
#[local] Arguments URLParser.extract_doi : simpl never.
#[local] Arguments URLParser.find_urls_in_text : simpl never.
#[local] Arguments MarkdownProcessor._process_arxiv : simpl never.
#[local] Arguments SemanticScholarAPI.get_full_paper_info : simpl never.
#[local] Arguments ArxivAPI.get_paper_info : simpl never.
#[local] Arguments PDFDownloader.download : simpl never.
#[local] Arguments PDFDownloader.generate_filename : simpl never.

Lemma run_is_url_processed (url : string) (w : World) :
  StateManager.is_url_processed url w
  = (inr (Py.present (processed_urls (st w) !! url)), w).
Proof. reflexivity. Qed.

Lemma run_process_arxiv_unresolved (arxiv_id : string) (w w1 w2 : World) :
  SemanticScholarAPI.get_full_paper_info arxiv_id w = (inr None, w1) ->
  ArxivAPI.get_paper_info arxiv_id w1 = (inr None, w2) ->
  MarkdownProcessor._process_arxiv arxiv_id w = (inr None, w2).
Proof.
  intros H1 H2. unfold MarkdownProcessor._process_arxiv, bind.
  now rewrite H1, H2.
Qed.

(** C6: a link whose resolution fails at both sources is skipped: the
    list of results and the store are as before, the link is still
    unprocessed, and the loop goes on with the remaining URLs. *)
Theorem process_file_skips_unresolved
        (os_path : OsPath) (pdf_dir filepath url arxiv_id : string)
        (results : list Result) (rest : list string) (w w1 w2 : World) :
  processed_urls (st w) !! url = None ->
  URLParser.extract_arxiv_id url = Some arxiv_id ->
  Py.truthy arxiv_id = true ->
  SemanticScholarAPI.get_full_paper_info arxiv_id w = (inr None, w1) ->
  ArxivAPI.get_paper_info arxiv_id w1 = (inr None, w2) ->
  MarkdownProcessor.process_url os_path pdf_dir filepath results url w
  = (inr results, w2)
  /\ st w2 = st w /\ disk w2 = disk w
  /\ fst (StateManager.is_url_processed url w2) = inr false
  /\ MarkdownProcessor.process_urls os_path pdf_dir filepath results
                                    (url :: rest) w
     = MarkdownProcessor.process_urls os_path pdf_dir filepath results rest w2.
Proof.
  intros Hnew Hid Htruthy H1 H2.
  assert (Hstep : MarkdownProcessor.process_url
                    os_path pdf_dir filepath results url w
                  = (inr results, w2)).
  { unfold MarkdownProcessor.process_url, bind.
    rewrite run_is_url_processed, Hnew, Hid. simpl. rewrite Htruthy.
    now rewrite (run_process_arxiv_unresolved _ _ _ _ H1 H2). }
  assert (Hst : st w2 = st w /\ disk w2 = disk w).
  { pose proof (keeps_get_full_paper_info arxiv_id w) as (Ha & Hb & _).
    pose proof (keeps_get_paper_info arxiv_id w1) as (Hc & Hd & _).
    rewrite H1 in Ha, Hb. rewrite H2 in Hc, Hd. simpl in *.
    split; congruence. }
  destruct Hst as [Hst Hdisk].
  repeat split; try assumption.
  - rewrite run_is_url_processed, Hst, Hnew. reflexivity.
  - simpl. unfold bind at 1. now rewrite Hstep.
Qed.

Lemma process_file_skips_unresolved_witness :
  MarkdownProcessor.process_url Pipeline.posix "pdfs" "notes.md" []
                                Rewrite.sample_url Pipeline.w_unresolved
  = (inr [], Pipeline.w_unresolved2)
  /\ fst (StateManager.is_url_processed Rewrite.sample_url
                                        Pipeline.w_unresolved2) = inr false.
Proof.
  destruct (process_file_skips_unresolved
              Pipeline.posix "pdfs" "notes.md" Rewrite.sample_url "2301.00001"
              [] [Samples.doi_url]
              Pipeline.w_unresolved Pipeline.w_unresolved1
              Pipeline.w_unresolved2)
    as (Hstep & _ & _ & Hnot & _); try (vm_compute; reflexivity).
  split; assumption.
Defined.

(** [PDFDownloader.download] returns a boolean whatever the transport
    does. *)
Lemma download_never_raises (os_path : OsPath) (url : option string)
      (save_path : string) (w : World) :
  exists ok w', PDFDownloader.download url save_path w = (inr ok, w').
Proof.
  unfold PDFDownloader.download, bind, http_get, pure.
  destruct url as [u|]; [| eauto].
  destruct (PDFDownloader.sendable u); [| eauto].
  destruct (responses w) as [|[| status_code body] rest]; simpl; eauto.
  destruct (is_http_error status_code); [eauto |].
  destruct (_ && _); eauto.
Qed.




(** The results that the loop body adds: nothing, or one triple for a
    URL that carries an arXiv identifier. *)
Lemma process_url_results
      (os_path : OsPath) (pdf_dir filepath url : string)
      (results results' : list Result) (w w' : World) :
  MarkdownProcessor.process_url os_path pdf_dir filepath results url w
  = (inr results', w') ->
  results' = results
  \/ (Py.truthy_opt (URLParser.extract_arxiv_id url) = true
      /\ exists p pdf, results' = (results ++ [(url, p, pdf)])%list).
Proof.
  unfold MarkdownProcessor.process_url, bind.
  rewrite run_is_url_processed.
  destruct (Py.present _); [intros [= <- <-]; now left |].
  destruct (Py.truthy_opt (URLParser.extract_arxiv_id url)).
  - destruct (MarkdownProcessor._process_arxiv _ w) as [[e | [p|]] w1];
      [discriminate | | intros [= <- <-]; now left].
    destruct (PDFDownloader.generate_filename p w1) as [[e | name] w1'];
      [discriminate |].
    destruct (PDFDownloader.download _ _ w1') as [[e | ok] w2];
      [discriminate |].
    simpl. intros [= <- <-]. right. split; [reflexivity | eauto].
  - destruct (Py.truthy_opt (URLParser.extract_doi url));
      simpl; intros [= <- <-]; now left.
Qed.

Lemma process_urls_results
      (os_path : OsPath) (pdf_dir filepath : string) (urls : list string) :
  forall (results results' : list Result) (w w' : World),
    MarkdownProcessor.process_urls os_path pdf_dir filepath results urls w
    = (inr results', w') ->
    forall r, r ∈ results' ->
              r ∈ results
              \/ Py.truthy_opt (URLParser.extract_arxiv_id (Rewrite.url_of r))
                 = true.
Proof.
  induction urls as [|url urls IH]; intros results results' w w'; simpl.
  - intros [= <- <-]. auto.
  - unfold bind at 1.
    destruct (MarkdownProcessor.process_url _ _ _ results url w)
      as [[e | rs1] w1] eqn:Hstep; [discriminate |].
    intros Hrest r Hr.
    destruct (IH _ _ _ _ Hrest r Hr) as [Hin | Harxiv]; [| now right].
    apply process_url_results in Hstep as [-> | (Hid & p & pdf & ->)];
      [now left |].
    apply elem_of_app in Hin as [Hin | Hin]; [now left |].
    apply list_elem_of_singleton in Hin. subst r. now right.
Qed.

(** The loop body leaves the state as it is or records its own URL. *)
Lemma process_url_store
      (os_path : OsPath) (pdf_dir filepath url : string)
      (results : list Result) (w : World) :
  let w' := snd (MarkdownProcessor.process_url
                   os_path pdf_dir filepath results url w) in
  st w' = st w
  \/ exists now snapshot,
      st w' = StateManager.record_url now url snapshot (st w).
Proof.
  unfold MarkdownProcessor.process_url, bind.
  rewrite run_is_url_processed.
  destruct (Py.present _); [now left |].
  destruct (Py.truthy_opt (URLParser.extract_arxiv_id url)).
  - pose proof (keeps_process_arxiv
                  (default EmptyString (URLParser.extract_arxiv_id url)) w)
      as (H1 & _).
    destruct (MarkdownProcessor._process_arxiv _ w) as [[e | [p|]] w1];
      simpl in *; [now left | | now left].
    pose proof (keeps_generate_filename p w1) as (H2 & _).
    destruct (PDFDownloader.generate_filename p w1) as [[e | name] w1'];
      simpl in *; [left; congruence |].
    pose proof (keeps_download
                  os_path (pdf_url p) (path_join os_path pdf_dir name) w1')
      as (H3 & _).
    destruct (PDFDownloader.download _ _ w1') as [[e | ok] w2];
      simpl in *; [left; congruence |].
    right. eexists _, _. rewrite H3, H2, H1. reflexivity.
  - destruct (Py.truthy_opt (URLParser.extract_doi url)); simpl;
      [right; eauto | now left].
Qed.

Lemma process_url_keeps_marks
      (os_path : OsPath) (pdf_dir filepath url x : string)
      (results : list Result) (w : World) :
  processed_urls (st w) !! x <> None ->
  processed_urls
    (st (snd (MarkdownProcessor.process_url
                os_path pdf_dir filepath results url w))) !! x <> None.
Proof.
  intros Hx.
  destruct (process_url_store os_path pdf_dir filepath url results w)
    as [-> | (now & snapshot & ->)]; [exact Hx |].
  simpl. destruct (decide (url = x)) as [-> | Hne].
  - now rewrite lookup_insert_eq.
  - now rewrite lookup_insert_ne.
Qed.

Lemma process_urls_keeps_marks
      (os_path : OsPath) (pdf_dir filepath x : string) (urls : list string) :
  forall (results : list Result) (w : World),
    processed_urls (st w) !! x <> None ->
    processed_urls
      (st (snd (MarkdownProcessor.process_urls
                  os_path pdf_dir filepath results urls w))) !! x <> None.
Proof.
  induction urls as [|url urls IH]; intros results w Hx; simpl; [exact Hx |].
  unfold bind at 1.
  pose proof (process_url_keeps_marks os_path pdf_dir filepath url x
                                      results w Hx) as Hstep.
  destruct (MarkdownProcessor.process_url _ _ _ results url w)
    as [[e | rs1] w1]; simpl in *; [exact Hstep | now apply IH].
Qed.

(** What the loop body does with a URL that carries a DOI only. *)
Lemma run_process_url_doi
      (os_path : OsPath) (pdf_dir filepath url d : string)
      (results : list Result) (w : World) :
  processed_urls (st w) !! url = None ->
  Py.truthy_opt (URLParser.extract_arxiv_id url) = false ->
  URLParser.extract_doi url = Some d ->
  MarkdownProcessor.process_url os_path pdf_dir filepath results url w
  = (inr results,
     mkWorld (responses w) (clock w) (trace w) (files w)
             (StateManager.record_url (clock w) url [("doi", d)] (st w))
             (Some (StateManager.record_url (clock w) url [("doi", d)]
                                            (st w)))).
Proof.
  intros Hnew Harxiv Hdoi.
  pose proof (extract_doi_truthy _ _ Hdoi) as Htruthy.
  unfold MarkdownProcessor.process_url, bind.
  rewrite run_is_url_processed, Hnew, Harxiv, Hdoi. simpl.
  now rewrite Htruthy.
Qed.

Lemma process_urls_marks_doi
      (os_path : OsPath) (pdf_dir filepath url d : string)
      (urls : list string) :
  Py.truthy_opt (URLParser.extract_arxiv_id url) = false ->
  URLParser.extract_doi url = Some d ->
  url ∈ urls ->
  forall (results results' : list Result) (w w' : World),
    MarkdownProcessor.process_urls os_path pdf_dir filepath results urls w
    = (inr results', w') ->
    processed_urls (st w') !! url <> None.
Proof.
  intros Harxiv Hdoi. induction urls as [|u urls IH]; intros Hin.
  - now apply elem_of_nil in Hin.
  - intros results results' w w'. simpl. unfold bind at 1.
    destruct (MarkdownProcessor.process_url _ _ _ results u w)
      as [[e | rs1] w1] eqn:Hstep; [discriminate |].
    intros Hrest.
    assert (Hdone : url = u -> processed_urls (st w1) !! url <> None).
    { intros <-.
      destruct (processed_urls (st w) !! url) as [entry|] eqn:Hold.
      - pose proof (process_url_keeps_marks os_path pdf_dir filepath url url
                                            results w) as Hkeep.
        rewrite Hstep in Hkeep. apply Hkeep. now rewrite Hold.
      - rewrite (run_process_url_doi _ _ _ _ _ _ _ Hold Harxiv Hdoi) in Hstep.
        injection Hstep as _ <-. simpl. now rewrite lookup_insert_eq. }
    apply elem_of_cons in Hin as [Heq | Hin].
    + pose proof (process_urls_keeps_marks os_path pdf_dir filepath url urls
                                           rs1 w1 (Hdone Heq)) as Hkeep.
      now rewrite Hrest in Hkeep.
    + now apply (IH Hin rs1 results' w1 w').
Qed.

(** C10: a new URL that carries a DOI and no arXiv identifier is marked
    processed with the snapshot [{"doi": doi}], without any request and
    without a result; a later scan that finds it recorded passes it
    over; no list returned by [process_file] holds it; and after every
    run of [process_file] that returns, on a note that holds the URL, it
    is recorded. *)
Theorem process_file_marks_doi_only
        (os_path : OsPath) (pdf_dir filepath url d : string)
        (results : list Result) (w : World) :
  processed_urls (st w) !! url = None ->
  Py.truthy_opt (URLParser.extract_arxiv_id url) = false ->
  URLParser.extract_doi url = Some d ->
  exists w',
    MarkdownProcessor.process_url os_path pdf_dir filepath results url w
    = (inr results, w')
    /\ st w' = StateManager.record_url (clock w) url [("doi", d)] (st w)
    /\ processed_urls (st w') !! url = Some (mkEntry (clock w) [("doi", d)])
    /\ disk w' = Some (st w')
    /\ trace w' = trace w /\ responses w' = responses w
    /\ (forall fp rs w1,
           processed_urls (st w1) !! url <> None ->
           MarkdownProcessor.process_url os_path pdf_dir fp rs url w1
           = (inr rs, w1))
    /\ (forall fp rs w1 w2,
           MarkdownProcessor.process_file os_path pdf_dir fp w1 = (inr rs, w2) ->
           url ∉ Rewrite.url_of <$> rs)
    /\ (forall fp content rs w1 w2,
           notes w1 !! fp = Some content ->
           url ∈ URLParser.find_urls_in_text content ->
           MarkdownProcessor.process_file os_path pdf_dir fp w1 = (inr rs, w2) ->
           processed_urls (st w2) !! url <> None).
Proof.
  intros Hnew Harxiv Hdoi.
  eexists. split; [exact (run_process_url_doi _ _ _ _ _ _ _ Hnew Harxiv Hdoi) |].
  simpl. repeat split.
  - apply lookup_insert_eq.
  - intros fp rs w1 Hrec.
    unfold MarkdownProcessor.process_url, bind.
    rewrite run_is_url_processed.
    destruct (processed_urls (st w1) !! url); [reflexivity | congruence].
  - intros fp rs w1 w2 Hrun Hin.
    unfold MarkdownProcessor.process_file, bind in Hrun.
    destruct (MarkdownProcessor.read_file fp w1) as [[e | content] w1'];
      [discriminate |].
    apply list_elem_of_fmap in Hin as (r & -> & Hr).
    destruct (process_urls_results _ _ _ _ _ _ _ _ Hrun r Hr) as [Hnil | Hid].
    + now apply elem_of_nil in Hnil.
    + congruence.
  - intros fp content rs w1 w2 Hfile Hin Hrun.
    unfold MarkdownProcessor.process_file, bind,
      MarkdownProcessor.read_file in Hrun.
    rewrite Hfile in Hrun.
    now apply (process_urls_marks_doi _ _ _ _ _ _ Harxiv Hdoi Hin _ _ _ _ Hrun).
Qed.

Lemma process_file_marks_doi_only_witness :
  exists w',
    MarkdownProcessor.process_url Pipeline.posix "pdfs" "notes.md" []
                                  Samples.doi_url Samples.w0
    = (inr [], w')
    /\ processed_urls (st w') !! Samples.doi_url
       = Some (mkEntry 100 [("doi", "10.1000/xyz123")])
    /\ trace w' = [].
Proof.
  destruct (process_file_marks_doi_only
              Pipeline.posix "pdfs" "notes.md" Samples.doi_url "10.1000/xyz123"
              [] Samples.w0)
    as (w' & Hstep & _ & Hentry & _ & Htrace & _);
    try (vm_compute; reflexivity).
  exists w'. repeat split; assumption.
Defined.

(** * Further properties *)

(** ** Requests and exceptions *)

Section BudgetFacts.

Import Budget Store.

Lemma requests_emit_get (url : string) (params : list (string * string))
      (w : World) :
  requests (emit (Get url params) w) = S (requests w).
Proof.
  unfold requests, Retry.attempts; simpl.
  rewrite List.filter_app, length_app. simpl. lia.
Qed.

Lemma never_raises_pure {A} (a : A) : never_raises (pure a).
Proof. intros w. now exists a. Qed.

Lemma never_raises_sleep (n : Z) : never_raises (sleep n).
Proof. intros w. now exists tt. Qed.

Lemma never_raises_http_get (url : string) (params : list (string * string)) :
  never_raises (http_get url params).
Proof. intros w. unfold http_get. destruct (responses w); simpl; eauto. Qed.

Lemma never_raises_bind {A B} (m : M A) (f : A -> M B) :
  never_raises m -> (forall a, never_raises (f a)) -> never_raises (bind m f).
Proof.
  intros Hm Hf w. unfold bind. destruct (Hm w) as [a Ha].
  destruct (m w) as [[e | a'] w1]; simpl in Ha; [discriminate |].
  apply Hf.
Qed.

Lemma at_most_pure {A} (a : A) : requests_at_most 0 (pure a).
Proof. intros w. simpl. lia. Qed.

Lemma at_most_raise {A} (e : exn) : requests_at_most 0 (@raise A e).
Proof. intros w. simpl. lia. Qed.

Lemma at_most_sleep (n : Z) : requests_at_most 0 (sleep n).
Proof.
  intros w. unfold requests, Retry.attempts; simpl.
  rewrite List.filter_app, length_app. simpl. lia.
Qed.

Lemma at_most_http_get (url : string) (params : list (string * string)) :
  requests_at_most 1 (http_get url params).
Proof.
  intros w. unfold http_get.
  pose proof (requests_emit_get url params w) as H.
  destruct (responses w); simpl; unfold requests in *; simpl in *; lia.
Qed.

Lemma at_most_bind {A B} (n k : nat) (m : M A) (f : A -> M B) :
  requests_at_most n m -> (forall a, requests_at_most k (f a)) ->
  requests_at_most (n + k) (bind m f).
Proof.
  intros Hm Hf w. unfold bind. specialize (Hm w).
  destruct (m w) as [[e | a] w1]; simpl in *; [lia |].
  specialize (Hf a w1). lia.
Qed.

Lemma at_most_weaken {A} (n k : nat) (m : M A) :
  n <= k -> requests_at_most n m -> requests_at_most k m.
Proof. intros Hle Hm w. specialize (Hm w). lia. Qed.

Lemma never_raises_attempts_loop (max_retries : nat) (url : string)
      (params : list (string * string)) (attempts : list nat) :
  never_raises (SemanticScholarAPI.attempts_loop max_retries url params attempts).
Proof.
  induction attempts as [|a later IH]; simpl; [apply never_raises_pure |].
  apply never_raises_bind; [apply never_raises_http_get |]. intros o.
  assert (Hexc : never_raises
                   ((if (Z.of_nat a <? Z.of_nat max_retries - 1)%Z
                     then sleep 2 else pure tt) >>
                    SemanticScholarAPI.attempts_loop max_retries url params later)).
  { apply never_raises_bind; [| intros _; exact IH].
    destruct (_ <? _)%Z; [apply never_raises_sleep | apply never_raises_pure]. }
  destruct o as [| status_code body]; [exact Hexc |].
  destruct (status_code =? 200)%Z.
  - destruct body; [apply never_raises_pure | exact Hexc ..].
  - destruct (status_code =? 429)%Z; [| apply never_raises_pure].
    apply never_raises_bind; [apply never_raises_sleep | intros _; exact IH].
Qed.

Lemma at_most_attempts_loop (max_retries : nat) (url : string)
      (params : list (string * string)) (attempts : list nat) :
  requests_at_most (length attempts)
    (SemanticScholarAPI.attempts_loop max_retries url params attempts).
Proof.
  induction attempts as [|a later IH]; simpl; [apply at_most_pure |].
  apply (at_most_bind 1 (length later)); [apply at_most_http_get |]. intros o.
  assert (Hexc : requests_at_most (length later)
                   ((if (Z.of_nat a <? Z.of_nat max_retries - 1)%Z
                     then sleep 2 else pure tt) >>
                    SemanticScholarAPI.attempts_loop max_retries url params later)).
  { apply (at_most_bind 0 (length later)); [| intros _; exact IH].
    destruct (_ <? _)%Z; [apply at_most_sleep | apply at_most_pure]. }
  destruct o as [| status_code body]; [exact Hexc |].
  destruct (status_code =? 200)%Z.
  - destruct body; try exact Hexc.
    eapply at_most_weaken; [| apply at_most_pure]. lia.
  - destruct (status_code =? 429)%Z.
    + apply (at_most_bind 0 (length later));
        [apply at_most_sleep | intros _; exact IH].
    + eapply at_most_weaken; [| apply at_most_pure]. lia.
Qed.

Lemma attempts_loop_sends_one (max_retries : nat) (url : string)
      (params : list (string * string)) (a : nat) (later : list nat)
      (w : World) :
  requests w
  < requests (snd (SemanticScholarAPI.attempts_loop
                     max_retries url params (a :: later) w)).
Proof.
  pose proof (at_most_attempts_loop max_retries url params later) as Hlater.
  simpl. unfold bind at 1.
  destruct (http_get url params w) as [[e | o] w1] eqn:Hget.
  { destruct (never_raises_http_get url params w) as [x Hx].
    rewrite Hget in Hx. discriminate. }
  assert (Hw1 : requests w < requests w1).
  { unfold http_get in Hget. pose proof (requests_emit_get url params w).
    destruct (responses w); injection Hget as _ <-;
      unfold requests in *; simpl in *; lia. }
  match goal with
  | |- _ < requests (snd (?k w1)) =>
      assert (Hk : requests_at_most (length later) k)
  end.
  { assert (Hexc : requests_at_most (length later)
                     ((if (Z.of_nat a <? Z.of_nat max_retries - 1)%Z
                       then sleep 2 else pure tt) >>
                      SemanticScholarAPI.attempts_loop
                        max_retries url params later)).
    { apply (at_most_bind 0 (length later)); [| intros _; exact Hlater].
      destruct (_ <? _)%Z; [apply at_most_sleep | apply at_most_pure]. }
    destruct o as [| status_code body]; [exact Hexc |].
    destruct (status_code =? 200)%Z.
    - destruct body; try exact Hexc.
      eapply at_most_weaken; [| apply at_most_pure]. lia.
    - destruct (status_code =? 429)%Z.
      + apply (at_most_bind 0 (length later));
          [apply at_most_sleep | intros _; exact Hlater].
      + eapply at_most_weaken; [| apply at_most_pure]. lia. }
  specialize (Hk w1). lia.
Qed.

End BudgetFacts.

(** X1: whatever the network answers, [_request_with_retry] returns
    without raising, sends at least one and at most [max_retries]
    requests, and leaves the state, the state file and the notes alone;
    with [max_retries = 0] it returns nothing without any request. *)
Theorem request_with_retry_bounded
        (url : string) (params : list (string * string)) (max_retries : nat)
        (w : World) :
  exists r w',
    SemanticScholarAPI._request_with_retry url params max_retries w
    = (inr r, w')
    /\ Budget.requests w' <= Budget.requests w + max_retries
    /\ (0 < max_retries -> Budget.requests w < Budget.requests w')
    /\ (max_retries = 0 -> r = None /\ w' = w)
    /\ Store.same_store w w'.
Proof.
  unfold SemanticScholarAPI._request_with_retry.
  pose proof (never_raises_attempts_loop max_retries url params
                                         (seq 0 max_retries) w) as [r Hr].
  pose proof (at_most_attempts_loop max_retries url params
                                    (seq 0 max_retries) w) as [_ Hmost].
  pose proof (keeps_attempts_loop max_retries url params
                                  (seq 0 max_retries) w) as Hkeep.
  rewrite length_seq in Hmost.
  destruct max_retries as [|n].
  - simpl in *. exists None, w. repeat split; auto; lia.
  - pose proof (attempts_loop_sends_one (S n) url params 0 (seq 1 n) w) as Hone.
    change (0 :: seq 1 n) with (seq 0 (S n)) in Hone.
    destruct (SemanticScholarAPI.attempts_loop _ _ _ _ w) as [x w'].
    simpl in *. subst x. exists r, w'. repeat split; auto; try lia.
    all: apply Hkeep.
Qed.

(** X2: three rate-limit answers in a row exhaust the retries: the call
    returns nothing after three requests, having paused 3, 6 and, after
    the last answer too, 9 seconds. *)
Theorem request_with_retry_rate_limit_exhausted
        (url : string) (params : list (string * string))
        (b1 b2 b3 : Body) (rest : list Outcome)
        (c : Z) (t : list Event) (n : gmap string string)
        (s : State) (dk : option State) :
  SemanticScholarAPI._request_with_retry
    url params 3
    (mkWorld (Response 429 b1 :: Response 429 b2 :: Response 429 b3 :: rest)
             c t n s dk)
  = (inr None,
     mkWorld rest (c + 3 + 6 + 9)
             (t ++ [Get url params; Sleep 3; Get url params; Sleep 6;
                    Get url params; Sleep 9])%list n s dk).
Proof.
  unfold SemanticScholarAPI._request_with_retry; simpl.
  unfold bind, http_get, sleep, emit; simpl.
  now rewrite <- !app_assoc.
Qed.

(** X3: an answer whose status is neither 200 nor 429 ends the call at
    once: nothing is returned, after one request and no pause, however
    many retries are allowed. *)
Theorem request_with_retry_error_status
        (url : string) (params : list (string * string)) (max_retries : nat)
        (status_code : Z) (body : Body) (rest : list Outcome)
        (c : Z) (t : list Event) (n : gmap string string)
        (s : State) (dk : option State) :
  status_code <> 200%Z -> status_code <> 429%Z ->
  SemanticScholarAPI._request_with_retry
    url params (S max_retries)
    (mkWorld (Response status_code body :: rest) c t n s dk)
  = (inr None, mkWorld rest c (t ++ [Get url params])%list n s dk).
Proof.
  intros H200 H429.
  unfold SemanticScholarAPI._request_with_retry; simpl.
  unfold bind, http_get, emit; simpl.
  apply Z.eqb_neq in H200, H429. now rewrite H200, H429.
Qed.

Lemma request_with_retry_error_status_witness :
  SemanticScholarAPI._request_with_retry
    Retry.url Retry.params 3
    (mkWorld [Response 404 OtherBody; Response 200 (JsonBody Retry.answer)]
             0 [] ∅ StateManager.empty_state None)
  = (inr None,
     mkWorld [Response 200 (JsonBody Retry.answer)] 0
             [Get Retry.url Retry.params] ∅ StateManager.empty_state None).
Proof.
  apply (request_with_retry_error_status
           Retry.url Retry.params 2 404 OtherBody
           [Response 200 (JsonBody Retry.answer)] 0 [] ∅
           StateManager.empty_state None); discriminate.
Defined.

(** X4: an answer with status 200 whose body is not JSON is handled as
    a transport fault is: when each of the three attempts meets one or
    the other, the call returns nothing after three requests and two
    pauses of two seconds. *)
Theorem request_with_retry_unreadable_body
        (url : string) (params : list (string * string))
        (o1 o2 o3 : Outcome) (rest : list Outcome)
        (c : Z) (t : list Event) (n : gmap string string)
        (s : State) (dk : option State) :
  Budget.retried o1 -> Budget.retried o2 -> Budget.retried o3 ->
  SemanticScholarAPI._request_with_retry
    url params 3 (mkWorld (o1 :: o2 :: o3 :: rest) c t n s dk)
  = (inr None,
     mkWorld rest (c + 2 + 2)
             (t ++ [Get url params; Sleep 2; Get url params; Sleep 2;
                    Get url params])%list n s dk).
Proof.
  intros H1 H2 H3.
  assert (Hshape : forall o, Budget.retried o ->
                     o = Fault \/ o = Response 200 OtherBody
                     \/ o = Response 200 BrokenBody
                     \/ exists e, o = Response 200 (AtomBody e)).
  { intros [| sc [d | e | |]]; simpl; try tauto; intros ->; eauto. }
  apply Hshape in H1, H2, H3.
  destruct H1 as [-> | [-> | [-> | [e1 ->]]]],
      H2 as [-> | [-> | [-> | [e2 ->]]]],
      H3 as [-> | [-> | [-> | [e3 ->]]]];
    unfold SemanticScholarAPI._request_with_retry; simpl;
    unfold bind, http_get, sleep, emit, pure; simpl;
    now rewrite <- !app_assoc.
Qed.

Lemma request_with_retry_unreadable_body_witness :
  SemanticScholarAPI._request_with_retry
    Retry.url Retry.params 3
    (mkWorld [Response 200 OtherBody; Fault; Response 200 (AtomBody None)]
             0 [] ∅ StateManager.empty_state None)
  = (inr None,
     mkWorld [] (0 + 2 + 2)
             ([] ++ [Get Retry.url Retry.params; Sleep 2;
                     Get Retry.url Retry.params; Sleep 2;
                     Get Retry.url Retry.params])%list
             ∅ StateManager.empty_state None).
Proof.
  apply (request_with_retry_unreadable_body
           Retry.url Retry.params
           (Response 200 OtherBody) Fault (Response 200 (AtomBody None)) []
           0 [] ∅ StateManager.empty_state None); simpl; auto.
Defined.

(** ** The metadata resolver *)

Section ResolverFacts.

Import Budget Store.







Lemma at_most_get_full_paper_info (paper_id : string) :
  requests_at_most 3 (SemanticScholarAPI.get_full_paper_info paper_id).
Proof.
  unfold SemanticScholarAPI.get_full_paper_info,
    SemanticScholarAPI._request_with_retry.
  apply (at_most_bind 3 0); [apply (at_most_attempts_loop 3 _ _ (seq 0 3)) |].
  intros [d|]; [| apply at_most_pure].
  destruct (SemanticScholarAPI.has_keys d); [| apply at_most_pure].
  destruct (SemanticScholarAPI.paper_of_json paper_id d);
    [apply at_most_raise | apply at_most_pure].
Qed.

Lemma never_raises_get_citations (a d : option string) :
  never_raises (SemanticScholarAPI.get_citations a d).
Proof.
  unfold SemanticScholarAPI.get_citations,
    SemanticScholarAPI._request_with_retry.
  destruct (if Py.truthy_opt a then _ else _); [| apply never_raises_pure].
  apply never_raises_bind; [apply never_raises_attempts_loop |].
  intros [j|]; apply never_raises_pure.
Qed.

Lemma at_most_get_citations (a d : option string) :
  requests_at_most 3 (SemanticScholarAPI.get_citations a d).
Proof.
  unfold SemanticScholarAPI.get_citations,
    SemanticScholarAPI._request_with_retry.
  destruct (if Py.truthy_opt a then _ else _).
  - apply (at_most_bind 3 0); [apply (at_most_attempts_loop 3 _ _ (seq 0 3)) |].
    intros [j|]; apply at_most_pure.
  - eapply at_most_weaken; [| apply at_most_pure]. lia.
Qed.

Lemma at_most_get_paper_info (paper_id : string) :
  requests_at_most 4 (ArxivAPI.get_paper_info paper_id).
Proof.
  unfold ArxivAPI.get_paper_info, ArxivAPI._fallback_semantic_scholar.
  apply (at_most_bind 1 3); [apply at_most_http_get |].
  intros [| status_code body];
    [eapply at_most_weaken; [| apply at_most_pure]; lia |].
  destruct (is_http_error status_code).
  - destruct (status_code =? 403)%Z; [apply at_most_get_full_paper_info |].
    eapply at_most_weaken; [| apply at_most_pure]; lia.
  - destruct body as [j | [e|] | |];
      (eapply at_most_weaken; [| apply at_most_pure]; lia).
Qed.

Lemma at_most_print_title_and_authors (p : PaperInfoOf (option string)) :
  requests_at_most 0 (MarkdownProcessor.print_title_and_authors p).
Proof.
  unfold MarkdownProcessor.print_title_and_authors.
  destruct (title p); [| apply at_most_raise].
  destruct (forallb _ _); [apply at_most_pure | apply at_most_raise].
Qed.

Lemma at_most_process_arxiv (paper_id : string) :
  requests_at_most 10 (MarkdownProcessor._process_arxiv paper_id).
Proof.
  unfold MarkdownProcessor._process_arxiv.
  apply (at_most_bind 3 7); [apply at_most_get_full_paper_info |].
  intros p1. apply (at_most_bind 4 3).
  - destruct p1; [| apply at_most_get_paper_info].
    eapply at_most_weaken; [| apply at_most_pure]; lia.
  - intros [p0|]; [| eapply at_most_weaken; [| apply at_most_pure]; lia].
    apply (at_most_bind 0 3); [apply at_most_print_title_and_authors |].
    intros p.
    destruct (citations p);
      [eapply at_most_weaken; [| apply at_most_pure]; lia |].
    apply (at_most_bind 0 3); [apply at_most_sleep |]. intros _.
    apply (at_most_bind 3 0); [apply at_most_get_citations |].
    intros [k|]; apply at_most_pure.
Qed.














Lemma resolved_paper_of_json (paper_id : string) (j : ScholarPaper)
      (p : PaperInfoOf (option string)) :
  SemanticScholarAPI.paper_of_json paper_id j = inr p ->
  resolved_for paper_id p.
Proof.
  unfold resolved_for, SemanticScholarAPI.paper_of_json.
  destruct (match s2_authors j with
            | Some JNull => _
            | Some (JValue l) => _
            | None => _
            end) as [e | names]; [discriminate |].
  intros [= <-]. simpl. repeat split.
  destruct (json_get (s2_publicationVenue j)) as [name|].
  - destruct (json_get name) as [n|].
    + destruct (Py.truthy n) eqn:Hn; [now rewrite Hn |].
      now destruct (Py.truthy (default EmptyString (json_get (s2_venue j))))
               eqn:Hv; rewrite ?Hv.
    + now destruct (Py.truthy (default EmptyString (json_get (s2_venue j))))
               eqn:Hv; rewrite ?Hv.
  - now destruct (Py.truthy (default EmptyString (json_get (s2_venue j))))
             eqn:Hv; rewrite ?Hv.
Qed.

Lemma resolved_paper_of_entry (paper_id : string) (e : ArxivEntry)
      (p : PaperInfoOf (option string)) :
  ArxivAPI.paper_of_entry paper_id e = Some p -> resolved_for paper_id p.
Proof.
  unfold ArxivAPI.paper_of_entry.
  destruct (ae_title e) as [[t|]|], (ae_published e) as [[d|]|];
    intros [= <-]; now repeat split.
Qed.

Lemma resolved_set_citations (paper_id : string) (p : PaperInfo)
      (c : option Z) :
  resolved_for paper_id p -> resolved_for paper_id (set_citations p c).
Proof. intros (H1 & H2 & H3 & H4). now repeat split. Qed.

Lemma resolved_print_title_and_authors (paper_id : string)
      (p : PaperInfoOf (option string)) (q : PaperInfo) (w w' : World) :
  resolved_for paper_id p ->
  MarkdownProcessor.print_title_and_authors p w = (inr q, w') ->
  resolved_for paper_id q /\ citations q = citations p /\ w' = w.
Proof.
  intros (H1 & H2 & H3 & H4).
  unfold MarkdownProcessor.print_title_and_authors.
  destruct (title p); [| discriminate].
  destruct (forallb _ _); [| discriminate].
  intros [= <- <-]. now repeat split.
Qed.

Lemma yields_get_full_paper_info (paper_id : string) :
  yields_resolved paper_id (SemanticScholarAPI.get_full_paper_info paper_id).
Proof.
  intros w p. unfold SemanticScholarAPI.get_full_paper_info, bind.
  destruct (SemanticScholarAPI._request_with_retry _ _ _ w) as [[e | [j|]] w1];
    simpl; try discriminate.
  destruct (SemanticScholarAPI.has_keys j); [| discriminate].
  destruct (SemanticScholarAPI.paper_of_json paper_id j) as [e | q] eqn:Hq;
    [discriminate |].
  intros [= <-]. now apply (resolved_paper_of_json paper_id j).
Qed.

Lemma yields_get_paper_info (paper_id : string) :
  yields_resolved paper_id (ArxivAPI.get_paper_info paper_id).
Proof.
  intros w p. unfold ArxivAPI.get_paper_info, bind,
                ArxivAPI._fallback_semantic_scholar.
  destruct (http_get _ _ w) as [[e | [| status_code body]] w1];
    simpl; try discriminate.
  destruct (is_http_error status_code).
  - destruct (status_code =? 403)%Z; [| discriminate].
    apply yields_get_full_paper_info.
  - destruct body as [j | [e|] | |]; simpl; try discriminate.
    intros [= H]. now apply resolved_paper_of_entry in H.
Qed.

Lemma yields_process_arxiv (paper_id : string) :
  yields_resolved paper_id (MarkdownProcessor._process_arxiv paper_id).
Proof.
  intros w p. unfold MarkdownProcessor._process_arxiv, bind.
  pose proof (yields_get_full_paper_info paper_id w) as H1.
  destruct (SemanticScholarAPI.get_full_paper_info paper_id w)
    as [[e | r1] w1]; simpl in *; [discriminate |].
  assert (Hsecond :
            forall r2 w2,
              match r1 with
              | Some p1 => pure (Some p1)
              | None => ArxivAPI.get_paper_info paper_id
              end w1 = (inr r2, w2) ->
              forall p0, r2 = Some p0 -> resolved_for paper_id p0).
  { destruct r1 as [p1|].
    - intros r2 w2 [= <- <-] p0 [= <-]. now apply H1.
    - intros r2 w2 Hrun p0 ->.
      apply (yields_get_paper_info paper_id w1). now rewrite Hrun. }
  destruct (match r1 with
            | Some p1 => pure (Some p1)
            | None => ArxivAPI.get_paper_info paper_id
            end w1) as [[e | [p0|]] w2]; simpl; try discriminate.
  specialize (Hsecond (Some p0) w2 eq_refl p0 eq_refl).
  destruct (MarkdownProcessor.print_title_and_authors p0 w2)
    as [[e | q] w2'] eqn:Hq; [discriminate |].
  apply (resolved_print_title_and_authors paper_id) in Hq as (Hres & _ & ->);
    [| exact Hsecond].
  destruct (citations q); [now intros [= <-] |].
  destruct (SemanticScholarAPI.get_citations _ _ _) as [[e | [k|]] w3];
    simpl; try discriminate; intros [= <-]; [| assumption].
  now apply resolved_set_citations.
Qed.




End ResolverFacts.

(** X5: [get_citations] never raises, sends at most three requests and
    leaves the store alone; without a usable identifier (both missing
    or empty) it returns nothing without any request. *)
Theorem get_citations_bounded (a d : option string) (w : World) :
  exists r w',
    SemanticScholarAPI.get_citations a d w = (inr r, w')
    /\ Budget.requests w' <= Budget.requests w + 3
    /\ Store.same_store w w'
    /\ (Py.truthy_opt a = false -> Py.truthy_opt d = false ->
        r = None /\ w' = w).
Proof.
  destruct (never_raises_get_citations a d w) as [r Hr].
  destruct (at_most_get_citations a d w) as [_ Hmost].
  pose proof (keeps_get_citations a d w) as Hkeep.
  destruct (SemanticScholarAPI.get_citations a d w) as [x w'] eqn:Hrun.
  simpl in *. subst x. destruct Hkeep as (Hst & Hdisk & Hnotes).
  exists r, w'. split; [reflexivity |]. split; [exact Hmost |].
  split; [now repeat split |].
  intros Ha Hd. unfold SemanticScholarAPI.get_citations in Hrun.
  rewrite Ha, Hd in Hrun. injection Hrun as <- <-. now split.
Qed.



(** ** [PDFDownloader] *)


Section FileNameFacts.

Import Lang FileName.

Lemma all_chars_append (p : ascii -> bool) (a b : string) :
  all_chars p (a +:+ b) = all_chars p a && all_chars p b.
Proof.
  induction a as [|c a IH]; simpl; [reflexivity |].
  now rewrite IH, andb_assoc.
Qed.

Lemma all_chars_take (p : ascii -> bool) (n : nat) (s : string) :
  all_chars p s = true -> all_chars p (Py.take n s) = true.
Proof.
  revert s. induction n as [|n IH]; intros [|c s]; simpl; auto.
  intros [Hc Hs]%andb_prop. now rewrite Hc, IH.
Qed.

Lemma length_take_le (n : nat) (s : string) :
  String.length (Py.take n s) <= n.
Proof.
  revert s. induction n as [|n IH]; intros [|c s]; simpl; try lia.
  specialize (IH s). lia.
Qed.

Lemma remove_chars_clean (p : ascii -> bool) (s : string) :
  all_chars (fun c => negb (p c)) (Py.remove_chars p s) = true.
Proof.
  induction s as [|c s IH]; simpl; [reflexivity |].
  destruct (p c) eqn:Hc; simpl; [exact IH | now rewrite Hc].
Qed.

(** The words of [str.split()] are not empty and hold no whitespace. *)
Lemma words_from_clean (s : string) :
  forall cur,
    all_chars not_space cur = true ->
    Forall (fun wd => Py.truthy wd = true /\ all_chars not_space wd = true)
           (Py.words_from cur s).
Proof.
  induction s as [|c s IH]; intros cur Hcur; simpl.
  - destruct (Py.truthy cur) eqn:Ht; repeat constructor; assumption.
  - destruct (Py.isspace c) eqn:Hc.
    + destruct (Py.truthy cur) eqn:Ht.
      * constructor; [now split | now apply IH].
      * now apply IH.
    + apply IH. rewrite all_chars_append, Hcur. simpl.
      unfold not_space. now rewrite Hc.
Qed.

Lemma words_from_nil (s : string) :
  forall cur,
    Py.words_from cur s = []
    <-> cur = EmptyString /\ all_chars Py.isspace s = true.
Proof.
  induction s as [|c s IH]; intros cur; simpl.
  - destruct cur; simpl; split; try tauto; try discriminate.
    now intros [[=] _].
  - destruct (Py.isspace c) eqn:Hc; simpl.
    + destruct cur as [|d cur]; simpl.
      * rewrite IH. tauto.
      * split; [discriminate | now intros [[=] _]].
    + rewrite IH. split; [| now intros [_ [=]]].
      intros [Hcur _]. now destruct cur.
Qed.

End FileNameFacts.

(** X9: the title part of a generated file name has at most 80
    characters and none of the characters that file names forbid (angle
    brackets, colon, quote, slash, backslash, bar, question mark, star);
    the name is
    [author_year_title.pdf], where the author part is [Unknown] without
    authors and otherwise the last word of the first author's name, not
    empty and free of whitespace; the call raises [IndexError] exactly
    when the first author's name holds nothing but whitespace; the
    world is never touched. *)
Theorem generate_filename_shape (p : PaperInfo) (w : World) :
  String.length (FileName.title_part p) <= 80
  /\ Lang.all_chars FileName.safe (FileName.title_part p) = true
  /\ (authors p = [] ->
      PDFDownloader.generate_filename p w
      = (inr (FileName.named "Unknown" p), w))
  /\ (forall first others,
         authors p = first :: others ->
         if Lang.all_chars Py.isspace first
         then PDFDownloader.generate_filename p w = (inl IndexError, w)
         else exists word,
             PDFDownloader.generate_filename p w
             = (inr (FileName.named word p), w)
             /\ last (Py.words first) = Some word
             /\ Py.truthy word = true
             /\ Lang.all_chars FileName.not_space word = true).
Proof.
  split; [apply length_take_le |].
  split; [apply all_chars_take, remove_chars_clean |].
  unfold PDFDownloader.generate_filename. split.
  - intros ->. reflexivity.
  - intros first others ->.
    destruct (Lang.all_chars Py.isspace first) eqn:Hsp.
    + assert (Hnil : Py.words first = [])
        by (now apply words_from_nil).
      now rewrite Hnil.
    + destruct (last (Py.words first)) as [word|] eqn:Hlast.
      * exists word. split; [reflexivity |]. split; [reflexivity |].
        pose proof (words_from_clean first EmptyString eq_refl) as Hall.
        apply last_Some in Hlast as [l' Hl'].
        unfold Py.words in Hl'. rewrite Hl' in Hall.
        rewrite Forall_forall in Hall. apply Hall.
        apply elem_of_app. right. apply list_elem_of_singleton. reflexivity.
      * apply last_None in Hlast. apply words_from_nil in Hlast as [_ Hall].
        congruence.
Qed.

(** ** [URLParser]: what the extractors return *)

Section ExtractorFacts.

Import Lang Ids.

Lemma hd_split_no_separator (sep : ascii) (s : string) :
  Py.contains sep (hd EmptyString (Py.split sep s)) = false.
Proof.
  unfold Py.contains. induction s as [|c s IH]; simpl; [reflexivity |].
  destruct (Ascii.eqb c sep) eqn:Hc; [reflexivity |].
  destruct (Py.split sep s) as [|l ls]; simpl in *.
  - now rewrite (Ascii.eqb_sym sep c), Hc.
  - now rewrite (Ascii.eqb_sym sep c), Hc, IH.
Qed.

Lemma strip_version_no_v (s : string) :
  Py.contains "v" (URLParser.strip_version s) = false.
Proof.
  unfold URLParser.strip_version.
  destruct (Py.contains "v" s) eqn:Hv; [apply hd_split_no_separator | exact Hv].
Qed.

(** A greedy repetition that can take all of [m] and nothing more hands
    the rest to its continuation. *)
Lemma rep_greedy {A} (p : ascii -> bool) (m : string) :
  forall (lo : nat) (hi : option nat) (rest : string)
         (k : string -> option A) (x : A),
    all_chars p m = true ->
    lo <= String.length m ->
    match hi with Some h => String.length m <= h | None => True end ->
    stops p hi m rest ->
    k rest = Some x ->
    Re.rep p lo hi (m +:+ rest) k = Some x.
Proof.
  induction m as [|c m IH]; intros lo hi rest k x Hall Hlo Hhi Hstop Hk.
  - simpl in *. assert (lo = 0) by lia. subst lo.
    destruct rest as [|d rest]; simpl; [exact Hk |].
    destruct Hstop as [-> | Hd]; [now rewrite andb_false_r |].
    now rewrite Hd.
  - simpl in Hall. apply andb_prop in Hall as [Hc Hall].
    change (String c m +:+ rest) with (String c (m +:+ rest)).
    cbn [Re.rep]. rewrite Hc.
    assert (Hgo : match hi with Some 0 => false | _ => true end = true).
    { destruct hi as [[|h]|]; simpl in *; [lia | reflexivity | reflexivity]. }
    rewrite Hgo. simpl.
    rewrite (IH (pred lo) (option_map pred hi) rest k x); try assumption.
    + reflexivity.
    + simpl in Hlo. lia.
    + destruct hi as [h|]; simpl in *; [lia | exact I].
    + destruct Hstop as [-> | Hrest]; [left; reflexivity | right; exact Hrest].
Qed.

Lemma digits_no_v (s : string) :
  all_chars Py.isdigit s = true -> Py.contains "v" s = false.
Proof.
  unfold Py.contains. induction s as [|c s IH]; simpl; [reflexivity |].
  intros [Hc Hs]%andb_prop. rewrite (IH Hs), orb_false_r.
  destruct (Ascii.eqb_spec "v" c) as [<- | Hne]; [discriminate | reflexivity].
Qed.

Lemma new_style_no_v (a b : string) :
  new_style a b -> Py.contains "v" (a +:+ "." +:+ b) = false.
Proof.
  intros (Ha & _ & Hb & _).
  rewrite !contains_append, (digits_no_v a Ha), (digits_no_v b Hb).
  reflexivity.
Qed.

Lemma take_all (s : string) : Py.take (String.length s) s = s.
Proof. induction s as [|c s IH]; simpl; [reflexivity | now rewrite IH]. Qed.

(** The first pattern, tried on the identifier that follows
    [arxiv.org/abs/], captures the identifier with its version. *)
Lemma exec_new_style_id {A} (a b tail : string)
      (k : string -> option string -> option A) (x : A) (g : option string) :
  new_style a b ->
  tail = EmptyString \/ (exists n, version n /\ tail = String "v" n) ->
  k EmptyString g = Some x ->
  Re.exec URLParser.new_style_id (a +:+ "." +:+ b +:+ tail) g k = Some x.
Proof.
  intros (Ha & Hla & Hb & Hlb4 & Hlb5) Htail Hk.
  unfold URLParser.new_style_id, Re.exactly, Re.between, Re.plus.
  cbn [Re.cat Re.exec].
  apply rep_greedy; try assumption; try lia.
  { left. now rewrite Hla. }
  change ("." +:+ b +:+ tail) with (String "." (b +:+ tail)).
  cbn [Re.lit_i Re.exec].
  change (Ascii.eqb (Py.lower ".") (Py.lower ".")) with true. cbv iota.
  apply rep_greedy; try assumption.
  { destruct Htail as [-> | (n & _ & ->)]; right; [exact I | reflexivity]. }
  destruct Htail as [-> | (n & (Hn & Hln) & ->)].
  - reflexivity || (cbn [Re.exec Re.lit_i]; exact Hk).
  - cbn [Re.exec Re.lit_i].
    change (Ascii.eqb (Py.lower "v") (Py.lower "v")) with true. cbv iota.
    rewrite <- (append_nil_r n).
    rewrite (rep_greedy Py.isdigit n 1 None EmptyString _ x);
      try assumption; try reflexivity.
    now right.
Qed.

End ExtractorFacts.

Section CanonicalUrl.

Import Lang Ids.

Lemma exec_lit_i_prefix {A} (literal rest : string) (g : option string)
      (k : string -> option string -> option A) :
  Re.exec (Re.lit_i literal) (literal +:+ rest) g k = k rest g.
Proof.
  induction literal as [|c literal IH]; simpl; [reflexivity |].
  now rewrite Ascii.eqb_refl.
Qed.

Lemma match_at_first_mismatch (x c : ascii) (xs s : string) (r : Re.regex) :
  Ascii.eqb (Py.lower x) (Py.lower c) = false ->
  Re.match_at (Re.Seq (Re.lit_i (String x xs)) r) (String c s) = None.
Proof. intros H. unfold Re.match_at. simpl. now rewrite H. Qed.

Lemma search_skip (r : Re.regex) (c : ascii) (s : string) :
  Re.match_at r (String c s) = None ->
  Re.search r (String c s) = Re.search r s.
Proof. intros H. simpl. now rewrite H. Qed.

Lemma search_found (r : Re.regex) (s : string) (m : Re.rmatch) :
  Re.match_at r s = Some m -> Re.search r s = Some m.
Proof. intros H. destruct s; simpl; now rewrite H. Qed.

Lemma first_group_abs_url (a b tail : string) :
  new_style a b ->
  tail = EmptyString \/ (exists n, version n /\ tail = String "v" n) ->
  URLParser.first_group URLParser.ARXIV_PATTERNS
                        ("https://arxiv.org/abs/" +:+ a +:+ "." +:+ b +:+ tail)
  = Some (a +:+ "." +:+ b +:+ tail).
Proof.
  intros Hid Htail.
  set (X := a +:+ "." +:+ b +:+ tail).
  assert (Hm : exists m0,
             Re.match_at (Re.Seq (Re.lit_i "arxiv.org/abs/")
                                 (Re.Group URLParser.new_style_id))
                         ("arxiv.org/abs/" +:+ X)
             = Some (Re.mkMatch m0 (Some X))).
  { unfold Re.match_at. eexists.
    cbn [Re.exec]. rewrite exec_lit_i_prefix. cbn [Re.exec].
    unfold X. erewrite exec_new_style_id;
      [| exact Hid | exact Htail | reflexivity].
    fold X. change (String.length EmptyString) with 0.
    rewrite (Nat.sub_0_r (String.length X)), (take_all X). reflexivity. }
  destruct Hm as [m0 Hm].
  unfold URLParser.ARXIV_PATTERNS, URLParser.first_group.
  change ("https://arxiv.org/abs/" +:+ X)
    with (String "h" (String "t" (String "t" (String "p" (String "s"
            (String ":" (String "/" (String "/" ("arxiv.org/abs/" +:+ X))))))))).
  rewrite !search_skip by (now apply match_at_first_mismatch).
  now rewrite (search_found _ _ _ Hm).
Qed.

End CanonicalUrl.

(** X10: an identifier that [extract_arxiv_id] returns never holds a
    lower-case [v]. *)
Theorem extract_arxiv_id_no_v (url paper_id : string) :
  URLParser.extract_arxiv_id url = Some paper_id ->
  Py.contains "v" paper_id = false.
Proof.
  unfold URLParser.extract_arxiv_id.
  destruct (URLParser.first_group _ url) as [g|]; [| discriminate].
  intros [= <-]. apply strip_version_no_v.
Qed.

Lemma extract_arxiv_id_no_v_witness :
  Py.contains "v" "sol" = false.
Proof.
  apply (extract_arxiv_id_no_v "https://arxiv.org/abs/solv-int/9901001" "sol").
  vm_compute. reflexivity.
Defined.

(** X11: for the address [https://arxiv.org/abs/] followed by a
    new-style identifier (four digits, a dot, four or five digits),
    with or without a version [vN] in lower case, [extract_arxiv_id]
    returns the identifier without the version: both addresses give the
    same key. *)
Theorem extract_arxiv_id_abs_url (a b n : string) :
  Ids.new_style a b -> Ids.version n ->
  URLParser.extract_arxiv_id
    ("https://arxiv.org/abs/" +:+ a +:+ "." +:+ b +:+ String "v" n)
  = Some (a +:+ "." +:+ b)
  /\ URLParser.extract_arxiv_id
       ("https://arxiv.org/abs/" +:+ a +:+ "." +:+ b)
     = Some (a +:+ "." +:+ b).
Proof.
  intros Hid Hn. unfold URLParser.extract_arxiv_id.
  pose proof (new_style_no_v a b Hid) as Hv.
  split.
  - rewrite (first_group_abs_url a b (String "v" n) Hid); [| eauto].
    replace (a +:+ "." +:+ b +:+ String "v" n)
      with ((a +:+ "." +:+ b) +:+ String "v" n)
      by now rewrite !append_assoc.
    cbn [option_map]. f_equal.
    exact (proj1 (strip_version_suffix _ n Hv)).
  - pose proof (first_group_abs_url a b EmptyString Hid (or_introl eq_refl))
      as H.
    rewrite append_nil_r in H. rewrite H. cbn [option_map]. f_equal.
    exact (proj2 (strip_version_suffix _ EmptyString Hv)).
Qed.

Lemma extract_arxiv_id_abs_url_witness :
  URLParser.extract_arxiv_id "https://arxiv.org/abs/2301.00001v3"
  = Some "2301.00001"
  /\ URLParser.extract_arxiv_id "https://arxiv.org/abs/2301.00001"
     = Some "2301.00001".
Proof.
  apply (extract_arxiv_id_abs_url "2301" "00001" "3");
    repeat split; vm_compute; try reflexivity; lia.
Defined.

Section DoiShape.

Import Lang.

Lemma lower_dot_digit (x d : ascii) :
  Py.char_in "10./" x = true ->
  Ascii.eqb (Py.lower x) (Py.lower d) = true -> d = x.
Proof.
  intros Hx Hd.
  assert (Hcases : x = "1"%char \/ x = "0"%char \/ x = "."%char \/ x = "/"%char).
  { simpl in Hx. repeat (apply orb_prop in Hx as [Hx | Hx]);
      try apply Ascii.eqb_eq in Hx; auto. discriminate. }
  destruct d as [[] [] [] [] [] [] [] []];
    destruct Hcases as [-> | [-> | [-> | ->]]];
    first [reflexivity | discriminate Hd].
Qed.

Lemma lang_lit_i_plain (s m : string) :
  all_chars (Py.char_in "10./") s = true -> lang (Re.lit_i s) m -> m = s.
Proof.
  revert m. induction s as [|c s IH]; simpl; intros m Hs; [auto |].
  apply andb_prop in Hs as [Hc Hs].
  intros (a & b & -> & (d & -> & Hd) & Hb).
  rewrite (lower_dot_digit c d Hc Hd), (IH _ Hs Hb). reflexivity.
Qed.

Lemma digit_not_stop (c : ascii) :
  Py.isdigit c = true -> Re.not_space_nor ")" c = true.
Proof.
  destruct c as [[] [] [] [] [] [] [] []]; intros H;
    first [reflexivity | discriminate H].
Qed.

Lemma all_chars_impl (p q : ascii -> bool) (s : string) :
  (forall c, p c = true -> q c = true) ->
  all_chars p s = true -> all_chars q s = true.
Proof.
  intros Hpq. induction s as [|c s IH]; simpl; [auto |].
  intros [Hc Hs]%andb_prop. now rewrite (Hpq c Hc), IH.
Qed.

(** The text that the group of a DOI pattern captures. *)
Lemma lang_doi_body_shape (g : string) :
  lang URLParser.doi_body g ->
  exists ds body,
    g = "10." +:+ ds +:+ String "/" body
    /\ all_chars Py.isdigit ds = true /\ 4 <= String.length ds
    /\ all_chars (Re.not_space_nor ")") body = true.
Proof.
  unfold URLParser.doi_body, Re.at_least, Re.plus. cbn [lang Re.cat].
  intros (a & r1 & -> & Ha & ds & r2 & -> & (Hds & Hlen & _)
            & sl & body & -> & Hsl & Hbody & _).
  apply lang_lit_i_plain in Ha, Hsl; try reflexivity. subst a sl.
  exists ds, body. repeat split; assumption.
Qed.

End DoiShape.

(** X12: a DOI that [extract_doi] returns has the form [10.] digits
    [/] suffix, with four digits or more; it holds no whitespace and no
    closing parenthesis, and does not end in a period.  The suffix may
    be empty. *)
Theorem extract_doi_shape (url d : string) :
  URLParser.extract_doi url = Some d ->
  exists ds suffix,
    d = "10." +:+ ds +:+ String "/" suffix
    /\ Lang.all_chars Py.isdigit ds = true /\ 4 <= String.length ds
    /\ Lang.all_chars (Re.not_space_nor ")") d = true
    /\ Lang.no_trailing "." d.
Proof.
  unfold URLParser.extract_doi.
  destruct (URLParser.first_group URLParser.DOI_PATTERNS url) as [g|] eqn:Hg;
    [| discriminate].
  intros [= <-].
  apply first_group_captured, Exists_exists in Hg as (r & Hr & Hg).
  apply (captured_doi_pattern r g Hr), lang_doi_body_shape in Hg
    as (ds & body & -> & Hds & Hlen & Hbody).
  unfold Py.rstrip.
  replace ("10." +:+ ds +:+ String "/" body)
    with (("10." +:+ ds) +:+ String "/" body) by now rewrite !append_assoc.
  rewrite rstrip_by_keep by reflexivity.
  destruct (rstrip_by_prefix (Py.char_in ".") body) as (tail & Hbody' & _).
  exists ds, (Py.rstrip_by (Py.char_in ".") body).
  split; [now rewrite !append_assoc |]. split; [exact Hds |].
  split; [exact Hlen |]. split.
  - rewrite Hbody', all_chars_append in Hbody.
    apply andb_prop in Hbody as [Hkept _].
    rewrite !all_chars_append.
    rewrite (all_chars_impl _ _ ds digit_not_stop Hds).
    cbn [Lang.all_chars]. rewrite Hkept. reflexivity.
  - unfold Lang.no_trailing.
    destruct (Lang.last_char _) as [c|] eqn:Hlast; [| exact I].
    rewrite <- (rstrip_by_keep (Py.char_in ".") ("10." +:+ ds) body "/"
                               eq_refl) in Hlast.
    now apply rstrip_by_no_trailing in Hlast.
Qed.

Lemma extract_doi_shape_witness :
  exists ds suffix,
    "10.1145/3290605.3300233" = "10." +:+ ds +:+ String "/" suffix
    /\ 4 <= String.length ds.
Proof.
  destruct (extract_doi_shape "https://doi.org/10.1145/3290605.3300233."
                              "10.1145/3290605.3300233")
    as (ds & suffix & Hd & _ & Hlen & _).
  - vm_compute. reflexivity.
  - exists ds, suffix. split; assumption.
Defined.

(** ** Rewriting a note that holds no link of the list *)

Section NoMatch.

Import Rewrite.




End NoMatch.



(** ** File hashes *)

(** X14: [update_file_hash] records the digest of the file's current
    text, keeps the processed URLs and flushes the state; right after
    it [has_file_changed] answers [False], and after the file is
    rewritten it answers [True] exactly when the digest of the text
    that is then read differs.  That text is the text written when it
    holds no CR and the line separator is LF or CR LF; in general it is
    the text written with its line ends translated twice.  A path
    without a recorded digest counts as changed. *)
Theorem update_file_hash_round_trip
        (os_path : OsPath) (md5_hexdigest : string -> string)
        (filepath content : string) (w : World) :
  notes w !! filepath = Some content ->
  exists w',
    StateManager.update_file_hash md5_hexdigest filepath w = (inr tt, w')
    /\ file_hashes (st w') !! filepath = Some (md5_hexdigest content)
    /\ processed_urls (st w') = processed_urls (st w)
    /\ disk w' = Some (st w')
    /\ StateManager.has_file_changed md5_hexdigest filepath w'
       = (inr false, w')
    /\ (forall content',
          fst (StateManager.has_file_changed
                 md5_hexdigest filepath
                 (snd (MarkdownProcessor.write_file filepath content' w')))
          = inr (negb (String.eqb
                         (md5_hexdigest
                            (Py.universal_newlines
                               (Py.translate_newlines (linesep os_path)
                                                      content')))
                         (md5_hexdigest content))))
    /\ (forall content',
          Newlines.native os_path -> Newlines.no_cr content' ->
          fst (StateManager.has_file_changed
                 md5_hexdigest filepath
                 (snd (MarkdownProcessor.write_file filepath content' w')))
          = inr (negb (String.eqb (md5_hexdigest content')
                                  (md5_hexdigest content))))
    /\ (file_hashes (st w) !! filepath = None ->
        StateManager.has_file_changed md5_hexdigest filepath w = (inr true, w)).
Proof.
  intros Hfile. unfold notes in Hfile. eexists. split.
  { unfold StateManager.update_file_hash, bind, StateManager.get_file_hash,
      StateManager.save_state, notes. rewrite Hfile. reflexivity. }
  cbn [st file_hashes processed_urls disk].
  split; [apply lookup_insert_eq |]. split; [reflexivity |].
  split; [reflexivity |].
  assert (Hwrite :
            forall content',
              fst (StateManager.has_file_changed
                     md5_hexdigest filepath
                     (snd (MarkdownProcessor.write_file
                             filepath content'
                             (mkWorld (responses w) (clock w) (trace w)
                                      (files w)
                                      (mkState
                                         (processed_urls (st w))
                                         (<[filepath := md5_hexdigest content]>
                                            (file_hashes (st w))))
                                      (Some
                                         (mkState
                                            (processed_urls (st w))
                                            (<[filepath :=
                                                 md5_hexdigest content]>
                                               (file_hashes (st w)))))))))
              = inr (negb (String.eqb
                             (md5_hexdigest
                                (Py.universal_newlines
                                   (Py.translate_newlines (linesep os_path)
                                                          content')))
                             (md5_hexdigest content)))).
  { intros content'.
    unfold StateManager.has_file_changed, bind, StateManager.get_file_hash,
      MarkdownProcessor.write_file, notes.
    cbn [snd fst files st file_hashes].
    rewrite fmap_insert, lookup_insert_eq.
    cbn [snd fst files st file_hashes]. now rewrite lookup_insert_eq. }
  split; [| split; [exact Hwrite | split]].
  - unfold StateManager.has_file_changed, bind, StateManager.get_file_hash,
      notes.
    cbn [snd fst files st file_hashes]. rewrite Hfile.
    cbn [snd fst files st file_hashes].
    rewrite lookup_insert_eq, String.eqb_refl. reflexivity.
  - intros content' Hnative Hcr.
    rewrite Hwrite, read_back by assumption. reflexivity.
  - intros Hnew.
    unfold StateManager.has_file_changed, bind, StateManager.get_file_hash,
      notes.
    now rewrite Hfile, Hnew.
Qed.

Lemma update_file_hash_round_trip_witness :
  exists w',
    StateManager.update_file_hash Persist.plain_digest "notes.md"
                                  Persist.w_seen = (inr tt, w')
    /\ StateManager.has_file_changed Persist.plain_digest "notes.md" w'
       = (inr false, w').
Proof.
  destruct (update_file_hash_round_trip
              Pipeline.posix Persist.plain_digest "notes.md"
              "see https://doi.org/10.1000/xyz123, and http://example.org/x"
              Persist.w_seen)
    as (w' & Hrun & _ & _ & _ & Hsame & _).
  - vm_compute. reflexivity.
  - exists w'. split; assumption.
Defined.

(** ** What a scan does to the store *)

Section ScanFacts.

Import Store Persist Budget.

Variable os_path : OsPath.
Variable pdf_dir : string.

(** The loop body keeps the files; it leaves the state and the state
    file alone, or records its own URL, new until then, and flushes. *)
Lemma process_url_effect (filepath url : string) (results : list Result)
      (w : World) :
  let w' := snd (MarkdownProcessor.process_url
                   os_path pdf_dir filepath results url w) in
  files w' = files w
  /\ ((st w' = st w /\ disk w' = disk w)
      \/ (processed_urls (st w) !! url = None
          /\ disk w' = Some (st w')
          /\ exists now snapshot,
              st w' = StateManager.record_url now url snapshot (st w))).
Proof.
  unfold MarkdownProcessor.process_url, bind.
  rewrite run_is_url_processed.
  destruct (processed_urls (st w) !! url) as [entry|] eqn:Hold; simpl;
    [now auto |].
  destruct (Py.truthy_opt (URLParser.extract_arxiv_id url)).
  - pose proof (keeps_process_arxiv
                  (default EmptyString (URLParser.extract_arxiv_id url)) w)
      as (H1 & H1d & H1n).
    destruct (MarkdownProcessor._process_arxiv _ w) as [[e | [p|]] w1];
      simpl in *; [now auto | | now auto].
    pose proof (keeps_generate_filename p w1) as (H2 & H2d & H2n).
    destruct (PDFDownloader.generate_filename p w1) as [[e | name] w1'];
      simpl in *; [split; [congruence | left; split; congruence] |].
    pose proof (keeps_download
                  os_path (pdf_url p) (path_join os_path pdf_dir name) w1')
      as (H3 & H3d & H3n).
    destruct (PDFDownloader.download _ _ w1') as [[e | ok] w2];
      simpl in *; [split; [congruence | left; split; congruence] |].
    split; [congruence |]. right. split; [reflexivity |].
    split; [reflexivity |]. eexists _, _. rewrite H3, H2, H1. reflexivity.
  - destruct (Py.truthy_opt (URLParser.extract_doi url)); simpl;
      [| now auto].
    split; [reflexivity |]. right. eauto.
Qed.

(** A property of worlds that every round of the loop keeps is kept by
    the loop, whether it returns or raises. *)
Lemma process_urls_invariant (P : World -> Prop) (filepath : string) :
  (forall results url w,
      P w -> P (snd (MarkdownProcessor.process_url
                       os_path pdf_dir filepath results url w))) ->
  forall urls results w,
    P w -> P (snd (MarkdownProcessor.process_urls
                     os_path pdf_dir filepath results urls w)).
Proof.
  intros Hstep. induction urls as [|url urls IH]; intros results w Hw;
    simpl; [exact Hw |].
  unfold bind at 1. specialize (Hstep results url w Hw).
  destruct (MarkdownProcessor.process_url _ _ _ results url w)
    as [[e | rs1] w1]; simpl in *; [exact Hstep | now apply IH].
Qed.

Lemma process_file_invariant (P : World -> Prop) (filepath : string) :
  (forall results url w,
      P w -> P (snd (MarkdownProcessor.process_url
                       os_path pdf_dir filepath results url w))) ->
  forall w,
    P w -> P (snd (MarkdownProcessor.process_file
                     os_path pdf_dir filepath w)).
Proof.
  intros Hstep w Hw.
  unfold MarkdownProcessor.process_file, bind, MarkdownProcessor.read_file.
  destruct (notes w !! filepath); [| exact Hw].
  now apply process_urls_invariant.
Qed.

Lemma process_url_flushed (filepath url : string) (results : list Result)
      (w : World) :
  flushed w ->
  flushed (snd (MarkdownProcessor.process_url
                  os_path pdf_dir filepath results url w)).
Proof.
  unfold flushed. intros Hw.
  destruct (process_url_effect filepath url results w)
    as (_ & [(Hst & Hdisk) | (_ & Hdisk & _)]).
  - now rewrite Hst, Hdisk.
  - now rewrite Hdisk.
Qed.

Lemma process_url_keeps_entry (filepath url x : string) (e : ProcessedEntry)
      (results : list Result) (w : World) :
  processed_urls (st w) !! x = Some e ->
  processed_urls
    (st (snd (MarkdownProcessor.process_url
                os_path pdf_dir filepath results url w))) !! x = Some e.
Proof.
  intros Hx.
  destruct (process_url_effect filepath url results w)
    as (_ & [(Hst & _) | (Hnew & _ & now & snapshot & Hst)]);
    rewrite Hst; [exact Hx |].
  simpl. rewrite lookup_insert_ne; [exact Hx | congruence].
Qed.

Lemma process_url_keeps_files (filepath url : string) (results : list Result)
      (w0 w : World) :
  files w = files w0 ->
  files (snd (MarkdownProcessor.process_url
                os_path pdf_dir filepath results url w)) = files w0.
Proof.
  intros Hw. destruct (process_url_effect filepath url results w) as (Hn & _).
  congruence.
Qed.

End ScanFacts.

(** X15: a scan never leaves a recorded link in memory only: when the
    state in memory is what the state file holds before [process_file],
    it is so afterwards, whether the call returns or raises, so loading
    the state again changes nothing; the notes are not touched, neither
    their text nor the files that hold it. *)
Theorem process_file_flushes
        (os_path : OsPath) (pdf_dir filepath : string) (w : World) :
  Persist.flushed w ->
  let w' := snd (MarkdownProcessor.process_file os_path pdf_dir filepath w) in
  Persist.flushed w'
  /\ st (snd (StateManager.init w')) = st w'
  /\ notes w' = notes w
  /\ files w' = files w.
Proof.
  intros Hw w'.
  assert (Hflushed : Persist.flushed w').
  { apply (process_file_invariant os_path pdf_dir Persist.flushed); [| exact Hw].
    intros results url w1. apply process_url_flushed. }
  assert (Hfiles : files w' = files w).
  { apply (process_file_invariant os_path pdf_dir
                                  (fun w1 => files w1 = files w));
      [| reflexivity].
    intros results url w1. apply process_url_keeps_files. }
  split; [exact Hflushed |]. split; [| split; [| exact Hfiles]].
  - unfold StateManager.init, bind, StateManager._load_state. simpl.
    symmetry. exact Hflushed.
  - unfold notes. now rewrite Hfiles.
Qed.

Lemma process_file_flushes_witness :
  Persist.flushed
    (snd (MarkdownProcessor.process_file Pipeline.posix "pdfs" "notes.md"
                                         Persist.w_seen)).
Proof.
  apply (process_file_flushes Pipeline.posix "pdfs" "notes.md" Persist.w_seen).
  vm_compute. reflexivity.
Defined.

(** X16: [process_file] never changes an entry that is already
    recorded: every URL processed before the call is processed after
    it with the same time stamp and snapshot, whether the call returns
    or raises. *)
Theorem process_file_keeps_entries
        (os_path : OsPath) (pdf_dir filepath url : string)
        (entry : ProcessedEntry) (w : World) :
  processed_urls (st w) !! url = Some entry ->
  processed_urls
    (st (snd (MarkdownProcessor.process_file os_path pdf_dir filepath w)))
  !! url = Some entry.
Proof.
  intros Hx.
  apply (process_file_invariant
           os_path pdf_dir
           (fun w1 => processed_urls (st w1) !! url = Some entry));
    [| exact Hx].
  intros results u w1. apply process_url_keeps_entry.
Qed.

Lemma process_file_keeps_entries_witness :
  processed_urls
    (st (snd (MarkdownProcessor.process_file Pipeline.posix "pdfs" "notes.md"
                                             Persist.w_seen)))
  !! Samples.doi_url = Some (mkEntry 7 Samples.doi_info).
Proof.
  apply (process_file_keeps_entries Pipeline.posix "pdfs" "notes.md").
  vm_compute. reflexivity.
Defined.

(** ** A scan with nothing to do, and what a scan returns *)

Section ScanResults.

Import Persist Budget.

Variable os_path : OsPath.
Variable pdf_dir : string.

Lemma run_process_url_nothing (filepath url : string) (results : list Result)
      (w : World) :
  nothing_to_do w url ->
  MarkdownProcessor.process_url os_path pdf_dir filepath results url w
  = (inr results, w).
Proof.
  unfold MarkdownProcessor.process_url, bind.
  rewrite run_is_url_processed.
  intros [Hrec | [Harxiv Hdoi]].
  - destruct (processed_urls (st w) !! url); [reflexivity | congruence].
  - destruct (processed_urls (st w) !! url); [reflexivity |].
    simpl. now rewrite Harxiv, Hdoi.
Qed.

Lemma run_process_urls_nothing (filepath : string) (urls : list string)
      (results : list Result) (w : World) :
  Forall (nothing_to_do w) urls ->
  MarkdownProcessor.process_urls os_path pdf_dir filepath results urls w
  = (inr results, w).
Proof.
  induction 1 as [|url urls Hurl Hurls IH]; simpl; [reflexivity |].
  unfold bind at 1. now rewrite (run_process_url_nothing _ _ _ _ Hurl).
Qed.

Lemma process_url_cases (filepath url : string)
      (results results' : list Result) (w w' : World) :
  MarkdownProcessor.process_url os_path pdf_dir filepath results url w
  = (inr results', w') ->
  results' = results
  \/ exists p pdf,
      results' = (results ++ [(url, p, pdf)])%list
      /\ added w w' (url, p, pdf).
Proof.
  unfold MarkdownProcessor.process_url, bind.
  rewrite run_is_url_processed.
  destruct (processed_urls (st w) !! url) as [entry|] eqn:Hold; simpl;
    [intros [= <- <-]; now left |].
  destruct (URLParser.extract_arxiv_id url) as [paper_id|] eqn:Hid; simpl.
  - destruct (Py.truthy paper_id) eqn:Htruthy.
    + pose proof (yields_process_arxiv paper_id w) as Hres.
      destruct (MarkdownProcessor._process_arxiv paper_id w)
        as [[e | [p|]] w1]; simpl in *;
        [discriminate | | intros [= <- <-]; now left].
      destruct (PDFDownloader.generate_filename p w1) as [[e | name] w1'];
        [discriminate |].
      destruct (PDFDownloader.download _ _ w1') as [[e | ok] w2];
        [discriminate |].
      simpl. intros [= <- <-]. right. eexists _, _. split; [reflexivity |].
      split; [exact Hold |]. exists paper_id. eexists.
      split; [exact Hid |]. split; [exact Htruthy |].
      split; [now apply (Hres p) |].
      simpl. apply lookup_insert_eq.
    + destruct (Py.truthy_opt (URLParser.extract_doi url));
        simpl; intros [= <- <-]; now left.
  - destruct (Py.truthy_opt (URLParser.extract_doi url));
      simpl; intros [= <- <-]; now left.
Qed.

Lemma added_later (filepath url : string) (results : list Result)
      (w0 w : World) (r : Result) :
  added w0 w r ->
  added w0 (snd (MarkdownProcessor.process_url
                   os_path pdf_dir filepath results url w)) r.
Proof.
  intros (Hnew & paper_id & t & Hid & Htruthy & Hres & Hentry).
  split; [exact Hnew |]. exists paper_id, t.
  split; [exact Hid |]. split; [exact Htruthy |]. split; [exact Hres |].
  now apply process_url_keeps_entry.
Qed.

(** The invariant of the loop of [process_file]: the URLs of the
    results are distinct, found in the note, new at the start of the
    scan and recorded by now. *)
Lemma process_urls_added (filepath : string) (w0 : World)
      (found : list string) (urls : list string) :
  forall (results results' : list Result) (w w' : World),
    (forall x e, processed_urls (st w0) !! x = Some e ->
                 processed_urls (st w) !! x = Some e) ->
    NoDup (Rewrite.url_of <$> results) ->
    Forall (fun r => added w0 w r /\ Rewrite.url_of r ∈ found) results ->
    (forall u, u ∈ urls -> u ∈ found) ->
    MarkdownProcessor.process_urls os_path pdf_dir filepath results urls w
    = (inr results', w') ->
    NoDup (Rewrite.url_of <$> results')
    /\ Forall (fun r => added w0 w' r /\ Rewrite.url_of r ∈ found) results'.
Proof.
  induction urls as [|url urls IH];
    intros results results' w w' Hmono Hnd Hall Hfound; simpl.
  - intros [= <- <-]. auto.
  - unfold bind at 1.
    destruct (MarkdownProcessor.process_url _ _ _ results url w)
      as [[e | rs1] w1] eqn:Hstep; [discriminate |].
    intros Hrest.
    assert (Hw1 : w1 = snd (MarkdownProcessor.process_url
                              os_path pdf_dir filepath results url w))
      by now rewrite Hstep.
    apply (IH rs1 results' w1 w'); try assumption.
    + intros x e Hx. rewrite Hw1.
      apply process_url_keeps_entry. now apply Hmono.
    + apply process_url_cases in Hstep as [-> | (p & pdf & -> & Hadd)];
        [exact Hnd |].
      rewrite fmap_app. apply NoDup_app. split; [exact Hnd |].
      split; [| apply NoDup_singleton].
      intros x Hx Hx'. apply list_elem_of_singleton in Hx'. simpl in Hx'.
      subst x. apply list_elem_of_fmap in Hx as (r & Hurl & Hr).
      rewrite Forall_forall in Hall.
      destruct (Hall r Hr) as ((_ & paper_id & t & _ & _ & _ & Hentry) & _).
      destruct Hadd as (Hnew & _).
      rewrite Hurl in Hnew. congruence.
    + assert (Hold : Forall (fun r => added w0 w1 r
                                      /\ Rewrite.url_of r ∈ found) results).
      { eapply Forall_impl; [exact Hall |]. intros r [Hr Hin].
        split; [| exact Hin]. rewrite Hw1. now apply added_later. }
      apply process_url_cases in Hstep as [-> | (p & pdf & -> & Hadd)];
        [exact Hold |].
      apply Forall_app. split; [exact Hold |]. apply Forall_singleton.
      split.
      * destruct Hadd as (Hnew & Hrest').
        split; [| exact Hrest'].
        destruct (processed_urls (st w0) !! Rewrite.url_of (url, p, pdf))
          as [e0|] eqn:H0; [| reflexivity].
        apply Hmono in H0. congruence.
      * apply Hfound. now left.
    + intros u Hu. apply Hfound. now right.
Qed.

End ScanResults.

(** X17: a scan of a note whose links are all recorded already, or
    carry neither an arXiv identifier nor a DOI, finds nothing to do:
    [process_file] returns the empty list and leaves the world as it
    is, without a request, a pause or a write. *)
Theorem process_file_nothing_to_do
        (os_path : OsPath) (pdf_dir filepath content : string) (w : World) :
  notes w !! filepath = Some content ->
  Forall (Persist.nothing_to_do w) (URLParser.find_urls_in_text content) ->
  MarkdownProcessor.process_file os_path pdf_dir filepath w = (inr [], w).
Proof.
  intros Hfile Hall.
  unfold MarkdownProcessor.process_file, bind, MarkdownProcessor.read_file.
  rewrite Hfile. now apply run_process_urls_nothing.
Qed.

Lemma process_file_nothing_to_do_witness :
  MarkdownProcessor.process_file Pipeline.posix "pdfs" "notes.md"
                                 Persist.w_seen
  = (inr [], Persist.w_seen).
Proof.
  apply (process_file_nothing_to_do
           Pipeline.posix "pdfs" "notes.md"
           "see https://doi.org/10.1000/xyz123, and http://example.org/x").
  - vm_compute. reflexivity.
  - assert (Hurls : URLParser.find_urls_in_text
                      "see https://doi.org/10.1000/xyz123, and http://example.org/x"
                    = [Samples.doi_url; "http://example.org/x"])
      by (vm_compute; reflexivity).
    rewrite Hurls.
    constructor; [left; vm_compute; discriminate |].
    constructor; [right; split; vm_compute; reflexivity | constructor].
Defined.

(** X18: the triples that [process_file] returns have pairwise distinct
    URLs; each URL was found in the note, was not recorded before the
    scan and is recorded after it, with the title and the arXiv
    identifier of its paper as snapshot; the identifier is the one
    extracted from the URL, and the paper is resolved for it. *)
Theorem process_file_results
        (os_path : OsPath) (pdf_dir filepath content : string)
        (results : list Result) (w w' : World) :
  notes w !! filepath = Some content ->
  MarkdownProcessor.process_file os_path pdf_dir filepath w
  = (inr results, w') ->
  NoDup (Rewrite.url_of <$> results)
  /\ Forall (fun r => Persist.added w w' r
                      /\ Rewrite.url_of r ∈ URLParser.find_urls_in_text content)
            results.
Proof.
  intros Hfile.
  unfold MarkdownProcessor.process_file, bind, MarkdownProcessor.read_file.
  rewrite Hfile. intros Hrun.
  apply (process_urls_added os_path pdf_dir filepath w
                            (URLParser.find_urls_in_text content)
                            (URLParser.find_urls_in_text content)
                            [] results w w'); auto.
  constructor.
Qed.

Lemma process_file_results_witness :
  NoDup (Rewrite.url_of
           <$> [(Rewrite.sample_url, Pipeline.foo_paper, @None string)])
  /\ Forall (fun r =>
               Persist.added
                 Persist.w_one_link
                 (snd (MarkdownProcessor.process_file
                         Pipeline.posix "pdfs" "notes.md" Persist.w_one_link))
                 r
               /\ Rewrite.url_of r
                    ∈ URLParser.find_urls_in_text Rewrite.sample_url)
            [(Rewrite.sample_url, Pipeline.foo_paper, @None string)].
Proof.
  apply (process_file_results Pipeline.posix "pdfs" "notes.md"
                              Rewrite.sample_url);
    vm_compute; reflexivity.
Defined.

(** ** The requests of a scan *)

Section ScanBudget.

Import Budget.

Variable os_path : OsPath.
Variable pdf_dir : string.

Lemma at_most_download (url : option string) (save_path : string) :
  requests_at_most 1 (PDFDownloader.download url save_path).
Proof.
  unfold PDFDownloader.download. destruct url as [u|];
    [| eapply at_most_weaken; [| apply at_most_pure]; lia].
  destruct (PDFDownloader.sendable u);
    [| eapply at_most_weaken; [| apply at_most_pure]; lia].
  apply (at_most_bind 1 0); [apply at_most_http_get |].
  intros [| status_code body]; [apply at_most_pure |].
  destruct (is_http_error status_code); [apply at_most_pure |].
  destruct (_ && _); [| apply at_most_pure].
  intros w. unfold requests, Retry.attempts; simpl.
  rewrite List.filter_app, length_app. simpl. lia.
Qed.

Lemma at_most_generate_filename (p : PaperInfo) :
  requests_at_most 0 (PDFDownloader.generate_filename p).
Proof.
  unfold PDFDownloader.generate_filename.
  destruct (authors p) as [|first others]; [apply at_most_pure |].
  destruct (last (Py.words first)); [apply at_most_pure | apply at_most_raise].
Qed.

Lemma at_most_mark_url_processed (url : string)
      (snapshot : list (string * string)) :
  requests_at_most 0 (StateManager.mark_url_processed url snapshot).
Proof. intros w. rewrite run_mark_url_processed. unfold requests; simpl. lia. Qed.

Lemma at_most_process_url (filepath url : string) (results : list Result) :
  requests_at_most 11
    (MarkdownProcessor.process_url os_path pdf_dir filepath results url).
Proof.
  unfold MarkdownProcessor.process_url.
  apply (at_most_bind 0 11);
    [intros w; rewrite run_is_url_processed; simpl; lia |].
  intros processed.
  destruct processed; [eapply at_most_weaken; [| apply at_most_pure]; lia |].
  destruct (Py.truthy_opt (URLParser.extract_arxiv_id url)).
  - apply (at_most_bind 10 1); [apply at_most_process_arxiv |].
    intros [p|]; [| eapply at_most_weaken; [| apply at_most_pure]; lia].
    apply (at_most_bind 0 1); [apply at_most_generate_filename |].
    intros name.
    apply (at_most_bind 1 0); [apply at_most_download |]. intros ok.
    apply (at_most_bind 0 0); [apply at_most_mark_url_processed |]. intros _.
    apply (at_most_bind 0 0); [apply at_most_sleep |]. intros _.
    apply at_most_pure.
  - destruct (Py.truthy_opt (URLParser.extract_doi url)).
    + apply (at_most_bind 0 11); [apply at_most_mark_url_processed |].
      intros _. eapply at_most_weaken; [| apply at_most_pure]; lia.
    + eapply at_most_weaken; [| apply at_most_pure]; lia.
Qed.

Lemma at_most_process_urls (filepath : string) (urls : list string) :
  forall results,
    requests_at_most (11 * length urls)
      (MarkdownProcessor.process_urls os_path pdf_dir filepath results urls).
Proof.
  induction urls as [|url urls IH]; intros results; simpl length.
  - apply at_most_pure.
  - replace (11 * S (length urls)) with (11 + 11 * length urls) by lia.
    cbn [MarkdownProcessor.process_urls].
    apply (at_most_bind 11 (11 * length urls));
      [apply at_most_process_url | exact IH].
Qed.

End ScanBudget.

(** X19: a scan sends at most eleven requests per link found in the
    note (three to the citation-graph service, one to the feed and
    three more after a 403, three for the citation count, one for the
    PDF), whether it returns or raises. *)
Theorem process_file_request_budget
        (os_path : OsPath) (pdf_dir filepath content : string) (w : World) :
  notes w !! filepath = Some content ->
  Budget.requests
    (snd (MarkdownProcessor.process_file os_path pdf_dir filepath w))
  <= Budget.requests w
     + 11 * length (URLParser.find_urls_in_text content).
Proof.
  intros Hfile.
  unfold MarkdownProcessor.process_file, bind, MarkdownProcessor.read_file.
  rewrite Hfile.
  apply (at_most_process_urls os_path pdf_dir filepath
                              (URLParser.find_urls_in_text content) [] w).
Qed.

Lemma process_file_request_budget_witness :
  Budget.requests
    (snd (MarkdownProcessor.process_file Pipeline.posix "pdfs" "notes.md"
                                         Persist.w_one_link))
  <= Budget.requests Persist.w_one_link
     + 11 * length (URLParser.find_urls_in_text Rewrite.sample_url).
Proof.
  apply (process_file_request_budget Pipeline.posix "pdfs" "notes.md").
  vm_compute. reflexivity.
Defined.

(** ** Recording a URL *)

(** X20: after [mark_url_processed] the URL is processed and every
    other URL is processed exactly when it was; the entry holds the
    time of the call and the snapshot given; the number of entries
    grows by one for a new URL and stays for a recorded one; the file
    hashes are kept; and the state file holds the state in memory. *)
Theorem mark_url_processed_records
        (url : string) (snapshot : list (string * string)) (w : World) :
  exists w',
    StateManager.mark_url_processed url snapshot w = (inr tt, w')
    /\ (forall u,
          fst (StateManager.is_url_processed u w')
          = inr (String.eqb u url
                 || Py.present (processed_urls (st w) !! u)))
    /\ processed_urls (st w') !! url = Some (mkEntry (clock w) snapshot)
    /\ size (processed_urls (st w'))
       = (if Py.present (processed_urls (st w) !! url)
          then size (processed_urls (st w))
          else S (size (processed_urls (st w))))
    /\ file_hashes (st w') = file_hashes (st w)
    /\ Persist.flushed w'.
Proof.
  rewrite run_mark_url_processed. eexists. split; [reflexivity |].
  unfold StateManager.is_url_processed, Persist.flushed; simpl.
  split; [| split; [apply lookup_insert_eq | split; [| now split]]].
  - intros u. destruct (String.eqb_spec u url) as [-> | Hne]; simpl.
    + now rewrite lookup_insert_eq.
    + rewrite lookup_insert_ne by congruence. reflexivity.
  - rewrite map_size_insert.
    now destruct (processed_urls (st w) !! url).
Qed.

(** ** [PaperWatcherHandler.process_pending] *)

Section PendingFacts.

Variable os_path : OsPath.
Variable pdf_dir : string.
Variable md5_hexdigest : string -> string.

Lemma run_process_pending_file (pending : gset string) (filepath : string)
      (w : World) :
  exists w',
    PaperWatcherHandler.process_pending_file
      os_path pdf_dir md5_hexdigest pending filepath w
    = (inr (pending ∖ {[filepath]}), w')
    /\ (notes w !! filepath = None -> w' = w).
Proof.
  unfold PaperWatcherHandler.process_pending_file.
  destruct (notes w !! filepath) as [content|]; [| eauto].
  unfold bind at 1, try_except.
  match goal with
  | |- context [match ?body w with _ => _ end] =>
      destruct (body w) as [[e | []] w1]
  end; simpl; eexists; (split; [reflexivity | discriminate]).
Qed.

Lemma run_process_pending_over (snapshot : list string) :
  forall (pending : gset string) (w : World),
  exists w',
    PaperWatcherHandler.process_pending_over
      os_path pdf_dir md5_hexdigest snapshot pending w
    = (inr (pending ∖ list_to_set snapshot), w').
Proof.
  induction snapshot as [|filepath rest IH]; intros pending w; simpl.
  - exists w. unfold pure. now rewrite difference_empty_L.
  - unfold bind at 1.
    destruct (run_process_pending_file pending filepath w) as (w1 & -> & _).
    destruct (IH (pending ∖ {[filepath]}) w1) as (w' & ->).
    exists w'. now rewrite difference_difference_l_L.
Qed.

End PendingFacts.

(** X21: [process_pending] never raises, whatever happens while a note
    is processed: every path of the snapshot leaves the pending set, so
    the set is empty afterwards; a path whose file is gone is dropped
    without any other effect. *)
Theorem process_pending_drains
        (os_path : OsPath) (pdf_dir : string)
        (md5_hexdigest : string -> string)
        (pending : gset string) (w : World) :
  (exists w',
      PaperWatcherHandler.process_pending
        os_path pdf_dir md5_hexdigest pending w = (inr ∅, w'))
  /\ (forall snapshot, exists w',
         PaperWatcherHandler.process_pending_over
           os_path pdf_dir md5_hexdigest snapshot pending w
         = (inr (pending ∖ list_to_set snapshot), w'))
  /\ (forall filepath,
         notes w !! filepath = None ->
         PaperWatcherHandler.process_pending_file
           os_path pdf_dir md5_hexdigest pending filepath w
         = (inr (pending ∖ {[filepath]}), w)).
Proof.
  split; [| split].
  - unfold PaperWatcherHandler.process_pending.
    destruct (run_process_pending_over os_path pdf_dir md5_hexdigest
                                       (elements pending) pending w)
      as (w' & Hrun).
    exists w'. rewrite Hrun. f_equal. f_equal.
    rewrite list_to_set_elements_L. apply difference_diag_L.
  - intros snapshot. apply run_process_pending_over.
  - intros filepath Hgone.
    destruct (run_process_pending_file os_path pdf_dir md5_hexdigest
                                       pending filepath w)
      as (w' & Hrun & Hsame).
    now rewrite Hrun, (Hsame Hgone).
Qed.

(** ** A link whose first author has a blank name *)

(** X22: when the paper resolved for a new link has a first author
    whose name is blank, [process_file] raises [IndexError] at that
    link, before any download: the link is not marked, the state is as
    before, and the remaining links of the note are not examined. *)
Theorem process_file_blank_author_aborts
        (os_path : OsPath) (pdf_dir filepath url paper_id : string)
        (results : list Result) (rest : list string) (p : PaperInfo)
        (w w1 : World) :
  processed_urls (st w) !! url = None ->
  URLParser.extract_arxiv_id url = Some paper_id ->
  Py.truthy paper_id = true ->
  MarkdownProcessor._process_arxiv paper_id w = (inr (Some p), w1) ->
  Persist.first_author_blank p ->
  MarkdownProcessor.process_urls os_path pdf_dir filepath results
                                 (url :: rest) w
  = (inl IndexError, w1)
  /\ st w1 = st w
  /\ processed_urls (st w1) !! url = None
  /\ Budget.requests w1 <= Budget.requests w + 10.
Proof.
  intros Hnew Hid Htruthy Hinfo (first & others & Hauthors & Hblank).
  assert (Hname : PDFDownloader.generate_filename p w1
                  = (inl IndexError, w1)).
  { unfold PDFDownloader.generate_filename. rewrite Hauthors.
    assert (Hnil : Py.words first = []) by (now apply words_from_nil).
    now rewrite Hnil. }
  pose proof (keeps_process_arxiv paper_id w) as (Hst & _).
  pose proof (at_most_process_arxiv paper_id w) as [_ Hmost].
  rewrite Hinfo in Hst, Hmost. simpl in Hst, Hmost.
  split; [| split; [exact Hst | split; [now rewrite Hst | exact Hmost]]].
  simpl. unfold bind at 1.
  unfold MarkdownProcessor.process_url, bind.
  rewrite run_is_url_processed, Hnew, Hid. simpl. rewrite Htruthy.
  now rewrite Hinfo, Hname.
Qed.

Lemma process_file_blank_author_aborts_witness :
  MarkdownProcessor.process_urls
    Pipeline.posix "pdfs" "notes.md" []
    [Rewrite.sample_url; Samples.doi_url] Persist.w_blank_author
  = (inl IndexError,
     snd (MarkdownProcessor._process_arxiv "2301.00001"
                                           Persist.w_blank_author)).
Proof.
  apply (process_file_blank_author_aborts
           Pipeline.posix "pdfs" "notes.md" Rewrite.sample_url "2301.00001"
           [] [Samples.doi_url]
           Persist.blank_author_paper
           Persist.w_blank_author);
    try (vm_compute; reflexivity).
  exists "  ", ["B. Author"]. split; vm_compute; reflexivity.
Defined.

(** ** The links found in a text *)

Section HttpUrls.

Import Lang.

Lemma all_chars_prefix (p : ascii -> bool) (a b : string) :
  all_chars p (a +:+ b) = true -> all_chars p a = true.
Proof. rewrite all_chars_append. now intros [Ha _]%andb_prop. Qed.

Lemma startswith_prefix_of (pre a b : string) :
  String.length pre <= String.length a ->
  Py.startswith pre (a +:+ b) = Py.startswith pre a.
Proof.
  revert a. induction pre as [|c pre IH]; intros [|d a]; simpl; try lia;
    try reflexivity.
  intros Hlen. rewrite IH by lia. reflexivity.
Qed.

(** A match of [url_pattern] either holds no whitespace and none of the
    characters that end a URL, or is a [doi:] reference. *)
Lemma lang_url_pattern_class (m : string) :
  lang URLParser.url_pattern m ->
  all_chars (Re.not_space_nor URLParser.url_stop_chars) m = true
  \/ exists rest, m = "doi:" +:+ rest.
Proof.
  unfold URLParser.url_pattern, Re.plus. cbn [lang Re.cat]. intros [H | H].
  - left.
    destruct H as (a & b & -> & Ha & c & d & -> & Hc & e & body & -> & He
                     & Hbody & _).
    apply lang_lit in Ha, He. subst a e.
    rewrite !all_chars_append, Hbody.
    destruct Hc as [-> | Hc]; [reflexivity |].
    apply lang_lit in Hc. subst c. reflexivity.
  - right. destruct H as (a & b & -> & Ha & _).
    apply lang_lit in Ha. subst a. eauto.
Qed.

End HttpUrls.

(** X23: a link returned by [find_urls_in_text] that does not start
    with [doi:] holds no whitespace, no closing bracket or parenthesis,
    no angle bracket and no quote. *)
Theorem find_urls_in_text_http_clean (text url : string) :
  url ∈ URLParser.find_urls_in_text text ->
  Py.startswith "doi:" url = false ->
  Lang.all_chars (Re.not_space_nor URLParser.url_stop_chars) url = true.
Proof.
  unfold URLParser.find_urls_in_text, Re.findall. intros Hin Hnot.
  apply list_elem_of_fmap in Hin as (m & -> & Hm).
  pose proof (all_matches_in_lang URLParser.url_pattern text 0) as Hlang.
  rewrite Forall_forall in Hlang. specialize (Hlang m Hm).
  destruct (rstrip_by_prefix (Py.char_in ".,;:") m) as (tail & Hsplit & _).
  apply lang_url_pattern_class in Hlang as [Hclean | (rest & ->)].
  - rewrite Hsplit in Hclean. now apply all_chars_prefix in Hclean.
  - exfalso. unfold Py.rstrip in Hnot.
    pose proof (all_matches_in_lang URLParser.url_pattern text 0) as Hlang.
    rewrite Forall_forall in Hlang. specialize (Hlang _ Hm).
    apply rstrip_url_prefixed in Hlang.
    unfold Py.rstrip in Hlang.
    destruct Hlang as [H | [H | H]]; [| | congruence].
    + remember (Py.rstrip_by (Py.char_in ".,;:") ("doi:" +:+ rest)) as u.
      destruct (rstrip_by_prefix (Py.char_in ".,;:") ("doi:" +:+ rest))
        as (tail' & Htail' & _).
      rewrite <- Hequ in Htail'.
      destruct u as [|c u]; [discriminate |].
      simpl in H. apply andb_prop in H as [Hc _].
      apply Ascii.eqb_eq in Hc. subst c. discriminate.
    + remember (Py.rstrip_by (Py.char_in ".,;:") ("doi:" +:+ rest)) as u.
      destruct (rstrip_by_prefix (Py.char_in ".,;:") ("doi:" +:+ rest))
        as (tail' & Htail' & _).
      rewrite <- Hequ in Htail'.
      destruct u as [|c u]; [discriminate |].
      simpl in H. apply andb_prop in H as [Hc _].
      apply Ascii.eqb_eq in Hc. subst c. discriminate.
Qed.

Lemma find_urls_in_text_http_clean_witness :
  Lang.all_chars (Re.not_space_nor URLParser.url_stop_chars)
                 "http://example.org/x" = true.
Proof.
  apply (find_urls_in_text_http_clean
           "see https://doi.org/10.1000/xyz123, and http://example.org/x").
  - vm_compute. apply list_elem_of_In. right. left. reflexivity.
  - vm_compute. reflexivity.
Defined.

(** ** A paper read from the arXiv feed *)

Section FeedFacts.


End FeedFacts.

